(** * main_train.py: loss and scheduler selection of [CustomTrainer],
      command line and training configuration

    A shallow embedding of [src/main_train.py].  The program is a thin layer
    over argparse, scikit-learn, PyTorch and the transformers [Trainer]; the
    library routines it calls are embedded next to the code that calls them,
    each under the name it has in its library.

    Conventions:
    - Python [int] is [Z]; Python [float] is a rational [Q], and
      [Py.to_double] is the double nearest to a rational: where a result of
      the code depends on the rounding of a floating-point operation (the
      product behind the split sizes) the operation is the rounded one,
      [Py.float_mul]; comparisons are those of the rationals;
    - a Python call that may raise returns [Py.result];
    - an attribute or local variable that may hold [None] or be unbound is an
      [option]. *)

From Stdlib Require Import ZArith QArith Qround Qabs Qminmax Qpower Lqa String List Bool Lia Permutation.
Import ListNotations.

Local Open Scope string_scope.
Local Open Scope Z_scope.

(** ** Python results and exceptions *)

Module Py.

(** The exception classes that the modelled code can raise. *)
Inductive exn : Type :=
| UnboundLocalError (name : string)
| AttributeError (msg : string)
| ValueError (msg : string)
| TypeError (msg : string)
| RuntimeError (msg : string)
| KeyError (key : string)
| ZeroDivisionError
| SystemExit (code : Z).

Definition class_name (e : exn) : string :=
  match e with
  | UnboundLocalError _ => "UnboundLocalError"
  | AttributeError _ => "AttributeError"
  | ValueError _ => "ValueError"
  | TypeError _ => "TypeError"
  | RuntimeError _ => "RuntimeError"
  | KeyError _ => "KeyError"
  | ZeroDivisionError => "ZeroDivisionError"
  | SystemExit _ => "SystemExit"
  end.

Inductive result (A : Type) : Type :=
| Return (a : A)
| Raise (e : exn).

Arguments Return {A} a.
Arguments Raise {A} e.

Definition bind {A B : Type} (m : result A) (k : A -> result B) : result B :=
  match m with
  | Return a => k a
  | Raise e => Raise e
  end.

(** [a // b] on ints. *)
Definition floordiv (a b : Z) : result Z :=
  if b =? 0 then Raise ZeroDivisionError else Return (a / b).

(** [bool(s)] for a [str]. *)
Definition bool_of_str (s : string) : bool := negb (s =? "")%string.

(** [a < b] on floats. *)
Definition float_lt (a b : Q) : bool := negb (Qle_bool b a).

(** [a == b] for a [str]. *)
Definition str_eq (a b : string) : bool := (a =? b)%string.

(** *** Double-precision arithmetic

    A double is a rational [m * 2^e] with a significand [m] of at most 53
    bits; the exponent range is left unbounded. *)

(** The integer nearest to [x], ties to the even one. *)
Definition round_half_even (x : Q) : Z :=
  let f := Qfloor x in
  match (x - inject_Z f ?= 1 # 2)%Q with
  | Lt => f
  | Gt => f + 1
  | Eq => if Z.even f then f else f + 1
  end.

(** The binary exponent of a positive rational: the [e] with
    [2^e <= q < 2^(e+1)]. *)
Definition exponent (q : Q) : Z :=
  let e0 := Z.log2 (Qnum q) - Z.log2 (Zpos (Qden q)) in
  if Qle_bool ((2 # 1) ^ e0) q then e0 else e0 - 1.

(** The double nearest to a positive rational: the significand is rounded
    to 53 bits. *)
Definition to_double_pos (q : Q) : Q :=
  let ulp := ((2 # 1) ^ (exponent q - 52))%Q in
  Qred (inject_Z (round_half_even (q / ulp)) * ulp).

(** The double nearest to a rational ([float(q)]). *)
Definition to_double (q : Q) : Q :=
  match (q ?= 0)%Q with
  | Eq => 0%Q
  | Gt => to_double_pos q
  | Lt => (- to_double_pos (- q))%Q
  end.

(** [a * b] on floats: the double nearest to the product of the two
    doubles. *)
Definition float_mul (a b : Q) : Q := to_double (to_double a * to_double b).

End Py.

Import Py.

Notation "x <- m ;; k" := (Py.bind m (fun x => k))
  (at level 61, m at next level, right associativity).

(** ** The parsed arguments *)

Module Namespace.

(** The object returned by [parser.parse_args()]: one attribute per
    [add_argument] call of [main]. *)
Record t : Type := {
  seed : Z;
  wandb_path : string;
  model : string;
  loss : string;
  scheduler : string;
  wandb_name : string;
  epochs : Z;
  lr : Q;
  batch : Z;
  batch_valid : Z;
  warmup : Q;
  logging_steps : Z;
  weight_decay : Q;
  metric_for_best_model : string;
  add_token : Z;
  split_ratio : Q;
  augmentation : bool;
  generate_option : Z;
  warmup_steps : Z
}.

End Namespace.

(** ** Command line ([main]) *)

Section CommandLine.

(** Python's [int(s)] and [float(s)] on a command-line string; [None] stands
    for the [ValueError] that argparse reports as a usage error. *)
Variable py_int : string -> option Z.
Variable py_float : string -> option Q.

(** The [type=] of an [add_argument] call. *)
Inductive arg_type : Type := TInt | TFloat | TStr | TBool.

(** The [add_argument] calls of [main], in order: option string without the
    leading dashes (also the attribute name) and [type]. *)
Definition arguments : list (string * arg_type) :=
  [ ("seed", TInt); ("wandb_path", TStr); ("model", TStr); ("loss", TStr);
    ("scheduler", TStr); ("wandb_name", TStr);
    ("epochs", TInt); ("lr", TFloat); ("batch", TInt); ("batch_valid", TInt);
    ("warmup", TFloat); ("logging_steps", TInt); ("weight_decay", TFloat);
    ("metric_for_best_model", TStr); ("add_token", TInt);
    ("split_ratio", TFloat); ("augmentation", TBool);
    ("generate_option", TInt); ("warmup_steps", TInt) ].

(** A command line after argparse has matched option strings with their
    values: the occurrences [--name value], left to right. *)
Definition command_line : Type := list (string * string).

Fixpoint lookup_type (name : string) (tbl : list (string * arg_type))
  : option arg_type :=
  match tbl with
  | [] => None
  | (n, t) :: tbl' => if Py.str_eq name n then Some t else lookup_type name tbl'
  end.

(** Whether argparse can convert the value with the argument's [type]. *)
Definition converts (t : arg_type) (raw : string) : bool :=
  match t with
  | TInt => match py_int raw with Some _ => true | None => false end
  | TFloat => match py_float raw with Some _ => true | None => false end
  | TStr => true
  | TBool => true
  end.

(** An occurrence is accepted when the option is declared and its value
    converts; otherwise argparse exits with status 2. *)
Definition accepted (occ : string * string) : bool :=
  match lookup_type (fst occ) arguments with
  | Some t => converts t (snd occ)
  | None => false
  end.

(** The value of the last occurrence of an option, if any (each occurrence
    overwrites the attribute). *)
Fixpoint last_value (name : string) (cl : command_line) : option string :=
  match cl with
  | [] => None
  | (n, v) :: cl' =>
      match last_value name cl' with
      | Some v' => Some v'
      | None => if Py.str_eq name n then Some v else None
      end
  end.

Definition attr {A : Type} (conv : string -> option A) (default : A)
           (name : string) (cl : command_line) : A :=
  match last_value name cl with
  | Some raw => match conv raw with Some v => v | None => default end
  | None => default
  end.

Definition conv_str (s : string) : option string := Some s.
Definition conv_bool (s : string) : option bool := Some (Py.bool_of_str s).

(** [parser.parse_args()] with the declarations and defaults of [main]. *)
Definition parse_args (cl : command_line) : Py.result Namespace.t :=
  if forallb accepted cl then
    Return {|
      Namespace.seed := attr py_int 42 "seed" cl;
      Namespace.wandb_path := attr conv_str "test-project" "wandb_path" cl;
      Namespace.model := attr conv_str "klue/roberta-large" "model" cl;
      Namespace.loss := attr conv_str "focal" "loss" cl;
      Namespace.scheduler := attr conv_str "linear" "scheduler" cl;
      Namespace.wandb_name := attr conv_str "test" "wandb_name" cl;
      Namespace.epochs := attr py_int 20 "epochs" cl;
      Namespace.lr := attr py_float (1 # 20000) "lr" cl;
      Namespace.batch := attr py_int 32 "batch" cl;
      Namespace.batch_valid := attr py_int 32 "batch_valid" cl;
      Namespace.warmup := attr py_float (1 # 10) "warmup" cl;
      Namespace.logging_steps := attr py_int 100 "logging_steps" cl;
      Namespace.weight_decay := attr py_float (1 # 100) "weight_decay" cl;
      Namespace.metric_for_best_model := attr conv_str "f1" "metric_for_best_model" cl;
      Namespace.add_token := attr py_int 15 "add_token" cl;
      Namespace.split_ratio := attr py_float (1 # 5) "split_ratio" cl;
      Namespace.augmentation := attr conv_bool true "augmentation" cl;
      Namespace.generate_option := attr py_int 0 "generate_option" cl;
      Namespace.warmup_steps := attr py_int 810 "warmup_steps" cl
    |}
  else Raise (SystemExit 2).

End CommandLine.


(** ** PyTorch: optimizers and learning-rate schedulers *)

Module Torch.

(** A [torch.optim.Optimizer], as far as schedulers read it: the learning
    rate its parameter groups were created with. *)
Record Optimizer : Type := { base_lr : Q }.

(** The multiplier function handed to [LambdaLR] by the transformers
    schedule constructors, kept symbolic: schedule name, warmup steps and
    total steps. *)
Record lr_lambda : Type := {
  schedule_name : string;
  num_warmup_steps : Z;
  num_training_steps : Z
}.

(** The scheduler objects the program can build. *)
Inductive LRScheduler : Type :=
| LambdaLR (optimizer : Optimizer) (f : lr_lambda)
| StepLR (optimizer : Optimizer) (step_size : Z) (gamma : Q).

(** The constructor [torch.optim.lr_scheduler.StepLR(optimizer, step_size,
    gamma)]; it rejects an [optimizer] that is [None]. *)
Definition StepLR_init (optimizer : option Optimizer) (step_size : Z) (gamma : Q)
  : Py.result LRScheduler :=
  match optimizer with
  | Some o => Return (StepLR o step_size gamma)
  | None => Raise (TypeError "NoneType is not an Optimizer")
  end.

(** The mutable part of a [StepLR]: [last_epoch] and the learning rate
    now set in the optimizer. *)
Record StepLR_state : Type := { last_epoch : Z; current_lr : Q }.

(** State right after construction: the constructor performs the initial
    step, which leaves the base rate in place. *)
Definition StepLR_start (o : Optimizer) : StepLR_state :=
  {| last_epoch := 0; current_lr := base_lr o |}.

(** [StepLR.get_lr] at the (already incremented) [last_epoch]. *)
Definition StepLR_get_lr (step_size : Z) (gamma : Q) (epoch : Z) (lr : Q) : Q :=
  if (epoch =? 0) || negb (epoch mod step_size =? 0) then lr
  else (lr * gamma)%Q.

(** [scheduler.step()]. *)
Definition StepLR_step (step_size : Z) (gamma : Q) (st : StepLR_state)
  : StepLR_state :=
  let e := last_epoch st + 1 in
  {| last_epoch := e;
     current_lr := StepLR_get_lr step_size gamma e (current_lr st) |}.

(** The state after [n] calls of [step]. *)
Fixpoint StepLR_run (step_size : Z) (gamma : Q) (st : StepLR_state) (n : nat)
  : StepLR_state :=
  match n with
  | O => st
  | S n' => StepLR_step step_size gamma (StepLR_run step_size gamma st n')
  end.

(** The learning rate a scheduler object yields after [n] steps; [None]
    for the [LambdaLR] schedules, whose multipliers are not evaluated
    here. *)
Definition lr_after (s : LRScheduler) (n : nat) : option Q :=
  match s with
  | StepLR o step_size gamma =>
      Some (current_lr (StepLR_run step_size gamma (StepLR_start o) n))
  | LambdaLR _ _ => None
  end.

End Torch.

(** ** transformers: training arguments, schedules, early stopping *)

Module TrainingArguments.

(** The arguments [train] passes to [TrainingArguments], and
    [warmup_ratio], which it leaves at its default and which
    [get_warmup_steps] reads. *)
Record t : Type := {
  output_dir : string;
  save_total_limit : Z;
  save_steps : Z;
  num_train_epochs : Z;
  learning_rate : Q;
  per_device_train_batch_size : Z;
  per_device_eval_batch_size : Z;
  warmup_steps : Z;
  weight_decay : Q;
  logging_dir : string;
  logging_steps : Z;
  evaluation_strategy : string;
  eval_steps : Z;
  load_best_model_at_end : bool;
  metric_for_best_model : string;
  report_to : string;
  warmup_ratio : Q
}.

(** [TrainingArguments.get_warmup_steps(num_training_steps)]. *)
Definition get_warmup_steps (a : t) (num_training_steps : Z) : Z :=
  if 0 <? warmup_steps a then warmup_steps a
  else Qceiling (inject_Z num_training_steps * warmup_ratio a).

(** [greater_is_better] as [__post_init__] derives it when it is not
    given. *)
Definition greater_is_better (a : t) : bool :=
  negb (Py.str_eq (metric_for_best_model a) "loss"
        || Py.str_eq (metric_for_best_model a) "eval_loss").

(** [self.eval_steps = v]. *)
Definition set_eval_steps (a : t) (v : Z) : t :=
  {| output_dir := output_dir a;
     save_total_limit := save_total_limit a;
     save_steps := save_steps a;
     num_train_epochs := num_train_epochs a;
     learning_rate := learning_rate a;
     per_device_train_batch_size := per_device_train_batch_size a;
     per_device_eval_batch_size := per_device_eval_batch_size a;
     warmup_steps := warmup_steps a;
     weight_decay := weight_decay a;
     logging_dir := logging_dir a;
     logging_steps := logging_steps a;
     evaluation_strategy := evaluation_strategy a;
     eval_steps := v;
     load_best_model_at_end := load_best_model_at_end a;
     metric_for_best_model := metric_for_best_model a;
     report_to := report_to a;
     warmup_ratio := warmup_ratio a |}.

(** The step settings in [__post_init__], which the constructor runs:
    with [evaluation_strategy='steps'] an [eval_steps] of 0 falls back to
    [logging_steps], which must then be positive; with
    [load_best_model_at_end] the saving steps must be a multiple of the
    evaluation steps ([save_strategy] is left at ['steps']). *)
Definition post_init (a : t) : Py.result t :=
  a1 <- (if Py.str_eq (evaluation_strategy a) "steps" && (eval_steps a =? 0) then
           if 0 <? logging_steps a then Return (set_eval_steps a (logging_steps a))
           else Raise (ValueError "evaluation strategy steps requires either non-zero --eval_steps or --logging_steps")
         else Return a) ;;
  if load_best_model_at_end a1 && Py.str_eq (evaluation_strategy a1) "steps"
     && negb (save_steps a1 mod eval_steps a1 =? 0)
  then Raise (ValueError "--load_best_model_at_end requires the saving steps to be a round multiple of the evaluation steps")
  else Return a1.

End TrainingArguments.

Module Transformers.

Import Torch.

(** The schedule names [SchedulerType] knows. *)
Definition scheduler_types : list string :=
  [ "linear"; "cosine"; "cosine_with_restarts"; "polynomial"; "constant";
    "constant_with_warmup" ].

(** [transformers.get_scheduler(name, optimizer, num_warmup_steps,
    num_training_steps)]: the schedule constructors build a [LambdaLR],
    whose constructor reads [optimizer.param_groups] first. *)
Definition get_scheduler (name : string) (optimizer : option Optimizer)
           (num_warmup_steps num_training_steps : Z) : Py.result LRScheduler :=
  if existsb (Py.str_eq name) scheduler_types then
    match optimizer with
    | Some o =>
        Return (LambdaLR o {| schedule_name := name;
                              Torch.num_warmup_steps := num_warmup_steps;
                              Torch.num_training_steps := num_training_steps |})
    | None => Raise (AttributeError "'NoneType' object has no attribute 'param_groups'")
    end
  else Raise (ValueError "not a valid SchedulerType").

(** The multiplier of the ["linear"] schedule
    ([get_linear_schedule_with_warmup]) at a step. *)
Definition linear_lr_lambda (num_warmup_steps num_training_steps : Z)
           (current_step : Z) : Q :=
  if current_step <? num_warmup_steps then
    (inject_Z current_step / inject_Z (Z.max 1 num_warmup_steps))%Q
  else
    Qmax 0 (inject_Z (num_training_steps - current_step)
            / inject_Z (Z.max 1 (num_training_steps - num_warmup_steps)))%Q.

End Transformers.

(** *** Early stopping and best-checkpoint tracking in the training loop

    The loop of [Trainer.train] is followed at the granularity of its
    evaluation rounds: with [evaluation_strategy='steps'] the model is
    evaluated at every multiple of [eval_steps]; a round evaluates, notifies
    the callbacks ([on_evaluate]) and then, when the step is also a saving
    step, saves a checkpoint, which is where the best metric is updated.  A
    run is driven by the metrics each round would report. *)

Module Trainer.

(** The metrics [dict] of one evaluation. *)
Definition metrics : Type := list (string * Q).

Fixpoint metrics_get (m : metrics) (key : string) : option Q :=
  match m with
  | [] => None
  | (k, v) :: m' => if Py.str_eq key k then Some v else metrics_get m' key
  end.

(** The fields of [TrainerState] the loop decides on; a checkpoint is
    named by the number of the round that saved it. *)
Record TrainerState : Type := {
  best_metric : option Q;
  best_model_checkpoint : option nat
}.

(** An [EarlyStoppingCallback] object. *)
Record EarlyStoppingCallback : Type := {
  early_stopping_patience : Z;
  early_stopping_threshold : Q;
  early_stopping_patience_counter : Z
}.

(** [EarlyStoppingCallback(early_stopping_patience=p)]. *)
Definition EarlyStoppingCallback_init (p : Z) : EarlyStoppingCallback :=
  {| early_stopping_patience := p;
     early_stopping_threshold := 0;
     early_stopping_patience_counter := 0 |}.

(** The key looked up in the metrics: the configured name, prefixed with
    [eval_] unless it already is. *)
Definition metric_to_check (args : TrainingArguments.t) : string :=
  let name := TrainingArguments.metric_for_best_model args in
  if String.prefix "eval_" name then name else "eval_" ++ name.

(** [np.greater] or [np.less], by [greater_is_better]. *)
Definition operator (args : TrainingArguments.t) (a b : Q) : bool :=
  if TrainingArguments.greater_is_better args then Py.float_lt b a
  else Py.float_lt a b.

(** [EarlyStoppingCallback.check_metric_value]. *)
Definition check_metric_value (args : TrainingArguments.t) (state : TrainerState)
           (cb : EarlyStoppingCallback) (metric_value : Q) : EarlyStoppingCallback :=
  let reset :=
    match best_metric state with
    | None => true
    | Some best =>
        operator args metric_value best
        && Py.float_lt (early_stopping_threshold cb) (Qabs (metric_value - best))
    end in
  {| early_stopping_patience := early_stopping_patience cb;
     early_stopping_threshold := early_stopping_threshold cb;
     early_stopping_patience_counter :=
       if reset then 0 else early_stopping_patience_counter cb + 1 |}.

(** [EarlyStoppingCallback.on_evaluate]: the callback after the call and
    [control.should_training_stop]. *)
Definition on_evaluate (args : TrainingArguments.t) (state : TrainerState)
           (cb : EarlyStoppingCallback) (should_training_stop : bool) (m : metrics)
  : EarlyStoppingCallback * bool :=
  match metrics_get m (metric_to_check args) with
  | None => (cb, should_training_stop)
  | Some metric_value =>
      let cb' := check_metric_value args state cb metric_value in
      if early_stopping_patience cb' <=? early_stopping_patience_counter cb'
      then (cb', true)
      else (cb', should_training_stop)
  end.

(** [CallbackHandler.on_evaluate]: every callback in turn. *)
Fixpoint handler_on_evaluate (args : TrainingArguments.t) (state : TrainerState)
         (cbs : list EarlyStoppingCallback) (should_training_stop : bool)
         (m : metrics) : list EarlyStoppingCallback * bool :=
  match cbs with
  | [] => ([], should_training_stop)
  | cb :: cbs' =>
      let '(cb', stop') := on_evaluate args state cb should_training_stop m in
      let '(rest, stop'') := handler_on_evaluate args state cbs' stop' m in
      (cb' :: rest, stop'')
  end.

(** The part of [Trainer._save_checkpoint] that determines the new best
    metric and best checkpoint. *)
Definition save_checkpoint (args : TrainingArguments.t) (state : TrainerState)
           (checkpoint : nat) (m : metrics) : Py.result TrainerState :=
  match metrics_get m (metric_to_check args) with
  | None => Raise (KeyError (metric_to_check args))
  | Some metric_value =>
      let new_best :=
        match best_metric state, best_model_checkpoint state with
        | Some best, Some _ => operator args metric_value best
        | _, _ => true
        end in
      Return (if new_best
              then {| best_metric := Some metric_value;
                      best_model_checkpoint := Some checkpoint |}
              else state)
  end.

(** What the loop carries from round to round. *)
Record loop : Type := {
  state : TrainerState;
  callbacks : list EarlyStoppingCallback;
  should_training_stop : bool;
  rounds_done : nat
}.

(** The step at which a round takes place: rounds are [eval_steps]
    apart. *)
Definition global_step (args : TrainingArguments.t) (round : nat) : Z :=
  Z.of_nat (S round) * TrainingArguments.eval_steps args.

(** [DefaultFlowCallback.on_step_end], saving: [control.should_save] is
    set at a step that a positive [save_steps] divides. *)
Definition should_save (args : TrainingArguments.t) (step : Z) : bool :=
  (0 <? TrainingArguments.save_steps args)
  && (step mod TrainingArguments.save_steps args =? 0).

(** One round of [_maybe_log_save_evaluate]: evaluate, notify, and save
    when [should_save] is set. *)
Definition evaluation_round (args : TrainingArguments.t) (l : loop) (m : metrics)
  : Py.result loop :=
  let '(cbs', stop') :=
    handler_on_evaluate args (state l) (callbacks l) (should_training_stop l) m in
  st' <- (if should_save args (global_step args (rounds_done l))
          then save_checkpoint args (state l) (rounds_done l) m
          else Return (state l)) ;;
  Return {| state := st'; callbacks := cbs'; should_training_stop := stop';
            rounds_done := S (rounds_done l) |}.

(** The training loop: rounds are run in order until
    [should_training_stop] is set. *)
Fixpoint training_loop (args : TrainingArguments.t) (l : loop)
         (rounds : list metrics) : Py.result loop :=
  match rounds with
  | [] => Return l
  | m :: rest =>
      l' <- evaluation_round args l m ;;
      if should_training_stop l' then Return l' else training_loop args l' rest
  end.

(** The value [Trainer.train] returns: the number of evaluation rounds
    run, the final state, and the checkpoint whose weights the model
    holds ([None]: the weights of the last step). *)
Record TrainOutput : Type := {
  evaluations : nat;
  final_state : TrainerState;
  loaded_checkpoint : option nat
}.

(** The evaluation rounds of [Trainer.train()] and, at the end, the reload
    of the best checkpoint when [load_best_model_at_end] is set. *)
Definition train (args : TrainingArguments.t) (cbs : list EarlyStoppingCallback)
           (rounds : list metrics) : Py.result TrainOutput :=
  l <- training_loop args
         {| state := {| best_metric := None; best_model_checkpoint := None |};
            callbacks := cbs; should_training_stop := false; rounds_done := O |}
         rounds ;;
  Return {| evaluations := rounds_done l;
            final_state := state l;
            loaded_checkpoint :=
              if TrainingArguments.load_best_model_at_end args
              then best_model_checkpoint (state l) else None |}.

End Trainer.

(** ** scikit-learn: [train_test_split] *)

Module Sklearn.

Section ModelSelection.

(** numpy's generator: [np.random.RandomState(seed)] and
    [rng.permutation(n)], a shuffled [range(n)]. *)
Variable RandomState : Type.
Variable seeded : Z -> RandomState.
Variable permutation : RandomState -> nat -> list nat.

(** [check_random_state(seed)]: the process-wide generator for [None],
    a fresh generator for an int, which must be a 32-bit seed. *)
Definition check_random_state (global : RandomState) (random_state : option Z)
  : Py.result RandomState :=
  match random_state with
  | None => Return global
  | Some s =>
      if (s <? 0) || (2 ^ 32 <=? s)
      then Raise (ValueError "Seed must be between 0 and 2**32 - 1")
      else Return (seeded s)
  end.

(** [_validate_shuffle_split(n_samples, test_size, train_size=None)] for
    a float [test_size]: the sizes [(n_train, n_test)];
    [n_test = ceil(test_size * n_samples)], a product of floats. *)
Definition validate_shuffle_split (n_samples : Z) (test_size : Q)
  : Py.result (Z * Z) :=
  if Qle_bool test_size 0 || Qle_bool 1 test_size then
    Raise (ValueError "test_size should be a float in the (0, 1) range")
  else
    let n_test := Qceiling (Py.float_mul test_size (inject_Z n_samples)) in
    let n_train := n_samples - n_test in
    if n_samples <? n_train + n_test then
      Raise (ValueError "The sum of train_size and test_size should be smaller than the number of samples")
    else if n_train =? 0 then
      Raise (ValueError "the resulting train set will be empty")
    else Return (n_train, n_test).

(** [ShuffleSplit._iter_indices], first split: the sizes are validated
    again as ints, the generator is obtained, and a permutation is cut. *)
Definition shuffle_split (global : RandomState) (random_state : option Z)
           (n_samples n_train n_test : Z) : Py.result (list nat * list nat) :=
  if (n_samples <=? n_test) || (n_test <=? 0) then
    Raise (ValueError "test_size should be a positive integer smaller than the number of samples")
  else if (n_samples <=? n_train) || (n_train <=? 0) then
    Raise (ValueError "train_size should be a positive integer smaller than the number of samples")
  else
    rng <- check_random_state global random_state ;;
    let p := permutation rng (Z.to_nat n_samples) in
    let ind_test := firstn (Z.to_nat n_test) p in
    let ind_train := firstn (Z.to_nat n_train) (skipn (Z.to_nat n_test) p) in
    Return (ind_train, ind_test).

(** [_safe_indexing(X, indices)] on a sequence: [[X[i] for i in indices]]. *)
Definition safe_indexing {A : Type} (X : list A) (indices : list nat) : list A :=
  flat_map (fun i => match nth_error X i with Some x => [x] | None => [] end)
           indices.

(** The index sets [train_test_split] draws for [n] samples. *)
Definition split_indices (global : RandomState) (n : nat) (test_size : Q)
           (random_state : option Z) : Py.result (list nat * list nat) :=
  sizes <- validate_shuffle_split (Z.of_nat n) test_size ;;
  shuffle_split global random_state (Z.of_nat n) (fst sizes) (snd sizes).

(** [train_test_split(X, test_size=test_size, random_state=random_state)]
    with a float [test_size]: the pair [(X_train, X_test)]. *)
Definition train_test_split {A : Type} (global : RandomState) (X : list A)
           (test_size : Q) (random_state : option Z) : Py.result (list A * list A) :=
  ind <- split_indices global (length X) test_size random_state ;;
  Return (safe_indexing X (fst ind), safe_indexing X (snd ind)).

End ModelSelection.

End Sklearn.

(** ** [CustomTrainer] *)

Module CustomTrainer.

Import Torch.

(** A [CustomTrainer] object: the three attributes its [__init__] adds,
    and the attributes of [Trainer] its methods read or write. *)
Record t : Type := {
  loss_name : string;
  scheduler : string;
  num_training_steps : Z;
  args : TrainingArguments.t;
  num_labels : Z;
  callbacks : list Trainer.EarlyStoppingCallback;
  optimizer : option Optimizer;
  lr_scheduler : option LRScheduler
}.

(** [CustomTrainer(loss_name=..., scheduler=..., num_training_steps=...,
    args=..., callbacks=..., model=...)]: [Trainer.__init__] leaves
    [optimizer] and [lr_scheduler] at [None]. *)
Definition init (loss_name scheduler : string) (num_training_steps : Z)
           (args : TrainingArguments.t) (num_labels : Z)
           (callbacks : list Trainer.EarlyStoppingCallback) : t :=
  {| loss_name := loss_name; scheduler := scheduler;
     num_training_steps := num_training_steps;
     args := args; num_labels := num_labels; callbacks := callbacks;
     optimizer := None; lr_scheduler := None |}.

(** [self.lr_scheduler = s]. *)
Definition set_lr_scheduler (self : t) (s : LRScheduler) : t :=
  {| loss_name := loss_name self; scheduler := scheduler self;
     num_training_steps := num_training_steps self;
     args := args self; num_labels := num_labels self;
     callbacks := callbacks self;
     optimizer := optimizer self; lr_scheduler := Some s |}.

(** [self.optimizer = o]. *)
Definition set_optimizer (self : t) (o : Optimizer) : t :=
  {| loss_name := loss_name self; scheduler := scheduler self;
     num_training_steps := num_training_steps self;
     args := args self; num_labels := num_labels self;
     callbacks := callbacks self;
     optimizer := Some o; lr_scheduler := lr_scheduler self |}.

Section Loss.

(** [torch.Tensor], with the operations the method applies to it. *)
Variable Tensor : Type.

(** [t.view(shape)]. *)
Variable view : Tensor -> list Z -> Py.result Tensor.

(** [bool(t)]: defined for a tensor of one element, a [RuntimeError]
    otherwise. *)
Variable tensor_bool : Tensor -> Py.result bool.

(** [forward] of the loss modules of [utilities.criterion.loss], built
    with their default arguments. *)
Variable LabelSmoothingLoss_forward : Tensor -> Tensor -> Py.result Tensor.
Variable FocalLoss_forward : Tensor -> Tensor -> Py.result Tensor.
Variable F1Loss_forward : Tensor -> Tensor -> Py.result Tensor.

(** A [dict] (or [ModelOutput]) from names to tensors. *)
Definition tensor_dict : Type := list (string * Tensor).

(** [d.get(key)]. *)
Fixpoint dict_get (d : tensor_dict) (key : string) : option Tensor :=
  match d with
  | [] => None
  | (k, v) :: d' => if Py.str_eq key k then Some v else dict_get d' key
  end.

(** An [nn.CrossEntropyLoss] object as its constructor leaves it. *)
Record CrossEntropyLoss_module : Type := {
  ce_weight : option Tensor;
  ce_reduction : string
}.

(** What the local variable [loss_fct] can be bound to. *)
Inductive loss_callable : Type :=
| CrossEntropyLoss_class      (* [nn.CrossEntropyLoss], the class itself;
                                 [nn] is [torch.nn], from the star imports *)
| LabelSmoothingLoss_object   (* [LabelSmoothingLoss()] *)
| FocalLoss_object            (* [FocalLoss()] *)
| F1Loss_object.              (* [F1Loss()] *)

(** The Python values [compute_loss] can return. *)
Inductive value : Type :=
| VTensor (t : Tensor)
| VModule (m : CrossEntropyLoss_module)
| VTuple (loss : value) (outputs : tensor_dict).

(** [_Reduction.legacy_get_string(size_average, reduce)] with [reduce]
    left at [None], as [_Loss.__init__] calls it when [size_average] is
    given: [reduce] becomes [True], and the result is ['mean'] when
    [size_average] is true and ['sum'] otherwise. *)
Definition legacy_get_string (size_average : Tensor) : Py.result string :=
  b <- tensor_bool size_average ;;
  Return (if b : bool then "mean" else "sum").

(** [nn.CrossEntropyLoss(weight, size_average)]: the constructor called
    with two positional arguments. *)
Definition CrossEntropyLoss_init (weight size_average : Tensor)
  : Py.result CrossEntropyLoss_module :=
  r <- legacy_get_string size_average ;;
  Return {| ce_weight := Some weight; ce_reduction := r |}.

(** [loss_fct(a, b)]: calling a class constructs an object of it, calling
    a module object runs its [forward]. *)
Definition call_loss_fct (f : loss_callable) (a b : Tensor) : Py.result value :=
  match f with
  | CrossEntropyLoss_class =>
      m <- CrossEntropyLoss_init a b ;; Return (VModule m)
  | LabelSmoothingLoss_object =>
      t <- LabelSmoothingLoss_forward a b ;; Return (VTensor t)
  | FocalLoss_object =>
      t <- FocalLoss_forward a b ;; Return (VTensor t)
  | F1Loss_object =>
      t <- F1Loss_forward a b ;; Return (VTensor t)
  end.

(** Reading a local variable that may not have been assigned. *)
Definition load_local {A : Type} (name : string) (v : option A) : Py.result A :=
  match v with
  | Some a => Return a
  | None => Raise (UnboundLocalError name)
  end.

(** [x.view(shape)] where [x] may be [None]. *)
Definition view_of (x : option Tensor) (shape : list Z) : Py.result Tensor :=
  match x with
  | Some t => view t shape
  | None => Raise (AttributeError "'NoneType' object has no attribute 'view'")
  end.

(** The [if]/[elif] chain of [compute_loss]: the binding of [loss_fct]
    after it, [None] when no branch was taken. *)
Definition select_loss_fct (loss_name : string) : option loss_callable :=
  if Py.str_eq loss_name "CE" then Some CrossEntropyLoss_class
  else if Py.str_eq loss_name "LB" then Some LabelSmoothingLoss_object
  else if Py.str_eq loss_name "focal" then Some FocalLoss_object
  else if Py.str_eq loss_name "f1" then Some F1Loss_object
  else None.

(** [CustomTrainer.compute_loss(self, model, inputs, return_outputs)];
    [num_labels self] is [self.model.config.num_labels]. *)
Definition compute_loss (self : t)
           (model : tensor_dict -> Py.result tensor_dict)
           (inputs : tensor_dict) (return_outputs : bool) : Py.result value :=
  let labels := dict_get inputs "labels" in
  outputs <- model inputs ;;
  let logits := dict_get outputs "logits" in
  let loss_fct := select_loss_fct (loss_name self) in
  f <- load_local "loss_fct" loss_fct ;;
  a <- view_of logits [-1; num_labels self] ;;
  b <- view_of labels [-1] ;;
  loss <- call_loss_fct f a b ;;
  Return (if return_outputs then VTuple loss outputs else loss).

(** What [compute_loss] is specified to return for a loss module: the
    scalar of its [forward] on the reshaped logits and labels. *)
Definition is_loss_of (forward : Tensor -> Tensor -> Py.result Tensor)
           (num_labels : Z) (outputs inputs : tensor_dict) (v : value) : Prop :=
  exists a b t,
    view_of (dict_get outputs "logits") [-1; num_labels] = Return a /\
    view_of (dict_get inputs "labels") [-1] = Return b /\
    forward a b = Return t /\
    v = VTensor t.

End Loss.

(** [CustomTrainer.create_scheduler(self, num_training_steps, optimizer)]:
    the object after the call and the returned [self.lr_scheduler].  The
    call of [get_scheduler] belongs to the [elif] branch of ['cosine']. *)
Definition create_scheduler (self : t) (num_training_steps : Z)
           (optimizer : option Optimizer) : Py.result (t * option LRScheduler) :=
  self' <-
    (if Py.str_eq (scheduler self) "linear" || Py.str_eq (scheduler self) "cosine"
     then
       if Py.str_eq (scheduler self) "linear" then
         let my_scheduler := "linear" in
         Return self
       else if Py.str_eq (scheduler self) "cosine" then
         let my_scheduler := "cosine_with_restarts" in
         s <- Transformers.get_scheduler
                my_scheduler
                (match optimizer with None => CustomTrainer.optimizer self
                                    | Some o => Some o end)
                (TrainingArguments.get_warmup_steps (args self) num_training_steps)
                num_training_steps ;;
         Return (set_lr_scheduler self s)
       else Return self
     else if Py.str_eq (scheduler self) "steplr" then
       s <- StepLR_init (CustomTrainer.optimizer self) 1080 (1 # 2) ;;
       Return (set_lr_scheduler self s)
     else Return self) ;;
  Return (self', lr_scheduler self').

(** [Trainer.create_optimizer]: an optimizer over the model's parameters
    at [args.learning_rate], unless one is already set. *)
Definition create_optimizer (self : t) : t :=
  match optimizer self with
  | Some _ => self
  | None =>
      set_optimizer self {| base_lr := TrainingArguments.learning_rate (args self) |}
  end.

(** [Trainer.create_optimizer_and_scheduler(num_training_steps)]. *)
Definition create_optimizer_and_scheduler (self : t) (num_training_steps : Z)
  : Py.result t :=
  let self1 := create_optimizer self in
  r <- create_scheduler self1 num_training_steps (optimizer self1) ;;
  Return (fst r).

(** [len(train_dataloader)]: batches of
    [per_device_train_batch_size * max(1, n_gpu)] examples, the last one
    possibly short. *)
Definition len_dataloader (self : t) (n_gpu n_train : Z) : Py.result Z :=
  let bs := TrainingArguments.per_device_train_batch_size (args self) * Z.max 1 n_gpu in
  if bs <=? 0 then Raise (ValueError "batch_size should be a positive integer value")
  else Return ((n_train + bs - 1) / bs).

(** The step count [Trainer.train] derives for the run: epochs times
    update steps per epoch. *)
Definition max_steps (self : t) (n_gpu n_train : Z) : Py.result Z :=
  l <- len_dataloader self n_gpu n_train ;;
  Return (TrainingArguments.num_train_epochs (args self) * Z.max l 1).

(** [self.lr_scheduler.step()] after the first optimizer step. *)
Definition first_scheduler_step (self : t) : Py.result unit :=
  match lr_scheduler self with
  | Some _ => Return tt
  | None => Raise (AttributeError "'NoneType' object has no attribute 'step'")
  end.

(** [trainer.train()], inherited from [Trainer]: the optimizer and the
    scheduler are created once with the run's step count, then the loop
    runs.  Of the training steps the function follows the scheduler and the
    evaluation rounds; the forward and backward passes of a step (and with
    them [compute_loss]) are taken to succeed.  A run without any step ends
    in the division of the accumulated loss by the step count. *)
Definition train (self : t) (n_gpu n_train : Z) (rounds : list Trainer.metrics)
  : Py.result (t * Trainer.TrainOutput) :=
  steps <- max_steps self n_gpu n_train ;;
  self1 <- create_optimizer_and_scheduler self steps ;;
  if 0 <? steps then
    _ <- first_scheduler_step self1 ;;
    out <- Trainer.train (args self1) (callbacks self1) rounds ;;
    Return (self1, out)
  else Raise ZeroDivisionError.

End CustomTrainer.

(** ** The program: [train] and [main] *)

Section Program.

(** Python's [int] and [float] on command-line strings. *)
Variable py_int : string -> option Z.
Variable py_float : string -> option Q.

(** numpy's generator and the state of the process-wide one. *)
Variable RandomState : Type.
Variable seeded : Z -> RandomState.
Variable permutation : RandomState -> nat -> list nat.
Variable global_rng : RandomState.

(** The data pipeline of the repository's other modules: [load_data] (at
    [TRAIN_DIR]), [len] of its frame, [label_to_num] of its labels,
    [tokenized_dataset], [main_augmentation] and [RE_Dataset], whose items
    are the examples. *)
Variable DataFrame : Type.
Variable Labels : Type.
Variable Tokenized : Type.
Variable Example : Type.
Variable load_data : Z -> DataFrame.
Variable len_frame : DataFrame -> Z.
Variable label_to_num : DataFrame -> Labels.
Variable tokenized_dataset : DataFrame -> Tokenized.
Variable main_augmentation : Tokenized -> Tokenized.
Variable RE_Dataset : Tokenized -> Labels -> list Example.

(** The directories of [constants], the number of devices, and the metrics
    the evaluation rounds of the run report. *)
Variable SAVE_DIR : string.
Variable LOG_DIR : string.
Variable n_gpu : Z.
Variable rounds : list Trainer.metrics.

(** The [TrainingArguments(...)] call of [train]; the constructor ends
    with [__post_init__]. *)
Definition training_arguments (args : Namespace.t) (len_train_dataset : Z)
  : Py.result TrainingArguments.t :=
  q <- Py.floordiv len_train_dataset (Namespace.batch args) ;;
  save_steps <- Py.floordiv q 2 ;;
  q' <- Py.floordiv len_train_dataset (Namespace.batch args) ;;
  eval_steps <- Py.floordiv q' 2 ;;
  TrainingArguments.post_init {|
    TrainingArguments.output_dir := SAVE_DIR;
    TrainingArguments.save_total_limit := 5;
    TrainingArguments.save_steps := save_steps;
    TrainingArguments.num_train_epochs := Namespace.epochs args;
    TrainingArguments.learning_rate := Namespace.lr args;
    TrainingArguments.per_device_train_batch_size := Namespace.batch args;
    TrainingArguments.per_device_eval_batch_size := Namespace.batch_valid args;
    TrainingArguments.warmup_steps := Namespace.warmup_steps args;
    TrainingArguments.weight_decay := Namespace.warmup args;
    TrainingArguments.logging_dir := LOG_DIR;
    TrainingArguments.logging_steps := Namespace.logging_steps args;
    TrainingArguments.evaluation_strategy := "steps";
    TrainingArguments.eval_steps := eval_steps;
    TrainingArguments.load_best_model_at_end := true;
    TrainingArguments.metric_for_best_model := Namespace.metric_for_best_model args;
    TrainingArguments.report_to := "wandb";
    TrainingArguments.warmup_ratio := 0
  |}.

(** The [CustomTrainer(...)] call of [train]; [model_config.num_labels] was
    set to 30. *)
Definition custom_trainer (args : Namespace.t) (training_args : TrainingArguments.t)
           (len_train_dataset : Z) : Py.result CustomTrainer.t :=
  n <- Py.floordiv (Namespace.epochs args * len_train_dataset) (Namespace.batch args) ;;
  Return (CustomTrainer.init (Namespace.loss args) (Namespace.scheduler args) n
            training_args 30 [Trainer.EarlyStoppingCallback_init 2]).

(** What a run of [train] leaves behind. *)
Record Run : Type := {
  RE_train_dataset : list Example;
  X_train : list Example;
  X_val : list Example;
  training_args : TrainingArguments.t;
  trainer : CustomTrainer.t;
  output : Trainer.TrainOutput
}.

(** The first part of [train]: load, encode the labels, tokenize, augment
    when [args.augmentation] is true, and wrap as [RE_train_dataset]. *)
Definition build_RE_train_dataset (args : Namespace.t) : list Example :=
  let train_dataset := load_data (Namespace.generate_option args) in
  let train_label := label_to_num train_dataset in
  let tokenized_train := tokenized_dataset train_dataset in
  let tokenized_train :=
    if Namespace.augmentation args then main_augmentation tokenized_train
    else tokenized_train in
  RE_Dataset tokenized_train train_label.

(** [train(args)]. *)
Definition train (args : Namespace.t) : Py.result Run :=
  let train_dataset := load_data (Namespace.generate_option args) in
  let dataset := build_RE_train_dataset args in
  split <- Sklearn.train_test_split RandomState seeded permutation global_rng dataset
             (Namespace.split_ratio args) (Some (Namespace.seed args)) ;;
  targs <- training_arguments args (len_frame train_dataset) ;;
  tr <- custom_trainer args targs (len_frame train_dataset) ;;
  r <- CustomTrainer.train tr n_gpu (Z.of_nat (length (fst split))) rounds ;;
  Return {| RE_train_dataset := dataset;
            X_train := fst split; X_val := snd split;
            training_args := targs; trainer := fst r; output := snd r |}.

(** [main()] on a command line. *)
Definition main (cl : command_line) : Py.result Run :=
  args <- parse_args py_int py_float cl ;;
  train args.

End Program.

(** * Vocabulary of the properties *)

(** The names the [if]/[elif] chain of [compute_loss] knows. *)
Definition known_loss (name : string) : Prop :=
  name = "CE" \/ name = "LB" \/ name = "focal" \/ name = "f1".

(** The names [create_scheduler] tests for. *)
Definition known_scheduler (name : string) : Prop :=
  name = "linear" \/ name = "cosine" \/ name = "steplr".

(** *** Early stopping, in the words of the specification

    The chosen metric is named by [--metric_for_best_model]; an evaluation
    reports it under that name with the prefix [eval_]. *)
Definition eval_key (metric : string) : string :=
  if String.prefix "eval_" metric then metric else "eval_" ++ metric.

(** The values [vs] of the chosen metric that the evaluation rounds
    report, round by round. *)
Definition reports (metric : string) (rounds : list Trainer.metrics)
           (vs : list Q) : Prop :=
  map (fun m => Trainer.metrics_get m (eval_key metric)) rounds = map Some vs.

(** [v] is better than [b]: strictly higher, or strictly lower when the
    metric is a loss. *)
Definition better (metric : string) (v b : Q) : Prop :=
  if ((metric =? "loss") || (metric =? "eval_loss"))%string
  then (v < b)%Q else (b < v)%Q.

(** [b] is a best value of the first [k] rounds: one of them reported it
    and none of them reported a better one. *)
Definition best_among (metric : string) (vs : list Q) (k : nat) (b : Q) : Prop :=
  (exists j, (j < k)%nat /\ nth_error vs j = Some b)
  /\ forall j v, (j < k)%nat -> nth_error vs j = Some v -> ~ better metric v b.

(** Round [i] fails to improve: its value is not better than the best of
    the rounds before it (the first round always improves). *)
Definition no_improvement (metric : string) (vs : list Q) (i : nat) : Prop :=
  exists v b,
    nth_error vs i = Some v /\ best_among metric vs i b /\ ~ better metric v b.

(** *** The quantities the loop maintains

    The best value as the loop computes it: a later value replaces the
    best so far when [Trainer.operator] prefers it. *)
Definition best_of (args : TrainingArguments.t) (vs : list Q) : option Q :=
  fold_left
    (fun acc v =>
       match acc with
       | None => Some v
       | Some b => if Trainer.operator args v b then Some v else Some b
       end)
    vs None.

(** The loop's test on round [i]: its value against the best of the
    rounds before it. *)
Definition fails_to_improve (args : TrainingArguments.t) (vs : list Q) (i : nat)
  : bool :=
  match nth_error vs i, best_of args (firstn i vs) with
  | Some v, Some b => negb (Trainer.operator args v b)
  | _, _ => false
  end.

(** The invariant of the training loop over the values [vs]: the loop has
    run [k] rounds, the one callback has patience 2 and counter [c], the
    last [c] rounds failed to improve, the state holds the best value of
    the rounds so far and the checkpoint of the round that set it, and no
    two consecutive rounds failed before the last two. *)
Record tracks (args : TrainingArguments.t) (vs : list Q) (k : nat) (c : Z)
       (l : Trainer.loop) : Prop := {
  tracks_rounds : Trainer.rounds_done l = k;
  tracks_bound : (k <= length vs)%nat;
  tracks_callbacks :
    Trainer.callbacks l
    = [ {| Trainer.early_stopping_patience := 2;
           Trainer.early_stopping_threshold := 0;
           Trainer.early_stopping_patience_counter := c |} ];
  tracks_stop : Trainer.should_training_stop l = (2 <=? c);
  tracks_counter : 0 <= c <= 2;
  tracks_best :
    Trainer.best_metric (Trainer.state l) = best_of args (firstn k vs);
  tracks_start :
    k = 0%nat ->
    Trainer.best_model_checkpoint (Trainer.state l) = None /\ c = 0;
  tracks_checkpoint :
    (0 < k)%nat ->
    exists b vb,
      Trainer.best_model_checkpoint (Trainer.state l) = Some b
      /\ Z.of_nat b + c + 1 = Z.of_nat k
      /\ nth_error vs b = Some vb
      /\ Trainer.best_metric (Trainer.state l) = Some vb
      /\ fails_to_improve args vs b = false;
  tracks_failed :
    forall t : nat, Z.of_nat t < c ->
                    fails_to_improve args vs (k - 1 - t) = true;
  tracks_best_of_all :
    forall j v vb,
      (j < k)%nat -> nth_error vs j = Some v ->
      Trainer.best_metric (Trainer.state l) = Some vb ->
      Trainer.operator args v vb = false;
  tracks_no_double :
    forall j, (j + 2 < k)%nat ->
              fails_to_improve args vs j = false
              \/ fails_to_improve args vs (S j) = false
}.

(** ** A concrete setting to run the definitions in

    Tensors are flat lists of rationals; [view] keeps the data; the truth
    value of a tensor is defined for one element only; the loss modules
    return a one-element tensor. *)

Module Sample.

Definition Tensor : Type := list Q.

Definition view (t : Tensor) (shape : list Z) : Py.result Tensor := Return t.

Definition tensor_bool (t : Tensor) : Py.result bool :=
  match t with
  | [x] => Return (negb (Qeq_bool x 0))
  | _ => Raise (RuntimeError "Boolean value of Tensor with more than one value is ambiguous")
  end.

Definition forward (name : Q) (logits labels : Tensor) : Py.result Tensor :=
  Return [name].

(** A model that ignores its inputs and answers with fixed logits. *)
Definition model (logits : Tensor) (inputs : list (string * Tensor))
  : Py.result (list (string * Tensor)) :=
  Return [("logits", logits)].

(** One example: logits over the 30 classes that favour class 0, and the
    label 0. *)
Definition logits : Tensor := (10 # 1) :: repeat (0 # 1) 29.
Definition inputs : list (string * Tensor) :=
  [("input_ids", [101 # 1; 2 # 1; 102 # 1]); ("labels", [0 # 1])].

Definition compute_loss :=
  CustomTrainer.compute_loss Tensor view tensor_bool
    (forward 1) (forward 2) (forward 3).

Definition no_int (s : string) : option Z := None.
Definition no_float (s : string) : option Q := None.

Definition targs : TrainingArguments.t :=
  {| TrainingArguments.output_dir := "./results";
     TrainingArguments.save_total_limit := 5;
     TrainingArguments.save_steps := 1;
     TrainingArguments.num_train_epochs := 20;
     TrainingArguments.learning_rate := 1 # 20000;
     TrainingArguments.per_device_train_batch_size := 32;
     TrainingArguments.per_device_eval_batch_size := 32;
     TrainingArguments.warmup_steps := 810;
     TrainingArguments.weight_decay := 1 # 10;
     TrainingArguments.logging_dir := "./logs";
     TrainingArguments.logging_steps := 100;
     TrainingArguments.evaluation_strategy := "steps";
     TrainingArguments.eval_steps := 1;
     TrainingArguments.load_best_model_at_end := true;
     TrainingArguments.metric_for_best_model := "f1";
     TrainingArguments.report_to := "wandb";
     TrainingArguments.warmup_ratio := 0 |}.

(** A trainer as [train] builds it, for a loss and a scheduler name. *)
Definition trainer (loss_name scheduler : string) : CustomTrainer.t :=
  CustomTrainer.init loss_name scheduler 62 targs 30
    [Trainer.EarlyStoppingCallback_init 2].

Definition adamw : Torch.Optimizer := {| Torch.base_lr := 1 # 20000 |}.

(** The arguments of a command line that sets only [--loss] and
    [--scheduler]. *)
Definition args (loss scheduler : string) : Namespace.t :=
  {| Namespace.seed := 42;
     Namespace.wandb_path := "test-project";
     Namespace.model := "klue/roberta-large";
     Namespace.loss := loss;
     Namespace.scheduler := scheduler;
     Namespace.wandb_name := "test";
     Namespace.epochs := 20;
     Namespace.lr := 1 # 20000;
     Namespace.batch := 32;
     Namespace.batch_valid := 32;
     Namespace.warmup := 1 # 10;
     Namespace.logging_steps := 100;
     Namespace.weight_decay := 1 # 100;
     Namespace.metric_for_best_model := "f1";
     Namespace.add_token := 15;
     Namespace.split_ratio := 1 # 5;
     Namespace.augmentation := true;
     Namespace.generate_option := 0;
     Namespace.warmup_steps := 810 |}.

(** A data pipeline over 100 rows named by their number: tokenizing keeps
    the rows, augmentation marks every row, and the dataset has one example
    per row. *)
Definition load_data (generate_option : Z) : list nat := seq 0 100.
Definition len_frame (frame : list nat) : Z := Z.of_nat (length frame).
Definition label_to_num (frame : list nat) : list Z := map (fun _ => 0) frame.
Definition tokenized_dataset (frame : list nat) : list nat := frame.
Definition main_augmentation (tokenized : list nat) : list nat :=
  map (Nat.add 1000) tokenized.
Definition RE_Dataset (tokenized : list nat) (labels : list Z) : list nat :=
  tokenized.

(** A generator whose state is a number; its permutation rotates
    [range(n)] by the state. *)
Definition RandomState : Type := Z.
Definition seeded (seed : Z) : RandomState := seed.
Definition permutation (rng : RandomState) (n : nat) : list nat :=
  let k := Z.to_nat (rng mod Z.of_nat n) in
  (skipn k (seq 0 n) ++ firstn k (seq 0 n))%list.
Definition global_rng : RandomState := 7.

Definition train_test_split {A : Type} :=
  @Sklearn.train_test_split RandomState seeded permutation A.

Definition build_RE_train_dataset :=
  build_RE_train_dataset (list nat) (list Z) (list nat) nat load_data
    label_to_num tokenized_dataset main_augmentation RE_Dataset.

(** Five evaluation rounds reporting f1: the third and the fourth do not
    beat the second. *)
Definition f1_values : list Q := [50 # 100; 60 # 100; 55 # 100; 58 # 100; 70 # 100].
Definition rounds : list Trainer.metrics :=
  map (fun v => [("eval_loss", 1 # 1); ("eval_f1", v)]) f1_values.

(** The arguments of [--warmup 0.5 --warmup_steps 0 --scheduler cosine] and
    the training arguments [train] builds from them for 100 rows. *)
Definition args_warmup_ratio : Namespace.t :=
  {| Namespace.seed := 42;
     Namespace.wandb_path := "test-project";
     Namespace.model := "klue/roberta-large";
     Namespace.loss := "focal";
     Namespace.scheduler := "cosine";
     Namespace.wandb_name := "test";
     Namespace.epochs := 20;
     Namespace.lr := 1 # 20000;
     Namespace.batch := 32;
     Namespace.batch_valid := 32;
     Namespace.warmup := 1 # 2;
     Namespace.logging_steps := 100;
     Namespace.weight_decay := 1 # 100;
     Namespace.metric_for_best_model := "f1";
     Namespace.add_token := 15;
     Namespace.split_ratio := 1 # 5;
     Namespace.augmentation := true;
     Namespace.generate_option := 0;
     Namespace.warmup_steps := 0 |}.

Definition targs_warmup_ratio : TrainingArguments.t :=
  {| TrainingArguments.output_dir := "./results";
     TrainingArguments.save_total_limit := 5;
     TrainingArguments.save_steps := 1;
     TrainingArguments.num_train_epochs := 20;
     TrainingArguments.learning_rate := 1 # 20000;
     TrainingArguments.per_device_train_batch_size := 32;
     TrainingArguments.per_device_eval_batch_size := 32;
     TrainingArguments.warmup_steps := 0;
     TrainingArguments.weight_decay := 1 # 2;
     TrainingArguments.logging_dir := "./logs";
     TrainingArguments.logging_steps := 100;
     TrainingArguments.evaluation_strategy := "steps";
     TrainingArguments.eval_steps := 1;
     TrainingArguments.load_best_model_at_end := true;
     TrainingArguments.metric_for_best_model := "f1";
     TrainingArguments.report_to := "wandb";
     TrainingArguments.warmup_ratio := 0 |}.

(** The arguments of [--scheduler cosine --epochs 250] and the training
    arguments [train] builds from them for 50 rows, fewer than two batches:
    [save_steps] is 0 and [eval_steps] falls back to [logging_steps]. *)
Definition args_small : Namespace.t :=
  {| Namespace.seed := 42;
     Namespace.wandb_path := "test-project";
     Namespace.model := "klue/roberta-large";
     Namespace.loss := "focal";
     Namespace.scheduler := "cosine";
     Namespace.wandb_name := "test";
     Namespace.epochs := 250;
     Namespace.lr := 1 # 20000;
     Namespace.batch := 32;
     Namespace.batch_valid := 32;
     Namespace.warmup := 1 # 10;
     Namespace.logging_steps := 100;
     Namespace.weight_decay := 1 # 100;
     Namespace.metric_for_best_model := "f1";
     Namespace.add_token := 15;
     Namespace.split_ratio := 1 # 5;
     Namespace.augmentation := true;
     Namespace.generate_option := 0;
     Namespace.warmup_steps := 810 |}.

Definition targs_small : TrainingArguments.t :=
  {| TrainingArguments.output_dir := "./results";
     TrainingArguments.save_total_limit := 5;
     TrainingArguments.save_steps := 0;
     TrainingArguments.num_train_epochs := 250;
     TrainingArguments.learning_rate := 1 # 20000;
     TrainingArguments.per_device_train_batch_size := 32;
     TrainingArguments.per_device_eval_batch_size := 32;
     TrainingArguments.warmup_steps := 810;
     TrainingArguments.weight_decay := 1 # 10;
     TrainingArguments.logging_dir := "./logs";
     TrainingArguments.logging_steps := 100;
     TrainingArguments.evaluation_strategy := "steps";
     TrainingArguments.eval_steps := 100;
     TrainingArguments.load_best_model_at_end := true;
     TrainingArguments.metric_for_best_model := "f1";
     TrainingArguments.report_to := "wandb";
     TrainingArguments.warmup_ratio := 0 |}.

Definition trainer_small : CustomTrainer.t :=
  CustomTrainer.init "focal" "cosine" 390 targs_small 30
    [Trainer.EarlyStoppingCallback_init 2].

(** Three rounds whose f1 improves every time. *)
Definition improving_f1_values : list Q := [50 # 100; 60 # 100; 70 # 100].
Definition improving_rounds : list Trainer.metrics :=
  map (fun v => [("eval_loss", 1 # 1); ("eval_f1", v)]) improving_f1_values.

(** The program on one device, with the sample pipeline, generator and
    evaluation rounds. *)
Definition train : Namespace.t -> Py.result (Run nat) :=
  train RandomState seeded permutation global_rng
    (list nat) (list Z) (list nat) nat load_data len_frame label_to_num
    tokenized_dataset main_augmentation RE_Dataset "./results" "./logs" 1 rounds.

Definition main : command_line -> Py.result (Run nat) :=
  main no_int no_float RandomState seeded permutation global_rng
    (list nat) (list Z) (list nat) nat load_data len_frame label_to_num
    tokenized_dataset main_augmentation RE_Dataset "./results" "./logs" 1 rounds.

End Sample.

(** * Properties *)

(** ** Loss selection *)

Section LossFacts.

Variable Tensor : Type.
Variable view : Tensor -> list Z -> Py.result Tensor.
Variable tensor_bool : Tensor -> Py.result bool.
Variables LB FL F1 : Tensor -> Tensor -> Py.result Tensor.

(** Calling the class object constructs a module or raises: it never
    yields a tensor. *)
Lemma call_class_not_tensor (a b : Tensor) :
  (exists e, CustomTrainer.call_loss_fct Tensor tensor_bool LB FL F1
               CustomTrainer.CrossEntropyLoss_class a b = Raise e)
  \/ (exists m, CustomTrainer.call_loss_fct Tensor tensor_bool LB FL F1
                 CustomTrainer.CrossEntropyLoss_class a b
               = Return (CustomTrainer.VModule Tensor m)).
Proof.
  cbn. unfold CustomTrainer.CrossEntropyLoss_init, CustomTrainer.legacy_get_string.
  destruct (tensor_bool b) as [flag | e]; cbn.
  - right. eexists. reflexivity.
  - left. eexists. reflexivity.
Qed.

Lemma select_loss_fct_unknown (name : string) :
  ~ known_loss name -> CustomTrainer.select_loss_fct name = None.
Proof.
  intros Hn. unfold CustomTrainer.select_loss_fct, Py.str_eq.
  destruct (String.eqb_spec name "CE") as [-> | _].
  { exfalso. apply Hn. left. reflexivity. }
  destruct (String.eqb_spec name "LB") as [-> | _].
  { exfalso. apply Hn. right. left. reflexivity. }
  destruct (String.eqb_spec name "focal") as [-> | _].
  { exfalso. apply Hn. right. right. left. reflexivity. }
  destruct (String.eqb_spec name "f1") as [-> | _].
  { exfalso. apply Hn. right. right. right. reflexivity. }
  reflexivity.
Qed.

(** The sibling branches bind a module object: [compute_loss] returns the
    scalar its [forward] computes on the reshaped logits and labels. *)
Lemma compute_loss_LB_returns_loss (self : CustomTrainer.t) model inputs outputs v :
  CustomTrainer.loss_name self = "LB" ->
  model inputs = Return outputs ->
  CustomTrainer.is_loss_of Tensor view LB (CustomTrainer.num_labels self)
    outputs inputs v ->
  CustomTrainer.compute_loss Tensor view tensor_bool LB FL F1
    self model inputs false = Return v.
Proof.
  intros Hname Hmodel [a [b [t [Ha [Hb [Hf ->]]]]]].
  unfold CustomTrainer.compute_loss. rewrite Hname, Hmodel. cbn.
  rewrite Ha. cbn. rewrite Hb. cbn. rewrite Hf. reflexivity.
Qed.

(** C1 (as the code has it): with [loss_name = "CE"] the local [loss_fct] is
    bound to the class [nn.CrossEntropyLoss] itself, so the call on the
    logits and labels runs the constructor: [compute_loss] raises or returns
    a module object; for no batch does it return a loss tensor, so what it
    returns is never the cross-entropy of the logits and labels, whatever
    [forward] of [nn.CrossEntropyLoss()] computes. *)
Theorem compute_loss_CE_builds_module :
  forall (self : CustomTrainer.t) model inputs,
    CustomTrainer.loss_name self = "CE" ->
    ((exists e, CustomTrainer.compute_loss Tensor view tensor_bool LB FL F1
                  self model inputs false = Raise e)
     \/ (exists m, CustomTrainer.compute_loss Tensor view tensor_bool LB FL F1
                     self model inputs false
                   = Return (CustomTrainer.VModule Tensor m)))
    /\ (forall t, CustomTrainer.compute_loss Tensor view tensor_bool LB FL F1
                    self model inputs false
                  <> Return (CustomTrainer.VTensor Tensor t))
    /\ (forall CrossEntropyLoss_forward outputs v,
          CustomTrainer.compute_loss Tensor view tensor_bool LB FL F1
            self model inputs false = Return v ->
          ~ CustomTrainer.is_loss_of Tensor view CrossEntropyLoss_forward
              (CustomTrainer.num_labels self) outputs inputs v).
Proof.
  intros self model inputs Hname.
  assert (Hcases :
    (exists e, CustomTrainer.compute_loss Tensor view tensor_bool LB FL F1
                 self model inputs false = Raise e)
    \/ (exists m, CustomTrainer.compute_loss Tensor view tensor_bool LB FL F1
                    self model inputs false
                  = Return (CustomTrainer.VModule Tensor m))).
  { unfold CustomTrainer.compute_loss. rewrite Hname. cbn.
    destruct (model inputs) as [outputs | e]; cbn; [ | left; eauto ].
    destruct (CustomTrainer.view_of Tensor view
                (CustomTrainer.dict_get Tensor outputs "logits") _)
      as [a | e]; cbn; [ | left; eauto ].
    destruct (CustomTrainer.view_of Tensor view
                (CustomTrainer.dict_get Tensor inputs "labels") _)
      as [b | e]; cbn; [ | left; eauto ].
    destruct (call_class_not_tensor a b) as [[e He] | [m Hm]].
    - left. exists e. cbn in He. rewrite He. reflexivity.
    - right. exists m. cbn in Hm. rewrite Hm. reflexivity. }
  assert (Hnot : forall t,
    CustomTrainer.compute_loss Tensor view tensor_bool LB FL F1
      self model inputs false
    <> Return (CustomTrainer.VTensor Tensor t)).
  { intros t Ht. destruct Hcases as [[e He] | [m Hm]]; congruence. }
  split; [ exact Hcases | ].
  split; [ exact Hnot | ].
  intros CE outputs v Hv [a [b [t [_ [_ [_ ->]]]]]].
  exact (Hnot t Hv).
Qed.

(** C4 (amended): a loss name outside the four known ones passes trainer
    construction unchecked; [compute_loss] then runs the forward pass and
    fails on reading the unassigned local [loss_fct], with Python's
    [UnboundLocalError]. *)
Theorem compute_loss_unknown_name_unbound :
  forall (args : Namespace.t) targs n (self : CustomTrainer.t)
         model inputs return_outputs,
    ~ known_loss (Namespace.loss args) ->
    custom_trainer args targs n = Return self ->
    CustomTrainer.compute_loss Tensor view tensor_bool LB FL F1
      self model inputs return_outputs
    = (outputs <- model inputs ;; Raise (UnboundLocalError "loss_fct")).
Proof.
  intros args targs n self model inputs ro Hunknown Hbuild.
  unfold custom_trainer in Hbuild.
  destruct (Py.floordiv _ _) as [k | e]; cbn in Hbuild; [ | discriminate ].
  injection Hbuild as <-.
  unfold CustomTrainer.compute_loss. cbn.
  rewrite (select_loss_fct_unknown _ Hunknown). cbn.
  destruct (model inputs); reflexivity.
Qed.

End LossFacts.

(** The failing run of C1: one example, true class 0.  The constructor
    stores the logits as class weights and reads the label tensor as
    [size_average]. *)
Lemma compute_loss_CE_sample_run :
  Sample.compute_loss (Sample.trainer "CE" "cosine")
    (Sample.model Sample.logits) Sample.inputs false
  = Return (CustomTrainer.VModule Sample.Tensor
              {| CustomTrainer.ce_weight := Some Sample.logits;
                 CustomTrainer.ce_reduction := "sum" |}).
Proof. reflexivity. Qed.

Lemma compute_loss_CE_witness :
  CustomTrainer.loss_name (Sample.trainer "CE" "cosine") = "CE"
  /\ ((exists e, Sample.compute_loss (Sample.trainer "CE" "cosine")
                   (Sample.model Sample.logits) Sample.inputs false = Raise e)
      \/ (exists m, Sample.compute_loss (Sample.trainer "CE" "cosine")
                      (Sample.model Sample.logits) Sample.inputs false
                    = Return (CustomTrainer.VModule Sample.Tensor m)))
  /\ (forall t, Sample.compute_loss (Sample.trainer "CE" "cosine")
                  (Sample.model Sample.logits) Sample.inputs false
                <> Return (CustomTrainer.VTensor Sample.Tensor t))
  /\ (forall CrossEntropyLoss_forward outputs v,
        Sample.compute_loss (Sample.trainer "CE" "cosine")
          (Sample.model Sample.logits) Sample.inputs false = Return v ->
        ~ CustomTrainer.is_loss_of Sample.Tensor Sample.view
            CrossEntropyLoss_forward
            (CustomTrainer.num_labels (Sample.trainer "CE" "cosine"))
            outputs Sample.inputs v).
Proof.
  split; [ reflexivity | ].
  exact (compute_loss_CE_builds_module Sample.Tensor Sample.view Sample.tensor_bool
           (Sample.forward 1) (Sample.forward 2) (Sample.forward 3)
           (Sample.trainer "CE" "cosine") (Sample.model Sample.logits)
           Sample.inputs eq_refl).
Defined.

(** The sibling branches call a module object and return its scalar. *)
Lemma compute_loss_focal_sample_run :
  Sample.compute_loss (Sample.trainer "focal" "cosine")
    (Sample.model Sample.logits) Sample.inputs false
  = Return (CustomTrainer.VTensor Sample.Tensor [2 # 1]).
Proof. reflexivity. Qed.

Lemma unknown_is_not_a_known_loss : ~ known_loss "unknown".
Proof. intros [H | [H | [H | H]]]; discriminate H. Qed.

(** C4, as stated, fails for the name ["unknown"]: the command line and the
    trainer construction accept it, and the error of the first loss
    computation is an [UnboundLocalError]. *)
Lemma unknown_loss_counterexample :
  parse_args Sample.no_int Sample.no_float [("loss", "unknown")]
  = Return (Sample.args "unknown" "linear")
  /\ custom_trainer (Sample.args "unknown" "linear") Sample.targs 100
     = Return (Sample.trainer "unknown" "linear")
  /\ Sample.compute_loss (Sample.trainer "unknown" "linear")
       (Sample.model Sample.logits) Sample.inputs false
     = Raise (UnboundLocalError "loss_fct")
  /\ ~ (exists e,
          Sample.compute_loss (Sample.trainer "unknown" "linear")
            (Sample.model Sample.logits) Sample.inputs false = Raise e
          /\ (Py.class_name e = "ConfigurationError"
              \/ Py.class_name e = "UnknownLossError")).
Proof.
  repeat split; try reflexivity.
  intros [e [He Hclass]].
  change (Raise (UnboundLocalError "loss_fct") = Raise e :> Py.result (CustomTrainer.value Sample.Tensor)) in He.
  injection He as <-. cbn in Hclass. destruct Hclass as [H | H]; discriminate H.
Qed.

Lemma compute_loss_unknown_name_witness :
  ~ known_loss (Namespace.loss (Sample.args "unknown" "linear"))
  /\ custom_trainer (Sample.args "unknown" "linear") Sample.targs 100
     = Return (Sample.trainer "unknown" "linear")
  /\ Sample.compute_loss (Sample.trainer "unknown" "linear")
       (Sample.model Sample.logits) Sample.inputs false
     = (outputs <- Sample.model Sample.logits Sample.inputs ;;
        Raise (UnboundLocalError "loss_fct")).
Proof.
  split; [ exact unknown_is_not_a_known_loss | ].
  split; [ reflexivity | ].
  exact (compute_loss_unknown_name_unbound Sample.Tensor Sample.view
           Sample.tensor_bool (Sample.forward 1) (Sample.forward 2)
           (Sample.forward 3)
           (Sample.args "unknown" "linear") Sample.targs 100
           (Sample.trainer "unknown" "linear")
           (Sample.model Sample.logits) Sample.inputs false
           unknown_is_not_a_known_loss eq_refl).
Defined.

(** ** Scheduler construction *)

(** Trainer construction checks neither name and leaves the optimizer and
    the scheduler unset. *)
Lemma custom_trainer_fresh (args : Namespace.t) targs n self :
  custom_trainer args targs n = Return self ->
  CustomTrainer.loss_name self = Namespace.loss args
  /\ CustomTrainer.scheduler self = Namespace.scheduler args
  /\ CustomTrainer.optimizer self = None
  /\ CustomTrainer.lr_scheduler self = None.
Proof.
  unfold custom_trainer. intros H.
  destruct (Py.floordiv _ _) as [k | e]; cbn in H; [ | discriminate ].
  injection H as <-. repeat split.
Qed.

(** C2 (as the code has it): for ["linear"] only the local [my_scheduler]
    is assigned; the [get_scheduler] call sits in the ["cosine"] branch, so
    no step function is built or stored and the stored value is returned as
    it was. *)
Theorem create_scheduler_linear_builds_nothing :
  forall (self : CustomTrainer.t) num_training_steps optimizer,
    CustomTrainer.scheduler self = "linear" ->
    CustomTrainer.create_scheduler self num_training_steps optimizer
    = Return (self, CustomTrainer.lr_scheduler self).
Proof.
  intros self steps opt H. unfold CustomTrainer.create_scheduler.
  rewrite H. reflexivity.
Qed.

Lemma create_scheduler_linear_witness :
  CustomTrainer.scheduler (Sample.trainer "focal" "linear") = "linear"
  /\ CustomTrainer.create_scheduler (Sample.trainer "focal" "linear") 60
       (Some Sample.adamw)
     = Return (Sample.trainer "focal" "linear", None).
Proof.
  split; [ reflexivity | ].
  exact (create_scheduler_linear_builds_nothing
           (Sample.trainer "focal" "linear") 60 (Some Sample.adamw) eq_refl).
Defined.

(** What the ["linear"] schedule of the library would give, had it been
    built: multiplier 0 at step 0 and 1 at the end of the warmup. *)
Lemma linear_lr_lambda_warmup (w total : Z) :
  0 < w -> w < total ->
  Transformers.linear_lr_lambda w total 0 == 0
  /\ Transformers.linear_lr_lambda w total w == 1.
Proof.
  intros Hw Htot. unfold Transformers.linear_lr_lambda. split.
  - destruct (Z.ltb_spec 0 w) as [_ | Hc]; [ | lia ].
    unfold Qdiv. rewrite Qmult_0_l. reflexivity.
  - destruct (Z.ltb_spec w w) as [Hc | _]; [ lia | ].
    rewrite Z.max_r by lia.
    assert (Hq : inject_Z (total - w) / inject_Z (total - w) == 1).
    { apply Qmult_inv_r. unfold Qeq. cbn. lia. }
    rewrite Hq. reflexivity.
Qed.

(** With ["linear"], a run with at least one optimization step ends at the
    first [lr_scheduler.step()]: there is no scheduler to step. *)
Lemma train_linear_has_no_scheduler (self : CustomTrainer.t) n_gpu n_train rounds steps :
  CustomTrainer.scheduler self = "linear" ->
  CustomTrainer.lr_scheduler self = None ->
  CustomTrainer.max_steps self n_gpu n_train = Return steps ->
  0 < steps ->
  CustomTrainer.train self n_gpu n_train rounds
  = Raise (AttributeError "'NoneType' object has no attribute 'step'").
Proof.
  intros Hname Hnone Hsteps Hpos. unfold CustomTrainer.train.
  rewrite Hsteps. cbn.
  unfold CustomTrainer.create_optimizer_and_scheduler,
    CustomTrainer.create_scheduler.
  assert (Hname' : CustomTrainer.scheduler (CustomTrainer.create_optimizer self)
                   = "linear").
  { unfold CustomTrainer.create_optimizer.
    destruct (CustomTrainer.optimizer self); exact Hname. }
  rewrite Hname'. cbn.
  destruct (Z.ltb_spec 0 steps) as [_ | Hc]; [ | lia ].
  unfold CustomTrainer.first_scheduler_step, CustomTrainer.create_optimizer.
  destruct (CustomTrainer.optimizer self); cbn; rewrite Hnone; reflexivity.
Qed.

(** The attribute [num_training_steps] set by the constructor has no part
    in the scheduler that is returned. *)
Lemma create_scheduler_ignores_attribute
      (loss_name scheduler : string) (k1 k2 : Z) targs num_labels callbacks
      (steps : Z) (optimizer : option Torch.Optimizer) :
  (r <- CustomTrainer.create_scheduler
          (CustomTrainer.init loss_name scheduler k1 targs num_labels callbacks)
          steps optimizer ;;
   Return (snd r))
  = (r <- CustomTrainer.create_scheduler
            (CustomTrainer.init loss_name scheduler k2 targs num_labels callbacks)
            steps optimizer ;;
     Return (snd r)).
Proof.
  unfold CustomTrainer.create_scheduler. cbn.
  destruct (String.eqb scheduler "linear"); cbn; [ reflexivity | ].
  destruct (String.eqb scheduler "cosine"); cbn.
  - destruct optimizer; reflexivity.
  - destruct (String.eqb scheduler "steplr"); reflexivity.
Qed.

Lemma str_eq_false (a b : string) : a <> b -> Py.str_eq a b = false.
Proof. intros H. unfold Py.str_eq. apply String.eqb_neq. exact H. Qed.

(** C3 (amended): a scheduler name outside the three tested ones raises
    nothing; [create_scheduler] leaves the trainer as it was and returns the
    stored [lr_scheduler] unchanged. *)
Theorem create_scheduler_unknown_name_unchanged :
  forall (self : CustomTrainer.t) num_training_steps optimizer,
    ~ known_scheduler (CustomTrainer.scheduler self) ->
    CustomTrainer.create_scheduler self num_training_steps optimizer
    = Return (self, CustomTrainer.lr_scheduler self).
Proof.
  intros self steps opt Hn. unfold CustomTrainer.create_scheduler.
  rewrite (str_eq_false (CustomTrainer.scheduler self) "linear").
  2:{ intros H. apply Hn. left. exact H. }
  rewrite (str_eq_false (CustomTrainer.scheduler self) "cosine").
  2:{ intros H. apply Hn. right. left. exact H. }
  rewrite (str_eq_false (CustomTrainer.scheduler self) "steplr").
  2:{ intros H. apply Hn. right. right. exact H. }
  reflexivity.
Qed.

Lemma exponential_is_not_a_known_scheduler : ~ known_scheduler "exponential".
Proof. intros [H | [H | H]]; discriminate H. Qed.

Lemma create_scheduler_unknown_name_witness :
  ~ known_scheduler (CustomTrainer.scheduler (Sample.trainer "focal" "exponential"))
  /\ CustomTrainer.create_scheduler (Sample.trainer "focal" "exponential") 60
       (Some Sample.adamw)
     = Return (Sample.trainer "focal" "exponential", None).
Proof.
  split; [ exact exponential_is_not_a_known_scheduler | ].
  exact (create_scheduler_unknown_name_unchanged
           (Sample.trainer "focal" "exponential") 60 (Some Sample.adamw)
           exponential_is_not_a_known_scheduler).
Defined.

(** C3, as stated, fails for the name ["exponential"]: the command line and
    the trainer construction accept it, and scheduler construction returns
    [None] without an error. *)
Lemma unknown_scheduler_counterexample :
  parse_args Sample.no_int Sample.no_float [("scheduler", "exponential")]
  = Return (Sample.args "focal" "exponential")
  /\ custom_trainer (Sample.args "focal" "exponential") Sample.targs 100
     = Return (Sample.trainer "focal" "exponential")
  /\ CustomTrainer.create_scheduler (Sample.trainer "focal" "exponential") 60
       (Some Sample.adamw)
     = Return (Sample.trainer "focal" "exponential", None)
  /\ ~ (exists e,
          CustomTrainer.create_scheduler (Sample.trainer "focal" "exponential") 60
            (Some Sample.adamw) = Raise e
          /\ Py.class_name e = "ConfigurationError").
Proof.
  repeat split; try reflexivity.
  intros [e [He _]]. discriminate He.
Qed.

(** C7 (as the code has it): for ["cosine"], the one name for which a
    schedule is built from step counts, the total is the argument the
    training loop passes and the warmup is [get_warmup_steps] of it; the
    attribute [num_training_steps] that [train] computed from epochs, data
    size and batch size is not read. *)
Theorem create_scheduler_uses_argument_steps :
  forall (self : CustomTrainer.t) num_training_steps optimizer o,
    CustomTrainer.scheduler self = "cosine" ->
    match optimizer with
    | None => CustomTrainer.optimizer self
    | Some o' => Some o'
    end = Some o ->
    CustomTrainer.create_scheduler self num_training_steps optimizer
    = Return
        (CustomTrainer.set_lr_scheduler self
           (Torch.LambdaLR o
              {| Torch.schedule_name := "cosine_with_restarts";
                 Torch.num_warmup_steps :=
                   TrainingArguments.get_warmup_steps (CustomTrainer.args self)
                     num_training_steps;
                 Torch.num_training_steps := num_training_steps |}),
         Some (Torch.LambdaLR o
                 {| Torch.schedule_name := "cosine_with_restarts";
                    Torch.num_warmup_steps :=
                      TrainingArguments.get_warmup_steps (CustomTrainer.args self)
                        num_training_steps;
                    Torch.num_training_steps := num_training_steps |})).
Proof.
  intros self steps opt o Hname Hopt. unfold CustomTrainer.create_scheduler.
  rewrite Hname. cbn. rewrite Hopt. reflexivity.
Qed.

(** The stored attribute says 62 steps for 20 epochs over 100 rows in
    batches of 32; the loop passes 60 for the 80 training examples, and 60
    is what the schedule is built with. *)
Lemma create_scheduler_uses_argument_steps_witness :
  CustomTrainer.scheduler (Sample.trainer "focal" "cosine") = "cosine"
  /\ CustomTrainer.num_training_steps (Sample.trainer "focal" "cosine") = 62
  /\ CustomTrainer.max_steps (Sample.trainer "focal" "cosine") 1 80 = Return 60
  /\ CustomTrainer.create_scheduler (Sample.trainer "focal" "cosine") 60
       (Some Sample.adamw)
     = Return
         (CustomTrainer.set_lr_scheduler (Sample.trainer "focal" "cosine")
            (Torch.LambdaLR Sample.adamw
               {| Torch.schedule_name := "cosine_with_restarts";
                  Torch.num_warmup_steps := 810;
                  Torch.num_training_steps := 60 |}),
          Some (Torch.LambdaLR Sample.adamw
                  {| Torch.schedule_name := "cosine_with_restarts";
                     Torch.num_warmup_steps := 810;
                     Torch.num_training_steps := 60 |})).
Proof.
  split; [ reflexivity | ].
  split; [ reflexivity | ].
  split; [ reflexivity | ].
  exact (create_scheduler_uses_argument_steps
           (Sample.trainer "focal" "cosine") 60 (Some Sample.adamw) Sample.adamw
           eq_refl eq_refl).
Defined.

(** ** The step schedule *)

Lemma succ_div_mod (a s : Z) :
  0 <= a -> 0 < s ->
  ((a + 1) mod s <> 0 /\ (a + 1) / s = a / s)
  \/ ((a + 1) mod s = 0 /\ (a + 1) / s = a / s + 1).
Proof.
  intros Ha Hs.
  pose proof (Z.div_mod a s ltac:(lia)) as Hdm.
  pose proof (Z.mod_pos_bound a s Hs) as Hb.
  destruct (Z_lt_dec (a mod s + 1) s) as [Hlt | Hge].
  - left.
    assert (Hm : (a + 1) mod s = a mod s + 1).
    { symmetry. apply (Z.mod_unique_pos _ _ (a / s)); lia. }
    assert (Hd : (a + 1) / s = a / s).
    { symmetry. apply (Z.div_unique_pos _ _ _ (a mod s + 1)); lia. }
    split; [ lia | exact Hd ].
  - right.
    assert (Hm : (a + 1) mod s = 0).
    { symmetry. apply (Z.mod_unique_pos _ _ (a / s + 1)); lia. }
    assert (Hd : (a + 1) / s = a / s + 1).
    { symmetry. apply (Z.div_unique_pos _ _ _ 0); lia. }
    split; [ exact Hm | exact Hd ].
Qed.

Section StepSchedule.

Variable o : Torch.Optimizer.
Variable step_size : Z.
Variable gamma : Q.
Hypothesis step_size_pos : 0 < step_size.
Hypothesis gamma_nonzero : ~ gamma == 0.

(** [last_epoch] counts the calls of [step]. *)
Lemma StepLR_run_last_epoch (n : nat) :
  Torch.last_epoch (Torch.StepLR_run step_size gamma (Torch.StepLR_start o) n)
  = Z.of_nat n.
Proof.
  induction n as [| n IH]; [ reflexivity | ].
  cbn [Torch.StepLR_run]. unfold Torch.StepLR_step. cbn [Torch.last_epoch].
  rewrite IH. lia.
Qed.

(** The closed form of the chained update: after [n] steps the rate is
    [base_lr * gamma ^ (n // step_size)]. *)
Lemma StepLR_run_closed_form (n : nat) :
  Torch.current_lr (Torch.StepLR_run step_size gamma (Torch.StepLR_start o) n)
  == Torch.base_lr o * gamma ^ (Z.of_nat n / step_size).
Proof.
  induction n as [| n IH].
  - cbn [Torch.StepLR_run Torch.StepLR_start Torch.current_lr Z.of_nat].
    rewrite Z.div_0_l by lia. cbn. ring.
  - cbn [Torch.StepLR_run]. unfold Torch.StepLR_step. cbn [Torch.current_lr].
    rewrite StepLR_run_last_epoch.
    replace (Z.of_nat (S n)) with (Z.of_nat n + 1) by lia.
    unfold Torch.StepLR_get_lr.
    destruct (Z.eqb_spec (Z.of_nat n + 1) 0) as [Hc | _]; [ lia | ].
    cbn [orb].
    destruct (succ_div_mod (Z.of_nat n) step_size ltac:(lia) step_size_pos)
      as [[Hm Hd] | [Hm Hd]].
    + destruct (Z.eqb_spec ((Z.of_nat n + 1) mod step_size) 0) as [Hc | _];
        [ contradiction | ].
      cbn [negb]. rewrite Hd. exact IH.
    + destruct (Z.eqb_spec ((Z.of_nat n + 1) mod step_size) 0) as [_ | Hc];
        [ | contradiction ].
      cbn [negb]. rewrite Hd, IH.
      rewrite Qpower_plus by exact gamma_nonzero.
      rewrite Qpower_1_r. ring.
Qed.

(** Before the first boundary the rate is the base rate itself. *)
Lemma StepLR_run_before_first_boundary (n : nat) :
  Z.of_nat n < step_size ->
  Torch.current_lr (Torch.StepLR_run step_size gamma (Torch.StepLR_start o) n)
  = Torch.base_lr o.
Proof.
  induction n as [| n IH]; intros Hn; [ reflexivity | ].
  cbn [Torch.StepLR_run]. unfold Torch.StepLR_step. cbn [Torch.current_lr].
  rewrite StepLR_run_last_epoch. unfold Torch.StepLR_get_lr.
  replace ((Z.of_nat n + 1) mod step_size) with (Z.of_nat n + 1)
    by (symmetry; apply Z.mod_small; lia).
  destruct (Z.eqb_spec (Z.of_nat n + 1) 0) as [Hc | _]; [ lia | ].
  cbn. apply IH. lia.
Qed.

End StepSchedule.

(** C5: with ["steplr"] the scheduler built and stored is
    [StepLR(self.optimizer, step_size=1080, gamma=0.5)]: no warmup (the base
    rate holds for the first 1079 steps), half the base rate after exactly
    1080 steps, a quarter after 2160, and in general
    [base_lr * 0.5 ^ (n // 1080)] after [n] steps. *)
Theorem create_scheduler_steplr_halves_every_1080 :
  forall (self : CustomTrainer.t) num_training_steps optimizer o,
    CustomTrainer.scheduler self = "steplr" ->
    CustomTrainer.optimizer self = Some o ->
    let s := Torch.StepLR o 1080 (1 # 2) in
    CustomTrainer.create_scheduler self num_training_steps optimizer
    = Return (CustomTrainer.set_lr_scheduler self s, Some s)
    /\ (forall n, (n < 1080)%nat -> Torch.lr_after s n = Some (Torch.base_lr o))
    /\ (exists r, Torch.lr_after s 1080 = Some r /\ r == Torch.base_lr o * (1 # 2))
    /\ (exists r, Torch.lr_after s 2160 = Some r /\ r == Torch.base_lr o * (1 # 4))
    /\ (forall n, exists r,
          Torch.lr_after s n = Some r
          /\ r == Torch.base_lr o * (1 # 2) ^ (Z.of_nat n / 1080)).
Proof.
  intros self steps opt o Hname Hopt s.
  assert (Hhalf : ~ (1 # 2) == 0) by (intros H; discriminate H).
  split.
  { unfold CustomTrainer.create_scheduler. rewrite Hname. cbn.
    rewrite Hopt. reflexivity. }
  split.
  { intros n Hn. cbn. f_equal.
    apply StepLR_run_before_first_boundary. lia. }
  split.
  { eexists. split; [ reflexivity | ].
    rewrite (StepLR_run_closed_form o 1080 (1 # 2) ltac:(lia) Hhalf 1080).
    reflexivity. }
  split.
  { eexists. split; [ reflexivity | ].
    rewrite (StepLR_run_closed_form o 1080 (1 # 2) ltac:(lia) Hhalf 2160).
    reflexivity. }
  intros n. eexists. split; [ reflexivity | ].
  apply StepLR_run_closed_form; [ lia | exact Hhalf ].
Qed.

Lemma create_scheduler_steplr_witness :
  CustomTrainer.scheduler
    (CustomTrainer.create_optimizer (Sample.trainer "focal" "steplr")) = "steplr"
  /\ CustomTrainer.optimizer
       (CustomTrainer.create_optimizer (Sample.trainer "focal" "steplr"))
     = Some Sample.adamw
  /\ (let s := Torch.StepLR Sample.adamw 1080 (1 # 2) in
      CustomTrainer.create_scheduler
        (CustomTrainer.create_optimizer (Sample.trainer "focal" "steplr")) 60
        (Some Sample.adamw)
      = Return (CustomTrainer.set_lr_scheduler
                  (CustomTrainer.create_optimizer (Sample.trainer "focal" "steplr")) s,
                Some s)
      /\ (forall n, (n < 1080)%nat ->
                    Torch.lr_after s n = Some (Torch.base_lr Sample.adamw))
      /\ (exists r, Torch.lr_after s 1080 = Some r
                    /\ r == Torch.base_lr Sample.adamw * (1 # 2))
      /\ (exists r, Torch.lr_after s 2160 = Some r
                    /\ r == Torch.base_lr Sample.adamw * (1 # 4))
      /\ (forall n, exists r,
            Torch.lr_after s n = Some r
            /\ r == Torch.base_lr Sample.adamw * (1 # 2) ^ (Z.of_nat n / 1080))).
Proof.
  split; [ reflexivity | ].
  split; [ reflexivity | ].
  exact (create_scheduler_steplr_halves_every_1080
           (CustomTrainer.create_optimizer (Sample.trainer "focal" "steplr"))
           60 (Some Sample.adamw) Sample.adamw eq_refl eq_refl).
Defined.

(** ** Training configuration *)

(** [__post_init__] changes [eval_steps] at most. *)
Lemma post_init_returns (a a' : TrainingArguments.t) :
  TrainingArguments.post_init a = Return a' ->
  a' = TrainingArguments.set_eval_steps a (TrainingArguments.eval_steps a')
  /\ ((TrainingArguments.evaluation_strategy a = "steps"
       /\ TrainingArguments.eval_steps a = 0
       /\ 0 < TrainingArguments.logging_steps a
       /\ TrainingArguments.eval_steps a' = TrainingArguments.logging_steps a)
      \/ ((TrainingArguments.evaluation_strategy a <> "steps"
           \/ TrainingArguments.eval_steps a <> 0)
          /\ TrainingArguments.eval_steps a' = TrainingArguments.eval_steps a)).
Proof.
  unfold TrainingArguments.post_init, Py.str_eq. intros H.
  destruct (String.eqb_spec (TrainingArguments.evaluation_strategy a) "steps")
    as [Hs | Hs];
    [ destruct (Z.eqb_spec (TrainingArguments.eval_steps a) 0) as [H0 | H0];
      [ destruct (Z.ltb_spec 0 (TrainingArguments.logging_steps a)) as [Hl | Hl] | ]
    | ];
    cbn [andb Py.bind] in H; try discriminate H.
  - match type of H with (if ?c then _ else _) = _ =>
      destruct c; [ discriminate H | ] end.
    injection H as <-. split; [ reflexivity | ].
    left. repeat split; assumption.
  - match type of H with (if ?c then _ else _) = _ =>
      destruct c; [ discriminate H | ] end.
    injection H as <-. split; [ destruct a; reflexivity | ].
    right. split; [ right; exact H0 | reflexivity ].
  - match type of H with (if ?c then _ else _) = _ =>
      destruct c; [ discriminate H | ] end.
    injection H as <-. split; [ destruct a; reflexivity | ].
    right. split; [ left; exact Hs | reflexivity ].
Qed.

(** The training arguments [train] obtains: the values passed, except for
    an [eval_steps] of 0, which [__post_init__] replaces by
    [logging_steps]. *)
Lemma training_arguments_returns SAVE_DIR LOG_DIR (args : Namespace.t)
      (n : Z) (targs : TrainingArguments.t) :
  training_arguments SAVE_DIR LOG_DIR args n = Return targs ->
  Namespace.batch args <> 0
  /\ targs
     = {| TrainingArguments.output_dir := SAVE_DIR;
          TrainingArguments.save_total_limit := 5;
          TrainingArguments.save_steps := n / Namespace.batch args / 2;
          TrainingArguments.num_train_epochs := Namespace.epochs args;
          TrainingArguments.learning_rate := Namespace.lr args;
          TrainingArguments.per_device_train_batch_size := Namespace.batch args;
          TrainingArguments.per_device_eval_batch_size := Namespace.batch_valid args;
          TrainingArguments.warmup_steps := Namespace.warmup_steps args;
          TrainingArguments.weight_decay := Namespace.warmup args;
          TrainingArguments.logging_dir := LOG_DIR;
          TrainingArguments.logging_steps := Namespace.logging_steps args;
          TrainingArguments.evaluation_strategy := "steps";
          TrainingArguments.eval_steps := TrainingArguments.eval_steps targs;
          TrainingArguments.load_best_model_at_end := true;
          TrainingArguments.metric_for_best_model :=
            Namespace.metric_for_best_model args;
          TrainingArguments.report_to := "wandb";
          TrainingArguments.warmup_ratio := 0 |}
  /\ ((n / Namespace.batch args / 2 = 0
       /\ 0 < Namespace.logging_steps args
       /\ TrainingArguments.eval_steps targs = Namespace.logging_steps args)
      \/ (n / Namespace.batch args / 2 <> 0
          /\ TrainingArguments.eval_steps targs = n / Namespace.batch args / 2)).
Proof.
  intros H. unfold training_arguments, Py.floordiv in H.
  destruct (Z.eqb_spec (Namespace.batch args) 0) as [Hb | Hb];
    [ discriminate H | ].
  cbn [Py.bind Z.eqb] in H.
  apply post_init_returns in H. cbn [TrainingArguments.evaluation_strategy
    TrainingArguments.eval_steps TrainingArguments.logging_steps] in H.
  destruct H as [Heq Hcases].
  split; [ exact Hb | ]. split; [ exact Heq | ].
  destruct Hcases as [(_ & H0 & Hl & He) | ([Hs | H0] & He)].
  - left. repeat split; assumption.
  - exfalso. apply Hs. reflexivity.
  - right. split; assumption.
Qed.

(** C8 (as the code has it): the weight decay recorded in the training
    arguments is the value of [--warmup], not that of [--weight_decay]. *)
Theorem training_arguments_weight_decay_is_warmup :
  forall SAVE_DIR LOG_DIR (args : Namespace.t) len_train_dataset targs,
    training_arguments SAVE_DIR LOG_DIR args len_train_dataset = Return targs ->
    TrainingArguments.weight_decay targs = Namespace.warmup args.
Proof.
  intros SAVE LOG args n targs H.
  destruct (training_arguments_returns _ _ _ _ _ H) as (_ & -> & _).
  reflexivity.
Qed.

(** The default command line: weight decay 0.1 is recorded, the default of
    [--weight_decay] is 0.01. *)
Lemma training_arguments_weight_decay_witness :
  parse_args Sample.no_int Sample.no_float [] = Return (Sample.args "focal" "linear")
  /\ training_arguments "./results" "./logs" (Sample.args "focal" "linear") 100
     = Return Sample.targs
  /\ TrainingArguments.weight_decay Sample.targs
     = Namespace.warmup (Sample.args "focal" "linear")
  /\ TrainingArguments.weight_decay Sample.targs = 1 # 10
  /\ Namespace.weight_decay (Sample.args "focal" "linear") = 1 # 100.
Proof.
  split; [ reflexivity | ].
  split; [ reflexivity | ].
  split; [ | split; reflexivity ].
  exact (training_arguments_weight_decay_is_warmup "./results" "./logs"
           (Sample.args "focal" "linear") 100 Sample.targs eq_refl).
Defined.

(** ** The augmentation flag *)

Lemma last_value_In (name : string) (cl : command_line) (v : string) :
  last_value name cl = Some v -> In (name, v) cl.
Proof.
  induction cl as [| [n w] cl IH]; cbn; [ discriminate | ].
  destruct (last_value name cl) as [v' |].
  - intros H. right. apply IH. exact H.
  - unfold Py.str_eq. destruct (String.eqb_spec name n) as [-> | _];
      [ | discriminate ].
    intros H. injection H as ->. left. reflexivity.
Qed.

Lemma bool_of_str_nonempty (s : string) : s <> "" -> Py.bool_of_str s = true.
Proof.
  intros H. unfold Py.bool_of_str.
  destruct (String.eqb_spec s "") as [Heq | _]; [ contradiction | reflexivity ].
Qed.

Section AugmentationFlag.

Variable py_int : string -> option Z.
Variable py_float : string -> option Q.
Variables DataFrame Labels Tokenized Example : Type.
Variable load_data : Z -> DataFrame.
Variable label_to_num : DataFrame -> Labels.
Variable tokenized_dataset : DataFrame -> Tokenized.
Variable main_augmentation : Tokenized -> Tokenized.
Variable RE_Dataset : Tokenized -> Labels -> list Example.

(** C10 (amended): every non-empty value given to [--augmentation],
    ["False"] included, parses as [True], and so does the default; on a
    command line whose [--augmentation] values are all non-empty the
    augmentation step is applied. *)
Theorem augmentation_on_unless_empty_value :
  forall (cl : command_line) (args : Namespace.t),
    parse_args py_int py_float cl = Return args ->
    (forall v, In ("augmentation", v) cl -> v <> "") ->
    Namespace.augmentation args = true
    /\ build_RE_train_dataset DataFrame Labels Tokenized Example load_data
         label_to_num tokenized_dataset main_augmentation RE_Dataset args
       = RE_Dataset
           (main_augmentation
              (tokenized_dataset (load_data (Namespace.generate_option args))))
           (label_to_num (load_data (Namespace.generate_option args))).
Proof.
  intros cl args Hparse Hvals.
  assert (Haug : Namespace.augmentation args = true).
  { unfold parse_args in Hparse.
    destruct (forallb (accepted py_int py_float) cl); [ | discriminate ].
    injection Hparse as <-. cbn [Namespace.augmentation]. unfold attr.
    destruct (last_value "augmentation" cl) as [raw |] eqn:Hlast;
      [ | reflexivity ].
    cbn. apply bool_of_str_nonempty. apply Hvals.
    apply last_value_In. exact Hlast. }
  split; [ exact Haug | ].
  unfold build_RE_train_dataset. rewrite Haug. reflexivity.
Qed.

End AugmentationFlag.

Lemma value_False_is_nonempty :
  forall v, In ("augmentation", v) [("augmentation", "False")] -> v <> "".
Proof.
  intros v [H | []]. injection H as <-. discriminate.
Qed.

Lemma augmentation_on_unless_empty_value_witness :
  parse_args Sample.no_int Sample.no_float [("augmentation", "False")]
  = Return (Sample.args "focal" "linear")
  /\ Namespace.augmentation (Sample.args "focal" "linear") = true
  /\ Sample.build_RE_train_dataset (Sample.args "focal" "linear")
     = Sample.RE_Dataset
         (Sample.main_augmentation (Sample.tokenized_dataset (Sample.load_data 0)))
         (Sample.label_to_num (Sample.load_data 0)).
Proof.
  split; [ reflexivity | ].
  exact (augmentation_on_unless_empty_value Sample.no_int Sample.no_float
           (list nat) (list Z) (list nat) nat Sample.load_data
           Sample.label_to_num Sample.tokenized_dataset Sample.main_augmentation
           Sample.RE_Dataset
           [("augmentation", "False")] (Sample.args "focal" "linear")
           eq_refl value_False_is_nonempty).
Defined.

(** C10, as stated, fails for the empty value: [--augmentation ""] is
    accepted, parses as [False], and the dataset is built without the
    augmentation step. *)
Lemma augmentation_empty_value_counterexample :
  exists args,
    parse_args Sample.no_int Sample.no_float [("augmentation", "")] = Return args
    /\ Namespace.augmentation args = false
    /\ Sample.build_RE_train_dataset args
       = Sample.RE_Dataset (Sample.tokenized_dataset (Sample.load_data 0))
           (Sample.label_to_num (Sample.load_data 0))
    /\ Sample.build_RE_train_dataset args
       <> Sample.RE_Dataset
            (Sample.main_augmentation (Sample.tokenized_dataset (Sample.load_data 0)))
            (Sample.label_to_num (Sample.load_data 0)).
Proof.
  eexists. split; [ reflexivity | ].
  split; [ reflexivity | ].
  split; [ reflexivity | ].
  intros H. vm_compute in H. discriminate H.
Qed.

(** ** The train/validation split *)

Local Open Scope list_scope.

Section Indexing.

Context {A : Type}.

Lemma safe_indexing_app (X : list A) (i j : list nat) :
  Sklearn.safe_indexing X (i ++ j)
  = Sklearn.safe_indexing X i ++ Sklearn.safe_indexing X j.
Proof. unfold Sklearn.safe_indexing. apply flat_map_app. Qed.

(** Taking the items at [0, 1, ..., len(X) - 1] gives [X] back. *)
Lemma safe_indexing_range (pre X : list A) :
  Sklearn.safe_indexing (pre ++ X) (seq (length pre) (length X)) = X.
Proof.
  revert pre. induction X as [| x X IH]; intros pre; [ reflexivity | ].
  cbn [length seq]. unfold Sklearn.safe_indexing. cbn [flat_map].
  rewrite nth_error_app2 by lia. rewrite Nat.sub_diag. cbn.
  f_equal.
  specialize (IH (pre ++ [x])).
  rewrite <- app_assoc, length_app in IH. cbn in IH.
  rewrite Nat.add_1_r in IH. exact IH.
Qed.

Lemma safe_indexing_all (X : list A) :
  Sklearn.safe_indexing X (seq 0 (length X)) = X.
Proof. exact (safe_indexing_range [] X). Qed.

(** Indexing by a permutation of the positions permutes the items. *)
Lemma safe_indexing_permutation (X : list A) (ind : list nat) :
  Permutation ind (seq 0 (length X)) ->
  Permutation (Sklearn.safe_indexing X ind) X.
Proof.
  intros H. rewrite <- (safe_indexing_all X) at 2.
  unfold Sklearn.safe_indexing. apply Permutation_flat_map. exact H.
Qed.

Lemma safe_indexing_length (X : list A) (ind : list nat) :
  (forall i, In i ind -> (i < length X)%nat) ->
  length (Sklearn.safe_indexing X ind) = length ind.
Proof.
  induction ind as [| i ind IH]; intros Hvalid; [ reflexivity | ].
  unfold Sklearn.safe_indexing. cbn [flat_map]. rewrite length_app.
  fold (Sklearn.safe_indexing X ind). rewrite IH.
  2:{ intros j Hj. apply Hvalid. right. exact Hj. }
  destruct (nth_error X i) as [x |] eqn:Hnth; [ reflexivity | ].
  apply nth_error_None in Hnth.
  specialize (Hvalid i (or_introl eq_refl)). lia.
Qed.

End Indexing.

Lemma NoDup_app_disjoint {A : Type} (l1 l2 : list A) :
  NoDup (l1 ++ l2) -> forall a, In a l1 -> ~ In a l2.
Proof.
  induction l1 as [| x l1 IH]; intros Hnd a Hin; [ destruct Hin | ].
  cbn in Hnd. inversion Hnd as [| y l Hnotin Hnd' ]; subst.
  destruct Hin as [-> | Hin].
  - intros H2. apply Hnotin. apply in_or_app. right. exact H2.
  - apply IH; assumption.
Qed.

(** ** Double-precision rounding *)

Section Rounding.

Local Open Scope Q_scope.

(** Rounding to the nearest integer moves a number by at most a half. *)
Lemma round_half_even_error (x : Q) :
  Qabs (inject_Z (Py.round_half_even x) - x) <= 1 # 2.
Proof.
  unfold Py.round_half_even.
  pose proof (Qfloor_le x) as Hlo.
  pose proof (Qlt_floor x) as Hhi.
  rewrite inject_Z_plus in Hhi. change (inject_Z 1) with 1 in Hhi.
  apply Qabs_Qle_condition.
  destruct (Qcompare_spec (x - inject_Z (Qfloor x)) (1 # 2)) as [He | Hl | Hg].
  - destruct (Z.even (Qfloor x)).
    + lra.
    + rewrite inject_Z_plus. change (inject_Z 1) with 1. lra.
  - lra.
  - rewrite inject_Z_plus. change (inject_Z 1) with 1. lra.
Qed.

(** Powers of two. *)
Lemma pow2_pos (z : Z) : 0 < (2 # 1) ^ z.
Proof. apply Qpower_0_lt. reflexivity. Qed.

Lemma pow2_le (a b : Z) : (a <= b)%Z -> (2 # 1) ^ a <= (2 # 1) ^ b.
Proof. intros H. apply Qpower_le_compat_l; [exact H | discriminate]. Qed.

Lemma pow2_plus (a b : Z) : (2 # 1) ^ (a + b) == (2 # 1) ^ a * (2 # 1) ^ b.
Proof. apply Qpower_plus. discriminate. Qed.

Lemma pow2_inject (n : Z) : (0 <= n)%Z -> inject_Z (2 ^ n) == (2 # 1) ^ n.
Proof. intros H. rewrite Zpower_Qpower by exact H. reflexivity. Qed.

(** The exponent found for a positive rational below [2^k] is at most
    [k]. *)
Lemma exponent_le (q : Q) (k : Z) :
  0 < q -> q < (2 # 1) ^ k -> (Py.exponent q <= k)%Z.
Proof.
  intros Hq Hk.
  assert (He0 : (Z.log2 (Qnum q) - Z.log2 (Zpos (Qden q)) <= k)%Z).
  { destruct (Z.le_gt_cases (Z.log2 (Qnum q) - Z.log2 (Zpos (Qden q))) k)
      as [H | H]; [exact H | exfalso].
    assert (Hn : (0 < Qnum q)%Z).
    { destruct q as [n d]. unfold Qlt in Hq. cbn in Hq |- *. lia. }
    pose proof (Z.log2_spec (Qnum q) Hn) as [Hn1 _].
    pose proof (Z.log2_spec (Zpos (Qden q)) (Pos2Z.is_pos _)) as [_ Hd2].
    pose proof (Z.log2_nonneg (Qnum q)) as Hln.
    pose proof (Z.log2_nonneg (Zpos (Qden q))) as Hld.
    set (ln := Z.log2 (Qnum q)) in *. set (ld := Z.log2 (Zpos (Qden q))) in *.
    assert (Hn1q : (2 # 1) ^ ln <= inject_Z (Qnum q)).
    { rewrite <- pow2_inject by exact Hln. rewrite <- Zle_Qle. exact Hn1. }
    assert (Hd2q : inject_Z (Zpos (Qden q)) < (2 # 1) ^ (ld + 1)).
    { rewrite <- pow2_inject by lia. rewrite <- Zlt_Qlt.
      replace (ld + 1)%Z with (Z.succ ld) by lia. exact Hd2. }
    assert (Hqd : inject_Z (Qnum q) < (2 # 1) ^ k * inject_Z (Zpos (Qden q))).
    { destruct q as [n d]. cbn [Qnum Qden] in *.
      assert (Hd0 : 0 < inject_Z (Zpos d)).
      { rewrite <- (Zlt_Qlt 0). reflexivity. }
      assert (E : inject_Z n == (n # d) * inject_Z (Zpos d)).
      { rewrite (Qmake_Qdiv n d). field. lra. }
      rewrite E. apply Qmult_lt_compat_r; assumption. }
    assert (Hmono : (2 # 1) ^ (k + (ld + 1)) <= (2 # 1) ^ ln).
    { apply pow2_le. lia. }
    rewrite pow2_plus in Hmono.
    pose proof (pow2_pos k) as Hpk.
    assert (Hlt : (2 # 1) ^ k * inject_Z (Zpos (Qden q))
                  < (2 # 1) ^ k * (2 # 1) ^ (ld + 1)).
    { apply Qmult_lt_l; assumption. }
    lra. }
  unfold Py.exponent.
  destruct (Qle_bool _ _); lia.
Qed.

(** Rounding a positive rational below [2^k] to a double moves it by at
    most [2^(k-53)]. *)
Lemma to_double_pos_error (q : Q) (k : Z) :
  0 < q -> q < (2 # 1) ^ k ->
  Qabs (Py.to_double_pos q - q) <= (2 # 1) ^ (k - 53).
Proof.
  intros Hq Hk.
  pose proof (exponent_le q k Hq Hk) as He.
  unfold Py.to_double_pos. rewrite Qred_correct.
  set (ulp := (2 # 1) ^ (Py.exponent q - 52)).
  pose proof (pow2_pos (Py.exponent q - 52)) as Hulp. fold ulp in Hulp.
  pose proof (round_half_even_error (q / ulp)) as Hr.
  set (M := inject_Z (Py.round_half_even (q / ulp))) in *.
  assert (Hqm : q == (q / ulp) * ulp).
  { field. lra. }
  assert (Hd : M * ulp - q == (M - q / ulp) * ulp).
  { field. lra. }
  rewrite Hd, Qabs_Qmult, (Qabs_pos ulp) by lra.
  assert (Hb : ulp * (1 # 2) <= (2 # 1) ^ (k - 53)).
  { replace (k - 53)%Z with ((k - 52) + (- 1))%Z by lia.
    rewrite pow2_plus. change ((2 # 1) ^ (- 1)) with (1 # 2).
    apply Qmult_le_compat_r; [| discriminate].
    apply pow2_le. lia. }
  eapply Qle_trans; [| exact Hb].
  rewrite (Qmult_comm ulp).
  apply Qmult_le_compat_r; [exact Hr | lra].
Qed.

(** The same for a rational of either sign. *)
Lemma to_double_error (q : Q) (k : Z) :
  Qabs q < (2 # 1) ^ k ->
  Qabs (Py.to_double q - q) <= (2 # 1) ^ (k - 53).
Proof.
  intros Hk. unfold Py.to_double.
  destruct (Qcompare_spec q 0) as [H0 | Hneg | Hpos].
  - rewrite H0. change (0 - 0) with 0. change (Qabs 0) with 0.
    apply Qlt_le_weak, pow2_pos.
  - assert (Hq : 0 < - q) by lra.
    assert (Hk' : - q < (2 # 1) ^ k).
    { rewrite <- (Qabs_neg q) by lra. exact Hk. }
    pose proof (to_double_pos_error (- q) k Hq Hk') as H.
    assert (E : - Py.to_double_pos (- q) - q == - (Py.to_double_pos (- q) - - q)) by ring.
    rewrite E, Qabs_opp. exact H.
  - apply to_double_pos_error; [exact Hpos |].
    rewrite <- (Qabs_pos q) by lra. exact Hk.
Qed.

(** The float product of a ratio in (0, 1) and a size below [2^40] is
    within a thousandth of the exact product. *)
Lemma float_mul_error (r : Q) (n : Z) :
  0 < r -> r < 1 -> (0 <= n < 2 ^ 40)%Z ->
  Qabs (Py.float_mul r (inject_Z n) - r * inject_Z n) <= 1 # 1000.
Proof.
  intros Hr0 Hr1 Hn.
  assert (Hn0 : 0 <= inject_Z n).
  { rewrite <- (Zle_Qle 0). lia. }
  assert (Hn1 : inject_Z n < 1099511627776).
  { change 1099511627776 with (inject_Z (2 ^ 40)). rewrite <- Zlt_Qlt. lia. }
  assert (Ha : Qabs (Py.to_double r - r) <= (2 # 1) ^ (0 - 53)).
  { apply to_double_error. rewrite Qabs_pos by lra. exact Hr1. }
  assert (Hb : Qabs (Py.to_double (inject_Z n) - inject_Z n) <= (2 # 1) ^ (40 - 53)).
  { apply to_double_error. rewrite Qabs_pos by lra.
    change ((2 # 1) ^ 40) with 1099511627776. exact Hn1. }
  set (r' := Py.to_double r) in *. set (n' := Py.to_double (inject_Z n)) in *.
  apply Qabs_Qle_condition in Ha. apply Qabs_Qle_condition in Hb.
  change ((2 # 1) ^ (0 - 53)) with (1 # 9007199254740992) in Ha.
  change ((2 # 1) ^ (40 - 53)) with (1 # 8192) in Hb.
  destruct Ha as [Ha1 Ha2]. destruct Hb as [Hb1 Hb2].
  assert (Hp : Qabs (r' * n') < (2 # 1) ^ 41).
  { change ((2 # 1) ^ 41) with 2199023255552.
    apply Qabs_Qlt_condition. split; nra. }
  pose proof (to_double_error (r' * n') 41 Hp) as Hc.
  change ((2 # 1) ^ (41 - 53)) with (1 # 4096) in Hc.
  apply Qabs_Qle_condition in Hc. destruct Hc as [Hc1 Hc2].
  unfold Py.float_mul. fold r' n'.
  apply Qabs_Qle_condition. split; nra.
Qed.

(** The exponent found for a positive rational is a lower bound. *)
Lemma exponent_ge (q : Q) : 0 < q -> (2 # 1) ^ Py.exponent q <= q.
Proof.
  intros Hq. unfold Py.exponent.
  set (ln := Z.log2 (Qnum q)). set (ld := Z.log2 (Zpos (Qden q))).
  destruct (Qle_bool ((2 # 1) ^ (ln - ld)) q) eqn:Hb.
  - apply Qle_bool_iff. exact Hb.
  - assert (Hn : (0 < Qnum q)%Z).
    { destruct q as [n d]. unfold Qlt in Hq. cbn in Hq |- *. lia. }
    pose proof (Z.log2_spec (Qnum q) Hn) as [Hn1 _].
    pose proof (Z.log2_spec (Zpos (Qden q)) (Pos2Z.is_pos _)) as [_ Hd2].
    pose proof (Z.log2_nonneg (Qnum q)) as Hln.
    pose proof (Z.log2_nonneg (Zpos (Qden q))) as Hld.
    fold ln in Hn1, Hln. fold ld in Hd2, Hld.
    assert (Hn1q : (2 # 1) ^ ln <= inject_Z (Qnum q)).
    { rewrite <- pow2_inject by exact Hln. rewrite <- Zle_Qle. exact Hn1. }
    assert (Hd2q : inject_Z (Zpos (Qden q)) < (2 # 1) ^ (ld + 1)).
    { rewrite <- pow2_inject by lia. rewrite <- Zlt_Qlt.
      replace (ld + 1)%Z with (Z.succ ld) by lia. exact Hd2. }
    assert (Hd0 : 0 < inject_Z (Zpos (Qden q))).
    { rewrite <- (Zlt_Qlt 0). reflexivity. }
    assert (E : inject_Z (Qnum q) == q * inject_Z (Zpos (Qden q))).
    { destruct q as [n d]. cbn [Qnum Qden]. rewrite (Qmake_Qdiv n d). field.
      cbn [Qden] in Hd0. lra. }
    apply (Qmult_le_r _ _ (inject_Z (Zpos (Qden q)))); [exact Hd0 |].
    rewrite <- E.
    assert (Hs : (2 # 1) ^ (ln - ld - 1 + (ld + 1)) == (2 # 1) ^ ln).
    { replace (ln - ld - 1 + (ld + 1))%Z with ln by lia. reflexivity. }
    rewrite pow2_plus in Hs.
    pose proof (pow2_pos (ln - ld - 1)) as Hp.
    assert (Hlt : (2 # 1) ^ (ln - ld - 1) * inject_Z (Zpos (Qden q))
                  < (2 # 1) ^ (ln - ld - 1) * (2 # 1) ^ (ld + 1)).
    { apply Qmult_lt_l; assumption. }
    lra.
Qed.

Lemma round_half_even_ge_floor (x : Q) : (Qfloor x <= Py.round_half_even x)%Z.
Proof.
  unfold Py.round_half_even.
  destruct (x - inject_Z (Qfloor x) ?= 1 # 2); [destruct (Z.even _) | |]; lia.
Qed.

(** The double nearest to a positive rational is positive. *)
Lemma to_double_pos_pos (q : Q) : 0 < q -> 0 < Py.to_double_pos q.
Proof.
  intros Hq. pose proof (exponent_ge q Hq) as He.
  unfold Py.to_double_pos. rewrite Qred_correct.
  set (ulp := (2 # 1) ^ (Py.exponent q - 52)).
  pose proof (pow2_pos (Py.exponent q - 52)) as Hulp. fold ulp in Hulp.
  assert (Hs : (2 # 1) ^ (52 + (Py.exponent q - 52)) == (2 # 1) ^ Py.exponent q).
  { replace (52 + (Py.exponent q - 52))%Z with (Py.exponent q) by lia. reflexivity. }
  rewrite pow2_plus in Hs. fold ulp in Hs.
  change ((2 # 1) ^ 52) with 4503599627370496 in Hs.
  assert (Hx : 1 <= q / ulp).
  { apply (Qmult_le_r _ _ ulp); [exact Hulp |].
    assert (E : q / ulp * ulp == q) by (field; lra).
    rewrite E. nra. }
  assert (HM : (1 <= Py.round_half_even (q / ulp))%Z).
  { pose proof (round_half_even_ge_floor (q / ulp)) as Hf.
    pose proof (Qfloor_resp_le 1 (q / ulp) Hx) as Hf1.
    change (Qfloor 1) with 1%Z in Hf1. lia. }
  rewrite Zle_Qle in HM. change (inject_Z 1) with 1 in HM.
  nra.
Qed.

Lemma to_double_positive (q : Q) : 0 < q -> 0 < Py.to_double q.
Proof.
  intros Hq. unfold Py.to_double.
  destruct (Qcompare_spec q 0) as [H0 | Hneg | Hpos]; [lra | lra |].
  apply to_double_pos_pos. exact Hpos.
Qed.

Lemma float_mul_positive (a b : Q) : 0 < a -> 0 < b -> 0 < Py.float_mul a b.
Proof.
  intros Ha Hb. unfold Py.float_mul. apply to_double_positive.
  apply Qmult_lt_0_compat; apply to_double_positive; assumption.
Qed.

(** The ceiling of a number within a thousandth of [x] is within one of
    every integer nearest to [x]. *)
Lemma ceiling_near_round (x y : Q) (k : Z) :
  Qabs (inject_Z k - x) <= 1 # 2 -> Qabs (y - x) <= 1 # 1000 ->
  (Z.abs (Qceiling y - k) <= 1)%Z.
Proof.
  intros Hk Hy.
  apply Qabs_Qle_condition in Hk. destruct Hk as [Hlo Hhi].
  apply Qabs_Qle_condition in Hy. destruct Hy as [Hylo Hyhi].
  pose proof (Qle_ceiling y) as Hc1.
  pose proof (Qceiling_lt y) as Hc2.
  assert (H1 : (k < Qceiling y + 1)%Z).
  { rewrite Zlt_Qlt, inject_Z_plus. change (inject_Z 1) with 1%Q. lra. }
  assert (H2 : (Qceiling y - 1 - 1 < k)%Z).
  { rewrite Zlt_Qlt.
    replace (Qceiling y - 1 - 1)%Z with ((Qceiling y - 1) + (- (1)))%Z by lia.
    rewrite inject_Z_plus. change (inject_Z (- (1))) with (- (1))%Q. lra. }
  lia.
Qed.

End Rounding.

Section Split.

Variable RandomState : Type.
Variable seeded : Z -> RandomState.
Variable permutation : RandomState -> nat -> list nat.

(** What numpy documents of [permutation(n)]: a rearrangement of
    [range(n)]. *)
Hypothesis permutation_shuffles :
  forall rng n, Permutation (permutation rng n) (seq 0 n).

Variable A : Type.

(** C6 (amended): for a dataset of N examples (N below 2^40), a ratio r
    strictly between 0 and 1 that leaves the training part non-empty and a
    32-bit seed, the split returns two parts that hold every position of
    the dataset exactly once (so they are disjoint and their sizes sum to
    N), the size of the validation part, the ceiling of the float product
    of r and N, is within one of N * r rounded, and the result depends on
    the seed only, not on the state of the process-wide generator. *)
Theorem train_test_split_partitions :
  forall (global : RandomState) (X : list A) (r : Q) (seed : Z),
    (0 < r)%Q -> (r < 1)%Q ->
    0 <= seed < 2 ^ 32 ->
    Z.of_nat (length X) < 2 ^ 40 ->
    Qceiling (Py.float_mul r (inject_Z (Z.of_nat (length X))))
    < Z.of_nat (length X) ->
    exists ind_train ind_val,
      Sklearn.split_indices RandomState seeded permutation global (length X) r
        (Some seed) = Return (ind_train, ind_val)
      /\ Sklearn.train_test_split RandomState seeded permutation global X r
           (Some seed)
         = Return (Sklearn.safe_indexing X ind_train,
                   Sklearn.safe_indexing X ind_val)
      /\ Permutation (ind_train ++ ind_val) (seq 0 (length X))
      /\ (forall i, In i ind_train -> ~ In i ind_val)
      /\ Permutation (Sklearn.safe_indexing X ind_train
                      ++ Sklearn.safe_indexing X ind_val) X
      /\ (length (Sklearn.safe_indexing X ind_train)
          + length (Sklearn.safe_indexing X ind_val) = length X)%nat
      /\ Z.of_nat (length (Sklearn.safe_indexing X ind_val))
         = Qceiling (Py.float_mul r (inject_Z (Z.of_nat (length X))))
      /\ (forall k : Z,
            (Qabs (inject_Z k - r * inject_Z (Z.of_nat (length X))) <= 1 # 2)%Q ->
            Z.abs (Z.of_nat (length (Sklearn.safe_indexing X ind_val)) - k) <= 1)
      /\ (forall global',
            Sklearn.train_test_split RandomState seeded permutation global' X r
              (Some seed)
            = Sklearn.train_test_split RandomState seeded permutation global X r
                (Some seed)).
Proof.
  intros global X r seed Hr0 Hr1 Hseed Hsize Htrain.
  set (N := Z.of_nat (length X)) in *.
  set (c := Qceiling (Py.float_mul r (inject_Z N))) in *.
  assert (HN : 0 <= N) by (unfold N; lia).
  assert (Herr : (Qabs (Py.float_mul r (inject_Z N) - r * inject_Z N)
                  <= 1 # 1000)%Q).
  { apply float_mul_error; [ exact Hr0 | exact Hr1 | lia ]. }
  assert (Hc_pos : 0 < c).
  { assert (HNpos : 0 < N).
    { destruct (Z.eq_dec N 0) as [H0 | ]; [ | lia ].
      exfalso.
      assert (Hc0 : 0 <= c).
      { apply Qabs_Qle_condition in Herr. destruct Herr as [Hlo _].
        rewrite H0 in Hlo. change (inject_Z 0) with 0%Q in Hlo.
        pose proof (Qle_ceiling (Py.float_mul r (inject_Z 0))) as Hle.
        unfold c. rewrite H0.
        assert (Hm : - (1) < Qceiling (Py.float_mul r (inject_Z 0))).
        { rewrite Zlt_Qlt. change (inject_Z (- (1))) with (- (1))%Q.
          change (inject_Z 0) with 0%Q in Hle |- *. lra. }
        lia. }
      lia. }
    pose proof (Qle_ceiling (Py.float_mul r (inject_Z N))) as Hle. fold c in Hle.
    assert (Hx : (0 < Py.float_mul r (inject_Z N))%Q).
    { apply float_mul_positive; [ exact Hr0 | ].
      rewrite Zlt_Qlt in HNpos. exact HNpos. }
    rewrite Zlt_Qlt. change (inject_Z 0) with 0%Q. lra. }
  (* the size validation passes *)
  assert (Hvalid :
    Sklearn.validate_shuffle_split N r = Return (N - c, c)).
  { unfold Sklearn.validate_shuffle_split.
    assert (Hb0 : Qle_bool r 0 = false).
    { destruct (Qle_bool r 0) eqn:Hb; [ | reflexivity ].
      apply Qle_bool_iff in Hb. lra. }
    assert (Hb1 : Qle_bool 1 r = false).
    { destruct (Qle_bool 1 r) eqn:Hb; [ | reflexivity ].
      apply Qle_bool_iff in Hb. lra. }
    rewrite Hb0, Hb1. cbn [orb]. fold c.
    destruct (Z.ltb_spec N (N - c + c)) as [Hc | _]; [ lia | ].
    destruct (Z.eqb_spec (N - c) 0) as [Hc | _]; [ lia | ].
    reflexivity. }
  assert (Hrng : forall g,
    Sklearn.check_random_state RandomState seeded g (Some seed)
    = Return (seeded seed)).
  { intros g. unfold Sklearn.check_random_state.
    destruct (Z.ltb_spec seed 0) as [Hc | _]; [ lia | ].
    destruct (Z.leb_spec (2 ^ 32) seed) as [Hc | _]; [ lia | ].
    reflexivity. }
  set (p := permutation (seeded seed) (length X)).
  assert (Hp : Permutation p (seq 0 (length X))) by apply permutation_shuffles.
  assert (Hplen : length p = length X).
  { rewrite (Permutation_length Hp). apply length_seq. }
  set (ind_val := firstn (Z.to_nat c) p).
  set (ind_train := firstn (Z.to_nat (N - c)) (skipn (Z.to_nat c) p)).
  assert (Htrain_all : ind_train = skipn (Z.to_nat c) p).
  { unfold ind_train.
    replace (Z.to_nat (N - c)) with (length (skipn (Z.to_nat c) p)).
    - apply firstn_all.
    - rewrite length_skipn, Hplen. unfold N. lia. }
  assert (Hsplit : forall g,
    Sklearn.split_indices RandomState seeded permutation g (length X) r (Some seed)
    = Return (ind_train, ind_val)).
  { intros g. unfold Sklearn.split_indices. fold N. rewrite Hvalid.
    cbn [Py.bind fst snd]. unfold Sklearn.shuffle_split.
    destruct (Z.leb_spec N c) as [Hc | _]; [ lia | ].
    destruct (Z.leb_spec c 0) as [Hc | _]; [ lia | ].
    destruct (Z.leb_spec N (N - c)) as [Hc | _]; [ lia | ].
    destruct (Z.leb_spec (N - c) 0) as [Hc | _]; [ lia | ].
    cbn [orb]. rewrite Hrng. cbn [Py.bind].
    unfold N. rewrite Nat2Z.id. reflexivity. }
  assert (Hperm : Permutation (ind_train ++ ind_val) (seq 0 (length X))).
  { rewrite Htrain_all. unfold ind_val.
    rewrite Permutation_app_comm, firstn_skipn. exact Hp. }
  assert (Hin : forall i, In i (ind_train ++ ind_val) -> (i < length X)%nat).
  { intros i Hi. apply (Permutation_in _ Hperm) in Hi.
    apply in_seq in Hi. lia. }
  assert (Hlen_val : length (Sklearn.safe_indexing X ind_val) = Z.to_nat c).
  { rewrite safe_indexing_length.
    - unfold ind_val. rewrite length_firstn, Hplen. unfold N in Htrain. lia.
    - intros i Hi. apply Hin. apply in_or_app. right. exact Hi. }
  exists ind_train, ind_val.
  split; [ apply Hsplit | ].
  split.
  { unfold Sklearn.train_test_split. rewrite Hsplit. reflexivity. }
  split; [ exact Hperm | ].
  split.
  { apply NoDup_app_disjoint.
    apply (Permutation_NoDup (Permutation_sym Hperm)). apply seq_NoDup. }
  split.
  { rewrite <- safe_indexing_app. apply safe_indexing_permutation. exact Hperm. }
  split.
  { rewrite <- length_app, <- safe_indexing_app.
    rewrite safe_indexing_length by exact Hin.
    rewrite (Permutation_length Hperm). apply length_seq. }
  split.
  { rewrite Hlen_val. lia. }
  split.
  { intros k Hk. rewrite Hlen_val. rewrite Z2Nat.id by lia.
    apply (ceiling_near_round (r * inject_Z N)); [ exact Hk | exact Herr ]. }
  intros global'. unfold Sklearn.train_test_split.
  rewrite (Hsplit global'), (Hsplit global). reflexivity.
Qed.

End Split.

Lemma sample_permutation_shuffles :
  forall rng n, Permutation (Sample.permutation rng n) (seq 0 n).
Proof.
  intros rng n. unfold Sample.permutation.
  rewrite Permutation_app_comm, firstn_skipn. reflexivity.
Qed.

(** The default split of 100 examples: 80 for training, 20 for
    validation. *)
Lemma train_test_split_sample_sizes :
  match Sample.train_test_split Sample.global_rng
          (Sample.build_RE_train_dataset (Sample.args "focal" "cosine"))
          (1 # 5) (Some 42) with
  | Return (X_train, X_val) => (length X_train, length X_val) = (80%nat, 20%nat)
  | Raise _ => False
  end.
Proof. vm_compute. reflexivity. Qed.

Lemma train_test_split_partitions_witness :
  exists ind_train ind_val,
    Sklearn.split_indices Sample.RandomState Sample.seeded Sample.permutation
      Sample.global_rng
      (length (Sample.build_RE_train_dataset (Sample.args "focal" "cosine")))
      (1 # 5) (Some 42) = Return (ind_train, ind_val)
    /\ Sklearn.train_test_split Sample.RandomState Sample.seeded Sample.permutation
         Sample.global_rng
         (Sample.build_RE_train_dataset (Sample.args "focal" "cosine"))
         (1 # 5) (Some 42)
       = Return (Sklearn.safe_indexing
                   (Sample.build_RE_train_dataset (Sample.args "focal" "cosine"))
                   ind_train,
                 Sklearn.safe_indexing
                   (Sample.build_RE_train_dataset (Sample.args "focal" "cosine"))
                   ind_val)
    /\ Permutation (ind_train ++ ind_val)
         (seq 0 (length (Sample.build_RE_train_dataset (Sample.args "focal" "cosine"))))
    /\ (forall i, In i ind_train -> ~ In i ind_val)
    /\ Permutation
         (Sklearn.safe_indexing
            (Sample.build_RE_train_dataset (Sample.args "focal" "cosine")) ind_train
          ++ Sklearn.safe_indexing
               (Sample.build_RE_train_dataset (Sample.args "focal" "cosine")) ind_val)
         (Sample.build_RE_train_dataset (Sample.args "focal" "cosine"))
    /\ (length (Sklearn.safe_indexing
                  (Sample.build_RE_train_dataset (Sample.args "focal" "cosine"))
                  ind_train)
        + length (Sklearn.safe_indexing
                    (Sample.build_RE_train_dataset (Sample.args "focal" "cosine"))
                    ind_val)
        = length (Sample.build_RE_train_dataset (Sample.args "focal" "cosine")))%nat
    /\ Z.of_nat (length (Sklearn.safe_indexing
                           (Sample.build_RE_train_dataset (Sample.args "focal" "cosine"))
                           ind_val))
       = Qceiling (Py.float_mul (1 # 5) (inject_Z (Z.of_nat (length
                     (Sample.build_RE_train_dataset (Sample.args "focal" "cosine"))))))
    /\ (forall k : Z,
          (Qabs (inject_Z k - (1 # 5) * inject_Z (Z.of_nat (length
                   (Sample.build_RE_train_dataset (Sample.args "focal" "cosine")))))
           <= 1 # 2)%Q ->
          Z.abs (Z.of_nat (length (Sklearn.safe_indexing
                                     (Sample.build_RE_train_dataset
                                        (Sample.args "focal" "cosine")) ind_val))
                 - k) <= 1)
    /\ (forall global',
          Sklearn.train_test_split Sample.RandomState Sample.seeded
            Sample.permutation global'
            (Sample.build_RE_train_dataset (Sample.args "focal" "cosine"))
            (1 # 5) (Some 42)
          = Sklearn.train_test_split Sample.RandomState Sample.seeded
              Sample.permutation Sample.global_rng
              (Sample.build_RE_train_dataset (Sample.args "focal" "cosine"))
              (1 # 5) (Some 42)).
Proof.
  apply (train_test_split_partitions Sample.RandomState Sample.seeded
           Sample.permutation sample_permutation_shuffles nat Sample.global_rng
           (Sample.build_RE_train_dataset (Sample.args "focal" "cosine"))
           (1 # 5) 42).
  - reflexivity.
  - reflexivity.
  - split; [ discriminate | reflexivity ].
  - vm_compute. reflexivity.
  - vm_compute. reflexivity.
Defined.

(** C6, as stated, fails where scikit-learn refuses the sizes: a ratio of
    1.0 is outside (0, 1), and half of a single example leaves no training
    part; no subsets are produced. *)
Lemma train_test_split_counterexample :
  Sample.train_test_split Sample.global_rng [10; 11; 12; 13]%nat 1 (Some 42)
  = Raise (ValueError "test_size should be a float in the (0, 1) range")
  /\ Sample.train_test_split Sample.global_rng [10]%nat (1 # 2) (Some 42)
     = Raise (ValueError "the resulting train set will be empty")
  /\ ~ (exists X_train X_val,
          Sample.train_test_split Sample.global_rng [10; 11; 12; 13]%nat 1 (Some 42)
          = Return (X_train, X_val)
          /\ (length X_train + length X_val = 4)%nat).
Proof.
  split; [ reflexivity | ].
  split; [ reflexivity | ].
  intros [X_train [X_val [H _]]]. vm_compute in H. discriminate H.
Qed.

(** ** Early stopping *)

Lemma float_lt_true (a b : Q) : Py.float_lt a b = true <-> (a < b)%Q.
Proof.
  unfold Py.float_lt. rewrite negb_true_iff. split.
  - intros H. apply Qnot_le_lt. intros Hle.
    apply Qle_bool_iff in Hle. congruence.
  - intros H. destruct (Qle_bool b a) eqn:Hb; [ | reflexivity ].
    apply Qle_bool_iff in Hb. exfalso. apply (Qlt_not_le _ _ H). exact Hb.
Qed.

Lemma float_lt_false (a b : Q) : Py.float_lt a b = false <-> (b <= a)%Q.
Proof.
  unfold Py.float_lt. rewrite negb_false_iff. apply Qle_bool_iff.
Qed.

Section Order.

Variable args : TrainingArguments.t.

(** A value that is better than another differs from it by more than the
    zero threshold. *)
Lemma operator_apart (v b : Q) :
  Trainer.operator args v b = true ->
  Py.float_lt 0 (Qabs (v - b)) = true.
Proof.
  unfold Trainer.operator. intros H. apply float_lt_true.
  destruct (TrainingArguments.greater_is_better args);
    apply float_lt_true in H.
  - rewrite Qabs_pos by lra. lra.
  - rewrite Qabs_neg by lra. lra.
Qed.

Lemma operator_irrefl (v : Q) : Trainer.operator args v v = false.
Proof.
  unfold Trainer.operator.
  destruct (TrainingArguments.greater_is_better args);
    apply float_lt_false; lra.
Qed.

(** What does not beat the old best does not beat a better one. *)
Lemma operator_not_better_trans (u b v : Q) :
  Trainer.operator args u b = false ->
  Trainer.operator args v b = true ->
  Trainer.operator args u v = false.
Proof.
  unfold Trainer.operator.
  destruct (TrainingArguments.greater_is_better args); intros Hu Hv;
    apply float_lt_false in Hu; apply float_lt_true in Hv;
    apply float_lt_false; lra.
Qed.

End Order.

Lemma firstn_succ_nth_error {A : Type} (l : list A) (k : nat) (x : A) :
  nth_error l k = Some x -> firstn (S k) l = firstn k l ++ [x].
Proof.
  revert k. induction l as [| a l IH]; intros [| k] H; try discriminate H.
  - cbn in H. injection H as ->. reflexivity.
  - cbn in H. rewrite (firstn_cons (S k)), (firstn_cons k), (IH k H).
    reflexivity.
Qed.

Section EarlyStopping.

Variable args : TrainingArguments.t.
Variable vs : list Q.

Lemma best_of_next (k : nat) (v : Q) :
  nth_error vs k = Some v ->
  best_of args (firstn (S k) vs)
  = match best_of args (firstn k vs) with
    | None => Some v
    | Some b => if Trainer.operator args v b then Some v else Some b
    end.
Proof.
  intros H. unfold best_of. rewrite (firstn_succ_nth_error _ _ _ H).
  rewrite fold_left_app. reflexivity.
Qed.

Lemma fails_to_improve_at (k : nat) (v : Q) :
  nth_error vs k = Some v ->
  fails_to_improve args vs k
  = match best_of args (firstn k vs) with
    | None => false
    | Some b => negb (Trainer.operator args v b)
    end.
Proof.
  intros H. unfold fails_to_improve. rewrite H.
  destruct (best_of args (firstn k vs)); reflexivity.
Qed.

(** The state before the first round. *)
Lemma tracks_initial :
  tracks args vs 0 0
    {| Trainer.state := {| Trainer.best_metric := None;
                           Trainer.best_model_checkpoint := None |};
       Trainer.callbacks := [Trainer.EarlyStoppingCallback_init 2];
       Trainer.should_training_stop := false;
       Trainer.rounds_done := 0 |}.
Proof.
  constructor; cbn; intros;
    try reflexivity; try lia; try (split; reflexivity).
Qed.

End EarlyStopping.

Lemma skipn_head_tail {A : Type} (l : list A) (k : nat) (x : A) (rest : list A) :
  skipn k l = x :: rest -> nth_error l k = Some x /\ skipn (S k) l = rest.
Proof.
  revert l. induction k as [| k IH]; intros [| a l] H; try discriminate H.
  - cbn in H. injection H as -> ->. split; reflexivity.
  - cbn [skipn] in H. destruct (IH l H) as [Hn Hs]. split; assumption.
Qed.

(** With [save_steps] positive and equal to [eval_steps], every evaluation
    step is a saving step. *)
Lemma should_save_every_round (args : TrainingArguments.t) :
  0 < TrainingArguments.save_steps args ->
  TrainingArguments.save_steps args = TrainingArguments.eval_steps args ->
  forall k, Trainer.should_save args (Trainer.global_step args k) = true.
Proof.
  intros Hpos Heq k. unfold Trainer.should_save, Trainer.global_step.
  rewrite <- Heq.
  destruct (Z.ltb_spec 0 (TrainingArguments.save_steps args)) as [_ | Hc];
    [ | lia ].
  rewrite Z.mod_mul by lia. reflexivity.
Qed.

(** With [save_steps] at 0 no step is a saving step. *)
Lemma should_save_never (args : TrainingArguments.t) :
  TrainingArguments.save_steps args = 0 ->
  forall step, Trainer.should_save args step = false.
Proof.
  intros H0 step. unfold Trainer.should_save. rewrite H0. reflexivity.
Qed.

Section EarlyStoppingLoop.

Variable args : TrainingArguments.t.
Variable vs : list Q.

(** Every round saves a checkpoint. *)
Hypothesis saves :
  forall k, Trainer.should_save args (Trainer.global_step args k) = true.

(** One evaluation round from a state that has not stopped keeps the
    invariant: an improving round resets the counter and takes the
    checkpoint, another round counts as a failure. *)
Lemma evaluation_round_tracks (k : nat) (c : Z) (l : Trainer.loop)
      (m : Trainer.metrics) (v : Q) :
  tracks args vs k c l ->
  c < 2 ->
  nth_error vs k = Some v ->
  Trainer.metrics_get m (Trainer.metric_to_check args) = Some v ->
  exists l' c',
    Trainer.evaluation_round args l m = Return l'
    /\ tracks args vs (S k) c' l'.
Proof.
  intros [Hrounds Hbound Hcbs Hstop Hc Hbest Hstart Hckpt Hfailed Hall Hnd]
         Hc2 Hnth Hget.
  assert (Hlen : (S k <= length vs)%nat).
  { apply Nat.le_succ_l. apply nth_error_Some. congruence. }
  assert (Hstop0 : Trainer.should_training_stop l = false).
  { rewrite Hstop. apply Z.leb_gt. exact Hc2. }
  assert (Hpair : forall j, (j + 2 = k)%nat ->
            fails_to_improve args vs j = false
            \/ fails_to_improve args vs (S j) = false).
  { intros j Hj. destruct (Hckpt ltac:(lia)) as [b [vb [_ [Hb [_ [_ Hok]]]]]].
    destruct (Z.eq_dec c 0) as [-> | Hne].
    - right. replace (S j) with b by lia. exact Hok.
    - left. replace j with b by lia. exact Hok. }
  unfold Trainer.evaluation_round. rewrite Hcbs, saves.
  cbn [Trainer.handler_on_evaluate]. unfold Trainer.on_evaluate.
  rewrite Hget. unfold Trainer.save_checkpoint. rewrite Hget.
  unfold Trainer.check_metric_value.
  cbn [Trainer.early_stopping_patience Trainer.early_stopping_threshold
       Trainer.early_stopping_patience_counter].
  destruct k as [| k'].
  - (* the first round *)
    destruct (Hstart eq_refl) as [Hnone ->].
    assert (Hbm : Trainer.best_metric (Trainer.state l) = None).
    { rewrite Hbest. reflexivity. }
    rewrite Hbm. cbn -[Z.leb].
    eexists. exists 0. split; [ reflexivity | ].
    constructor;
        cbn -[best_of fails_to_improve Z.leb firstn nth_error Z.of_nat Nat.sub];
        intros;
      try reflexivity; try lia.
    + exact Hstop0.
    + rewrite (best_of_next args vs 0 v Hnth). reflexivity.
    + exists 0%nat, v. rewrite Hrounds.
      repeat split; try reflexivity; try assumption.
      rewrite (fails_to_improve_at args vs 0 v Hnth). reflexivity.
    + assert (j = 0%nat) by lia. subst j.
      assert (v0 = v) by congruence. subst v0.
      assert (vb = v) by congruence. subst vb.
      apply operator_irrefl.
  - (* a later round: the state holds a best value *)
    destruct (Hckpt ltac:(lia)) as [b [vb [Hb [Hbk [Hbnth [Hbm Hbok]]]]]].
    rewrite Hbm, Hb.
    assert (Hbest' : best_of args (firstn (S k') vs) = Some vb) by congruence.
    destruct (Trainer.operator args v vb) eqn:Hop.
    + (* an improvement *)
      rewrite (operator_apart args v vb Hop). cbn -[Z.leb].
      eexists. exists 0. split; [ reflexivity | ].
      constructor;
        cbn -[best_of fails_to_improve Z.leb firstn nth_error Z.of_nat Nat.sub];
        intros;
        try reflexivity; try lia.
      * exact Hstop0.
      * rewrite (best_of_next args vs (S k') v Hnth), Hbest', Hop. reflexivity.
      * exists (S k'), v. rewrite Hrounds.
        repeat split; try reflexivity; try assumption; try lia.
        rewrite (fails_to_improve_at args vs (S k') v Hnth), Hbest', Hop.
        reflexivity.
      * assert (vb0 = v) by congruence. subst vb0.
        destruct (Nat.eq_dec j (S k')) as [-> | Hne].
        -- assert (v0 = v) by congruence. subst v0. apply operator_irrefl.
        -- apply (operator_not_better_trans args v0 vb v); [ | exact Hop ].
           apply (Hall j v0 vb); [ lia | assumption | exact Hbm ].
      * destruct (Nat.eq_dec (j + 2) (S k')) as [Heq | Hne].
        -- apply Hpair. exact Heq.
        -- apply Hnd. lia.
    + (* a failure *)
      cbn -[Z.leb].
      match goal with
      | |- context [if 2 <=? c + 1 then (?cb, true) else (?cb, ?s)] =>
          replace (if 2 <=? c + 1 then (cb, true) else (cb, s))
            with (cb, 2 <=? c + 1)
            by (destruct (2 <=? c + 1);
                [ reflexivity | rewrite Hstop0; reflexivity ])
      end.
      cbn -[Z.leb].
      eexists. exists (c + 1). split; [ reflexivity | ].
      constructor;
        cbn -[best_of fails_to_improve Z.leb firstn nth_error Z.of_nat Nat.sub];
        intros;
        try reflexivity; try lia.
      * rewrite (best_of_next args vs (S k') v Hnth), Hbest', Hop. exact Hbm.
      * exists b, vb. repeat split; try assumption; lia.
      * destruct t as [| t'].
        -- replace (S (S k') - 1 - 0)%nat with (S k') by lia.
           rewrite (fails_to_improve_at args vs (S k') v Hnth), Hbest', Hop.
           reflexivity.
        -- replace (S (S k') - 1 - S t')%nat with (S k' - 1 - t')%nat by lia.
           apply Hfailed. lia.
      * assert (vb0 = vb) by congruence. subst vb0.
        destruct (Nat.eq_dec j (S k')) as [-> | Hne].
        -- assert (v0 = v) by congruence. subst v0. exact Hop.
        -- apply (Hall j v0 vb); [ lia | assumption | exact Hbm ].
      * destruct (Nat.eq_dec (j + 2) (S k')) as [Heq | Hne].
        -- apply Hpair. exact Heq.
        -- apply Hnd. lia.
Qed.

End EarlyStoppingLoop.

Section EarlyStoppingRun.

Variable args : TrainingArguments.t.
Variable vs : list Q.

Hypothesis saves :
  forall k, Trainer.should_save args (Trainer.global_step args k) = true.

(** The loop from a state that has not stopped: it ends normally, either
    after the last round or with the counter at the patience of 2. *)
Lemma training_loop_tracks (rounds : list Trainer.metrics) :
  forall (k : nat) (c : Z) (l : Trainer.loop),
    tracks args vs k c l ->
    c < 2 ->
    map (fun m => Trainer.metrics_get m (Trainer.metric_to_check args)) rounds
    = map Some (skipn k vs) ->
    exists l' c',
      Trainer.training_loop args l rounds = Return l'
      /\ tracks args vs (Trainer.rounds_done l') c' l'
      /\ ((c' < 2 /\ Trainer.rounds_done l' = length vs) \/ c' = 2).
Proof.
  induction rounds as [| m rounds IH]; intros k c l Htr Hc Hrep.
  - exists l, c. split; [ reflexivity | ].
    assert (Hk : Trainer.rounds_done l = k) by apply Htr.
    rewrite Hk. split; [ exact Htr | ]. left. split; [ exact Hc | ].
    cbn in Hrep. symmetry in Hrep. apply map_eq_nil in Hrep.
    pose proof (length_skipn k vs) as Hlen. rewrite Hrep in Hlen. cbn in Hlen.
    pose proof (tracks_bound _ _ _ _ _ Htr). lia.
  - cbn [map] in Hrep.
    destruct (skipn k vs) as [| v rest] eqn:Hskip; [ discriminate Hrep | ].
    cbn [map] in Hrep. injection Hrep as Hget Hrest.
    destruct (skipn_head_tail vs k v rest Hskip) as [Hnth Hskip'].
    destruct (evaluation_round_tracks args vs saves k c l m v Htr Hc Hnth Hget)
      as [l1 [c1 [Hround Htr1]]].
    cbn [Trainer.training_loop]. rewrite Hround. cbn [Py.bind].
    assert (Hk1 : Trainer.rounds_done l1 = S k) by apply Htr1.
    rewrite (tracks_stop _ _ _ _ _ Htr1).
    pose proof (tracks_counter _ _ _ _ _ Htr1) as Hc1.
    destruct (Z.leb_spec 2 c1) as [Hge | Hlt].
    + exists l1, c1. split; [ reflexivity | ].
      rewrite Hk1. split; [ exact Htr1 | ]. right. lia.
    + apply (IH (S k) c1 l1 Htr1 Hlt). rewrite Hskip'. exact Hrest.
Qed.

End EarlyStoppingRun.

(** *** The loop's tests and the words of the specification *)

Section Vocabulary.

Variable targs : TrainingArguments.t.
Variable metric : string.
Hypothesis chosen : TrainingArguments.metric_for_best_model targs = metric.

(** [Trainer.operator] decides [better]. *)
Lemma operator_better (v b : Q) :
  Trainer.operator targs v b = true <-> better metric v b.
Proof.
  unfold Trainer.operator, TrainingArguments.greater_is_better, better,
    Py.str_eq.
  rewrite chosen.
  destruct ((metric =? "loss") || (metric =? "eval_loss"))%string;
    cbn [negb]; apply float_lt_true.
Qed.

Lemma operator_not_better (v b : Q) :
  Trainer.operator targs v b = false <-> ~ better metric v b.
Proof.
  rewrite <- operator_better.
  destruct (Trainer.operator targs v b); split; intros H.
  - discriminate H.
  - exfalso. apply H. reflexivity.
  - discriminate.
  - reflexivity.
Qed.

(** Two values neither of which is better than the other are beaten by
    the same values. *)
Lemma better_than_equal (v b b' : Q) :
  ~ better metric b b' -> ~ better metric v b -> ~ better metric v b'.
Proof.
  unfold better.
  destruct ((metric =? "loss") || (metric =? "eval_loss"))%string;
    intros H1 H2 H3; apply Qnot_lt_le in H1; apply Qnot_lt_le in H2; lra.
Qed.

Lemma metric_to_check_eval_key : Trainer.metric_to_check targs = eval_key metric.
Proof. unfold Trainer.metric_to_check, eval_key. rewrite chosen. reflexivity. Qed.

Lemma best_of_snoc (l : list Q) (x : Q) :
  best_of targs (l ++ [x])
  = match best_of targs l with
    | None => Some x
    | Some b => if Trainer.operator targs x b then Some x else Some b
    end.
Proof. unfold best_of. rewrite fold_left_app. reflexivity. Qed.

Lemma best_of_none (l : list Q) : best_of targs l = None -> l = [].
Proof.
  destruct l as [| a l] using rev_ind; [ reflexivity | ].
  rewrite best_of_snoc.
  destruct (best_of targs l) as [b |]; [ | discriminate ].
  destruct (Trainer.operator targs a b); discriminate.
Qed.

(** The best value the loop computes occurs in the list and no value of
    the list is preferred to it. *)
Lemma best_of_is_best (l : list Q) (b : Q) :
  best_of targs l = Some b ->
  (exists j, nth_error l j = Some b)
  /\ forall j v, nth_error l j = Some v -> Trainer.operator targs v b = false.
Proof.
  revert b. induction l as [| x l IH] using rev_ind; intros b Hb.
  - discriminate Hb.
  - rewrite best_of_snoc in Hb.
    assert (Hlast : forall j v, nth_error (l ++ [x]) j = Some v ->
              (j < length l)%nat /\ nth_error l j = Some v
              \/ v = x).
    { intros j v Hv. destruct (Nat.lt_ge_cases j (length l)) as [Hlt | Hge].
      - left. rewrite nth_error_app1 in Hv by exact Hlt. split; assumption.
      - right. rewrite nth_error_app2 in Hv by exact Hge.
        destruct (j - length l)%nat as [| n]; cbn in Hv.
        + congruence.
        + destruct n; discriminate Hv. }
    assert (Hx : nth_error (l ++ [x]) (length l) = Some x).
    { rewrite nth_error_app2 by lia. rewrite Nat.sub_diag. reflexivity. }
    destruct (best_of targs l) as [b0 |] eqn:Hb0.
    + destruct (IH b0 eq_refl) as [[j0 Hj0] Hall0].
      destruct (Trainer.operator targs x b0) eqn:Hop; injection Hb as <-.
      * split; [ exists (length l); exact Hx | ].
        intros j v Hv. destruct (Hlast j v Hv) as [[_ Hv'] | ->].
        -- apply (operator_not_better_trans targs v b0 x);
             [ apply (Hall0 j v Hv') | exact Hop ].
        -- apply operator_irrefl.
      * split.
        -- exists j0. rewrite nth_error_app1; [ exact Hj0 | ].
           apply nth_error_Some. congruence.
        -- intros j v Hv. destruct (Hlast j v Hv) as [[_ Hv'] | ->].
           ++ apply (Hall0 j v Hv').
           ++ exact Hop.
    + injection Hb as <-. apply best_of_none in Hb0. subst l.
      split; [ exists 0%nat; reflexivity | ].
      intros j v Hv. destruct (Hlast j v Hv) as [[Hlt _] | ->].
      * cbn in Hlt. lia.
      * apply operator_irrefl.
Qed.

Variable vs : list Q.

Lemma nth_error_firstn_Some (k j : nat) (v : Q) :
  nth_error (firstn k vs) j = Some v <-> (j < k)%nat /\ nth_error vs j = Some v.
Proof.
  rewrite nth_error_firstn.
  destruct (Nat.ltb_spec j k) as [Hlt | Hge]; split.
  - intros H. split; assumption.
  - intros [_ H]. exact H.
  - discriminate.
  - intros [Hlt _]. lia.
Qed.

(** The best value the loop holds after [k] rounds is a best value of the
    first [k] rounds. *)
Lemma best_of_best_among (k : nat) (b : Q) :
  best_of targs (firstn k vs) = Some b -> best_among metric vs k b.
Proof.
  intros Hb. destruct (best_of_is_best _ _ Hb) as [[j Hj] Hall].
  split.
  - exists j. apply nth_error_firstn_Some. exact Hj.
  - intros j' v Hlt Hv. apply operator_not_better.
    apply (Hall j'). apply nth_error_firstn_Some. split; assumption.
Qed.

(** The loop's test on a round fails exactly when the round fails to
    improve. *)
Lemma fails_to_improve_iff (i : nat) :
  fails_to_improve targs vs i = true <-> no_improvement metric vs i.
Proof.
  unfold fails_to_improve, no_improvement. split.
  - destruct (nth_error vs i) as [v |] eqn:Hv; [ | discriminate ].
    destruct (best_of targs (firstn i vs)) as [b |] eqn:Hb; [ | discriminate ].
    intros Hop. apply negb_true_iff in Hop.
    exists v, b. split; [ reflexivity | ].
    split; [ apply best_of_best_among; exact Hb | ].
    apply operator_not_better. exact Hop.
  - intros [v [b [Hv [[[j [Hj Hjb]] Hbest] Hnb]]]].
    rewrite Hv.
    destruct (best_of targs (firstn i vs)) as [b' |] eqn:Hb'.
    + apply negb_true_iff. apply operator_not_better.
      destruct (best_of_best_among i b' Hb') as [_ Hbest'].
      apply (better_than_equal v b b'); [ | exact Hnb ].
      apply (Hbest' j b Hj Hjb).
    + exfalso. apply best_of_none in Hb'.
      assert (H : nth_error (firstn i vs) j = Some b).
      { apply nth_error_firstn_Some. split; assumption. }
      rewrite Hb' in H. destruct j; discriminate H.
Qed.

End Vocabulary.

(** C9 (amended): with the callback and the arguments [train] configures
    for a dataset of at least two batches, a run whose rounds report the
    chosen metric returns normally; it does not go past two consecutive
    rounds that fail to improve on the best value so far, and it ends early
    for that reason only; the checkpoint loaded at the end is one of the
    last three saved (within [save_total_limit]), and no evaluated round
    reported a better value of the metric than the round that saved it. *)
Theorem early_stopping_after_two_failures :
  forall SAVE_DIR LOG_DIR (args : Namespace.t) n targs (self : CustomTrainer.t)
         (rounds : list Trainer.metrics) (vs : list Q),
    training_arguments SAVE_DIR LOG_DIR args n = Return targs ->
    custom_trainer args targs n = Return self ->
    0 < Namespace.batch args ->
    2 * Namespace.batch args <= n ->
    reports (Namespace.metric_for_best_model args) rounds vs ->
    exists out,
      Trainer.train targs (CustomTrainer.callbacks self) rounds = Return out
      /\ (forall i,
            no_improvement (Namespace.metric_for_best_model args) vs i ->
            no_improvement (Namespace.metric_for_best_model args) vs (S i) ->
            (Trainer.evaluations out <= i + 2)%nat)
      /\ (Trainer.evaluations out = length rounds
          \/ exists i,
               Trainer.evaluations out = (i + 2)%nat
               /\ no_improvement (Namespace.metric_for_best_model args) vs i
               /\ no_improvement (Namespace.metric_for_best_model args) vs (S i))
      /\ (rounds <> [] ->
          exists b vb,
            Trainer.loaded_checkpoint out = Some b
            /\ (b < Trainer.evaluations out <= b + 3)%nat
            /\ Z.of_nat (Trainer.evaluations out) - Z.of_nat b
               <= TrainingArguments.save_total_limit targs
            /\ nth_error vs b = Some vb
            /\ forall j v,
                 (j < Trainer.evaluations out)%nat ->
                 nth_error vs j = Some v ->
                 ~ better (Namespace.metric_for_best_model args) v vb).
Proof.
  intros SAVE LOG args n targs self rounds vs Htargs Hself Hbatch Hn Hrep.
  set (metric := Namespace.metric_for_best_model args) in *.
  destruct (training_arguments_returns _ _ _ _ _ Htargs) as (_ & Hfields & Hsteps).
  assert (Hq : 0 < n / Namespace.batch args / 2).
  { rewrite Z.div_div by lia. apply Z.div_str_pos. lia. }
  assert (Hchosen : TrainingArguments.metric_for_best_model targs = metric).
  { rewrite Hfields. reflexivity. }
  assert (Hload : TrainingArguments.load_best_model_at_end targs = true).
  { rewrite Hfields. reflexivity. }
  assert (Hlimit : TrainingArguments.save_total_limit targs = 5).
  { rewrite Hfields. reflexivity. }
  assert (Hsave : TrainingArguments.save_steps targs = n / Namespace.batch args / 2).
  { rewrite Hfields. reflexivity. }
  assert (Hsaves : forall k,
            Trainer.should_save targs (Trainer.global_step targs k) = true).
  { apply should_save_every_round; [ lia | ].
    destruct Hsteps as [(H0 & _) | (_ & He)]; [ lia | congruence ]. }
  assert (Hcbs : CustomTrainer.callbacks self = [Trainer.EarlyStoppingCallback_init 2]).
  { unfold custom_trainer in Hself.
    destruct (Py.floordiv _ _) as [q | e]; cbn in Hself; [ | discriminate ].
    injection Hself as <-. reflexivity. }
  assert (Hlen : length rounds = length vs).
  { unfold reports in Hrep. apply (f_equal (@length _)) in Hrep.
    rewrite !length_map in Hrep. exact Hrep. }
  assert (Hrep' :
    map (fun m => Trainer.metrics_get m (Trainer.metric_to_check targs)) rounds
    = map Some (skipn 0 vs)).
  { rewrite (metric_to_check_eval_key targs metric Hchosen). exact Hrep. }
  destruct (training_loop_tracks targs vs Hsaves rounds 0 0 _
              (tracks_initial targs vs) ltac:(lia) Hrep')
    as [l' [c' [Hloop [Htr Hend]]]].
  unfold Trainer.train. rewrite Hcbs, Hloop. cbn [Py.bind].
  eexists. split; [ reflexivity | ].
  cbn [Trainer.evaluations Trainer.loaded_checkpoint].
  set (E := Trainer.rounds_done l') in *.
  pose proof (tracks_counter _ _ _ _ _ Htr) as Hc.
  assert (Hpos : rounds <> [] -> (0 < E)%nat).
  { intros Hne. destruct Hend as [[_ HE] | ->].
    - rewrite HE, <- Hlen. destruct rounds; [ contradiction | cbn; lia ].
    - destruct (Nat.eq_dec E 0) as [H0 | ]; [ | lia ].
      destruct (tracks_start _ _ _ _ _ Htr H0) as [_ Hc0]. lia. }
  split.
  { intros i Hi1 Hi2.
    apply (fails_to_improve_iff targs metric Hchosen) in Hi1, Hi2.
    destruct (le_lt_dec E (i + 2)) as [Hle | Hgt]; [ exact Hle | ].
    destruct (tracks_no_double _ _ _ _ _ Htr i Hgt) as [H | H]; congruence. }
  split.
  { destruct Hend as [[_ HE] | ->].
    - left. rewrite HE. symmetry. exact Hlen.
    - right.
      assert (HE : (0 < E)%nat).
      { destruct (Nat.eq_dec E 0) as [H0 | ]; [ | lia ].
        destruct (tracks_start _ _ _ _ _ Htr H0) as [_ Hc0]. lia. }
      destruct (tracks_checkpoint _ _ _ _ _ Htr HE) as [b [vb [_ [Hb _]]]].
      exists (E - 2)%nat. split; [ lia | ]. split.
      + apply (fails_to_improve_iff targs metric Hchosen).
        replace (E - 2)%nat with (E - 1 - 1)%nat by lia.
        apply (tracks_failed _ _ _ _ _ Htr 1%nat). lia.
      + apply (fails_to_improve_iff targs metric Hchosen).
        replace (S (E - 2)) with (E - 1 - 0)%nat by lia.
        apply (tracks_failed _ _ _ _ _ Htr 0%nat). lia. }
  intros Hne.
  destruct (tracks_checkpoint _ _ _ _ _ Htr (Hpos Hne))
    as [b [vb [Hb [Hbk [Hbnth [Hbm _]]]]]].
  exists b, vb. rewrite Hload.
  split; [ exact Hb | ].
  split; [ lia | ].
  split; [ rewrite Hlimit; lia | ].
  split; [ exact Hbnth | ].
  intros j v Hj Hv. apply (operator_not_better targs metric Hchosen).
  apply (tracks_best_of_all _ _ _ _ _ Htr j v vb Hj Hv Hbm).
Qed.

(** The sample run: rounds 2 and 3 fail to beat round 1, training stops
    after four evaluations and loads checkpoint 1. *)
Lemma early_stopping_sample_run :
  Trainer.train Sample.targs
    (CustomTrainer.callbacks (Sample.trainer "focal" "cosine")) Sample.rounds
  = Return {| Trainer.evaluations := 4;
              Trainer.final_state :=
                {| Trainer.best_metric := Some (60 # 100);
                   Trainer.best_model_checkpoint := Some 1%nat |};
              Trainer.loaded_checkpoint := Some 1%nat |}.
Proof. reflexivity. Qed.

(** In the sample values, 0.60 of round 1 is the best of the first two and
    of the first three rounds; rounds 2 and 3 do not beat it. *)
Lemma sample_best_among_2 : best_among "f1" Sample.f1_values 2 (60 # 100).
Proof.
  split.
  - exists 1%nat. split; [ lia | reflexivity ].
  - intros j v Hj Hv. destruct j as [| [| j]]; [ | | lia ];
      cbn in Hv; injection Hv as <-; cbv; discriminate.
Qed.

Lemma sample_best_among_3 : best_among "f1" Sample.f1_values 3 (60 # 100).
Proof.
  split.
  - exists 1%nat. split; [ lia | reflexivity ].
  - intros j v Hj Hv. destruct j as [| [| [| j]]]; [ | | | lia ];
      cbn in Hv; injection Hv as <-; cbv; discriminate.
Qed.

Lemma sample_no_improvement_2 : no_improvement "f1" Sample.f1_values 2.
Proof.
  exists (55 # 100), (60 # 100).
  split; [ reflexivity | ]. split; [ exact sample_best_among_2 | ].
  cbv. discriminate.
Qed.

Lemma sample_no_improvement_3 : no_improvement "f1" Sample.f1_values 3.
Proof.
  exists (58 # 100), (60 # 100).
  split; [ reflexivity | ]. split; [ exact sample_best_among_3 | ].
  cbv. discriminate.
Qed.

Lemma early_stopping_after_two_failures_witness :
  training_arguments "./results" "./logs" (Sample.args "focal" "cosine") 100
  = Return Sample.targs
  /\ custom_trainer (Sample.args "focal" "cosine") Sample.targs 100
     = Return (Sample.trainer "focal" "cosine")
  /\ reports "f1" Sample.rounds Sample.f1_values
  /\ exists out,
       Trainer.train Sample.targs
         (CustomTrainer.callbacks (Sample.trainer "focal" "cosine")) Sample.rounds
       = Return out
       /\ (forall i,
             no_improvement "f1" Sample.f1_values i ->
             no_improvement "f1" Sample.f1_values (S i) ->
             (Trainer.evaluations out <= i + 2)%nat)
       /\ (Trainer.evaluations out = length Sample.rounds
           \/ exists i,
                Trainer.evaluations out = (i + 2)%nat
                /\ no_improvement "f1" Sample.f1_values i
                /\ no_improvement "f1" Sample.f1_values (S i))
       /\ (Sample.rounds <> [] ->
           exists b vb,
             Trainer.loaded_checkpoint out = Some b
             /\ (b < Trainer.evaluations out <= b + 3)%nat
             /\ Z.of_nat (Trainer.evaluations out) - Z.of_nat b
                <= TrainingArguments.save_total_limit Sample.targs
             /\ nth_error Sample.f1_values b = Some vb
             /\ forall j v,
                  (j < Trainer.evaluations out)%nat ->
                  nth_error Sample.f1_values j = Some v ->
                  ~ better "f1" v vb).
Proof.
  split; [ reflexivity | ].
  split; [ reflexivity | ].
  split; [ reflexivity | ].
  apply (early_stopping_after_two_failures "./results" "./logs"
           (Sample.args "focal" "cosine") 100 Sample.targs
           (Sample.trainer "focal" "cosine") Sample.rounds Sample.f1_values).
  - reflexivity.
  - reflexivity.
  - reflexivity.
  - intros H. discriminate H.
  - reflexivity.
Defined.

(** C9, as stated, fails on a dataset of fewer than two batches: for 50
    rows and batches of 32 [save_steps] is 0, so no checkpoint is saved and
    no best value recorded; rounds 2 and 3 fail to improve, yet all five
    rounds of the run are evaluated and no checkpoint is loaded at the
    end. *)
Lemma early_stopping_small_dataset_counterexample :
  training_arguments "./results" "./logs" Sample.args_small 50
  = Return Sample.targs_small
  /\ custom_trainer Sample.args_small Sample.targs_small 50
     = Return Sample.trainer_small
  /\ reports "f1" Sample.rounds Sample.f1_values
  /\ no_improvement "f1" Sample.f1_values 2
  /\ no_improvement "f1" Sample.f1_values 3
  /\ Trainer.train Sample.targs_small
       (CustomTrainer.callbacks Sample.trainer_small) Sample.rounds
     = Return {| Trainer.evaluations := 5;
                 Trainer.final_state :=
                   {| Trainer.best_metric := None;
                      Trainer.best_model_checkpoint := None |};
                 Trainer.loaded_checkpoint := None |}
  /\ ~ (exists out,
          Trainer.train Sample.targs_small
            (CustomTrainer.callbacks Sample.trainer_small) Sample.rounds
          = Return out
          /\ (Trainer.evaluations out <= 2 + 2)%nat).
Proof.
  split; [ reflexivity | ].
  split; [ reflexivity | ].
  split; [ reflexivity | ].
  split; [ exact sample_no_improvement_2 | ].
  split; [ exact sample_no_improvement_3 | ].
  split; [ reflexivity | ].
  intros [out [Hout Hle]]. vm_compute in Hout. injection Hout as <-.
  cbn in Hle. lia.
Qed.

(** ** Whole runs of [main] *)

(** [--scheduler cosine] over the 100 sample rows: the trainer stores 62 as
    [num_training_steps], the schedule is built for the 60 steps of the
    loop, 0.1 is recorded as weight decay, and the run stops early. *)
Lemma main_cosine_sample_run :
  match Sample.main [("scheduler", "cosine")] with
  | Return run =>
      (length (X_train nat run), length (X_val nat run)) = (80%nat, 20%nat)
      /\ CustomTrainer.num_training_steps (trainer nat run) = 62
      /\ CustomTrainer.lr_scheduler (trainer nat run)
         = Some (Torch.LambdaLR Sample.adamw
                   {| Torch.schedule_name := "cosine_with_restarts";
                      Torch.num_warmup_steps := 810;
                      Torch.num_training_steps := 60 |})
      /\ TrainingArguments.weight_decay (training_args nat run) = 1 # 10
      /\ Trainer.evaluations (output nat run) = 4%nat
      /\ Trainer.loaded_checkpoint (output nat run) = Some 1%nat
  | Raise _ => False
  end.
Proof. vm_compute. repeat split. Qed.

(** The default command line selects ["linear"]: no scheduler is built and
    the run ends at the first scheduler step. *)
Lemma main_default_sample_run :
  Sample.main []
  = Raise (AttributeError "'NoneType' object has no attribute 'step'").
Proof. vm_compute. reflexivity. Qed.

(** An unknown scheduler name ends the same way, not at start-up. *)
Lemma main_unknown_scheduler_sample_run :
  Sample.main [("scheduler", "exponential")]
  = Raise (AttributeError "'NoneType' object has no attribute 'step'").
Proof. vm_compute. reflexivity. Qed.

(** * Further properties of the code *)

(** ** [create_scheduler] *)

(** X3: [create_scheduler] writes [lr_scheduler] only: every other attribute of
    the trainer is as before, the returned value is the stored scheduler,
    and a second call with the same arguments changes nothing more. *)
Theorem create_scheduler_idempotent :
  forall (self self' : CustomTrainer.t) num_training_steps optimizer s,
    CustomTrainer.create_scheduler self num_training_steps optimizer
    = Return (self', s) ->
    CustomTrainer.loss_name self' = CustomTrainer.loss_name self
    /\ CustomTrainer.scheduler self' = CustomTrainer.scheduler self
    /\ CustomTrainer.num_training_steps self'
       = CustomTrainer.num_training_steps self
    /\ CustomTrainer.args self' = CustomTrainer.args self
    /\ CustomTrainer.num_labels self' = CustomTrainer.num_labels self
    /\ CustomTrainer.callbacks self' = CustomTrainer.callbacks self
    /\ CustomTrainer.optimizer self' = CustomTrainer.optimizer self
    /\ s = CustomTrainer.lr_scheduler self'
    /\ CustomTrainer.create_scheduler self' num_training_steps optimizer
       = Return (self', s).
Proof.
  intros self self' steps opt s H.
  unfold CustomTrainer.create_scheduler, Py.str_eq in *.
  destruct (String.eqb (CustomTrainer.scheduler self) "linear") eqn:Hlin.
  - cbn in H. injection H as <- <-. rewrite Hlin. cbn. repeat split.
  - destruct (String.eqb (CustomTrainer.scheduler self) "cosine") eqn:Hcos.
    + cbn in H.
      destruct (match opt with
                | Some o' => Some o'
                | None => CustomTrainer.optimizer self
                end) as [o |] eqn:Hopt; cbn in H; [ | discriminate H ].
      injection H as <- <-. cbn. rewrite Hlin, Hcos. cbn.
      rewrite Hopt. cbn. repeat split.
    + cbn in H.
      destruct (String.eqb (CustomTrainer.scheduler self) "steplr") eqn:Hstep.
      * destruct (CustomTrainer.optimizer self) as [o |] eqn:Hopt; cbn in H;
          [ | discriminate H ].
        injection H as <- <-. cbn. rewrite Hlin, Hcos, Hstep. cbn.
        rewrite Hopt. cbn. repeat split; try assumption.
      * cbn in H. injection H as <- <-. rewrite Hlin, Hcos, Hstep. cbn.
        repeat split.
Qed.

Lemma create_scheduler_idempotent_witness :
  CustomTrainer.create_scheduler
    (CustomTrainer.create_optimizer (Sample.trainer "focal" "steplr")) 60 None
  = Return (CustomTrainer.set_lr_scheduler
              (CustomTrainer.create_optimizer (Sample.trainer "focal" "steplr"))
              (Torch.StepLR Sample.adamw 1080 (1 # 2)),
            Some (Torch.StepLR Sample.adamw 1080 (1 # 2)))
  /\ CustomTrainer.create_scheduler
       (CustomTrainer.set_lr_scheduler
          (CustomTrainer.create_optimizer (Sample.trainer "focal" "steplr"))
          (Torch.StepLR Sample.adamw 1080 (1 # 2))) 60 None
     = Return (CustomTrainer.set_lr_scheduler
                 (CustomTrainer.create_optimizer (Sample.trainer "focal" "steplr"))
                 (Torch.StepLR Sample.adamw 1080 (1 # 2)),
               Some (Torch.StepLR Sample.adamw 1080 (1 # 2))).
Proof.
  split; [ reflexivity | ].
  apply (create_scheduler_idempotent
           (CustomTrainer.create_optimizer (Sample.trainer "focal" "steplr"))
           _ 60 None _ eq_refl).
Defined.

(** X4: [create_scheduler] fails only for want of an optimizer: for
    ["cosine"], when neither the argument nor the trainer has one, with the
    [AttributeError] of [LambdaLR] reading [param_groups]; for ["steplr"],
    when the trainer has none, whatever the argument is, with the
    [TypeError] of [StepLR].  No name makes it fail otherwise. *)
Theorem create_scheduler_fails_only_without_optimizer :
  forall (self : CustomTrainer.t) num_training_steps optimizer,
    (forall e,
       CustomTrainer.create_scheduler self num_training_steps optimizer = Raise e ->
       (CustomTrainer.scheduler self = "cosine"
        /\ e = AttributeError "'NoneType' object has no attribute 'param_groups'")
       \/ (CustomTrainer.scheduler self = "steplr"
           /\ e = TypeError "NoneType is not an Optimizer"))
    /\ ((exists e,
           CustomTrainer.create_scheduler self num_training_steps optimizer
           = Raise e)
        <-> CustomTrainer.optimizer self = None
            /\ ((CustomTrainer.scheduler self = "cosine" /\ optimizer = None)
                \/ CustomTrainer.scheduler self = "steplr")).
Proof.
  intros self steps opt. unfold CustomTrainer.create_scheduler, Py.str_eq.
  destruct (String.eqb_spec (CustomTrainer.scheduler self) "linear") as [Hlin | Hlin].
  { cbn. split; [ intros e H; discriminate H | ]. split.
    - intros [e H]. discriminate H.
    - intros [_ [[H _] | H]]; rewrite Hlin in H; discriminate H. }
  destruct (String.eqb_spec (CustomTrainer.scheduler self) "cosine") as [Hcos | Hcos].
  { cbn. destruct opt as [o |]; cbn.
    - split; [ intros e H; discriminate H | ]. split.
      + intros [e H]. discriminate H.
      + intros [_ [[_ H] | H]]; [ discriminate H | ].
        rewrite Hcos in H. discriminate H.
    - destruct (CustomTrainer.optimizer self) as [o |]; cbn.
      + split; [ intros e H; discriminate H | ]. split.
        * intros [e H]. discriminate H.
        * intros [H _]. discriminate H.
      + split.
        { intros e H. injection H as <-. left. split; [ exact Hcos | reflexivity ]. }
        split.
        * intros _. split; [ reflexivity | left; split; [ exact Hcos | reflexivity ] ].
        * intros _. eexists. reflexivity. }
  destruct (String.eqb_spec (CustomTrainer.scheduler self) "steplr") as [Hstep | Hstep].
  { cbn. destruct (CustomTrainer.optimizer self) as [o |]; cbn.
    - split; [ intros e H; discriminate H | ]. split.
      + intros [e H]. discriminate H.
      + intros [H _]. discriminate H.
    - split.
      { intros e H. injection H as <-. right. split; [ exact Hstep | reflexivity ]. }
      split.
      + intros _. split; [ reflexivity | right; exact Hstep ].
      + intros _. eexists. reflexivity. }
  cbn. split; [ intros e H; discriminate H | ]. split.
  - intros [e H]. discriminate H.
  - intros [_ [[H _] | H]]; contradiction.
Qed.

(** A fresh trainer, as [train] builds it, has no optimizer: a direct call
    fails for ["cosine"] and for ["steplr"], each with its own error. *)
Lemma create_scheduler_without_optimizer_sample :
  CustomTrainer.create_scheduler (Sample.trainer "focal" "cosine") 60 None
  = Raise (AttributeError "'NoneType' object has no attribute 'param_groups'")
  /\ CustomTrainer.create_scheduler (Sample.trainer "focal" "steplr") 60 None
     = Raise (TypeError "NoneType is not an Optimizer").
Proof. split; reflexivity. Qed.

(** ** The training arguments built by [train] *)

(** X6: The ratio given as [--warmup] never reaches the schedule: [train]
    leaves [warmup_ratio] at its default, so the warmup the scheduler is
    built with is [--warmup_steps] when that is positive and no warmup at
    all otherwise, whatever the total number of steps. *)
Theorem warmup_ratio_is_never_used :
  forall SAVE_DIR LOG_DIR (args : Namespace.t) len_train_dataset targs
         num_training_steps,
    training_arguments SAVE_DIR LOG_DIR args len_train_dataset = Return targs ->
    TrainingArguments.get_warmup_steps targs num_training_steps
    = if 0 <? Namespace.warmup_steps args then Namespace.warmup_steps args else 0.
Proof.
  intros SAVE LOG args n targs steps H.
  destruct (training_arguments_returns _ _ _ _ _ H) as (_ & -> & _).
  unfold TrainingArguments.get_warmup_steps.
  cbn [TrainingArguments.warmup_steps TrainingArguments.warmup_ratio].
  destruct (0 <? Namespace.warmup_steps args); [ reflexivity | ].
  rewrite (Qceiling_comp (inject_Z steps * 0) 0) by ring. reflexivity.
Qed.

(** With [--warmup_steps 0] and [--warmup 0.5] no warmup is configured. *)
Lemma warmup_ratio_is_never_used_witness :
  training_arguments "./results" "./logs" Sample.args_warmup_ratio 100
  = Return Sample.targs_warmup_ratio
  /\ TrainingArguments.get_warmup_steps Sample.targs_warmup_ratio 60 = 0.
Proof.
  split; [ reflexivity | ].
  exact (warmup_ratio_is_never_used "./results" "./logs"
           Sample.args_warmup_ratio 100 Sample.targs_warmup_ratio 60 eq_refl).
Defined.

(** X5: [save_steps] is [len // batch // 2], that is
    [len // (2 * batch)].  With at least two batches of data it is positive
    and [eval_steps] equals it, so a checkpoint is saved at every
    evaluation; with fewer it is 0, no checkpoint is saved at all, and the
    model is evaluated every [logging_steps] steps instead.  A batch size
    of 0 is a [ZeroDivisionError]. *)
Theorem training_arguments_steps :
  forall SAVE_DIR LOG_DIR (args : Namespace.t) len_train_dataset,
    (Namespace.batch args = 0 ->
     training_arguments SAVE_DIR LOG_DIR args len_train_dataset
     = Raise ZeroDivisionError)
    /\ (0 < Namespace.batch args -> 0 <= len_train_dataset ->
        0 < Namespace.logging_steps args ->
        exists targs,
          training_arguments SAVE_DIR LOG_DIR args len_train_dataset
          = Return targs
          /\ TrainingArguments.save_steps targs
             = len_train_dataset / (2 * Namespace.batch args)
          /\ (2 * Namespace.batch args <= len_train_dataset ->
              0 < TrainingArguments.save_steps targs
              /\ TrainingArguments.eval_steps targs
                 = TrainingArguments.save_steps targs
              /\ forall k,
                   Trainer.should_save targs (Trainer.global_step targs k) = true)
          /\ (len_train_dataset < 2 * Namespace.batch args ->
              TrainingArguments.save_steps targs = 0
              /\ TrainingArguments.eval_steps targs = Namespace.logging_steps args
              /\ forall step, Trainer.should_save targs step = false)).
Proof.
  intros SAVE LOG args n. split.
  - intros Hb. unfold training_arguments, Py.floordiv. rewrite Hb. reflexivity.
  - intros Hb Hn Hlog.
    assert (Hdiv : n / Namespace.batch args / 2 = n / (2 * Namespace.batch args)).
    { rewrite Z.div_div by lia. f_equal. lia. }
    assert (Hret : exists targs,
              training_arguments SAVE LOG args n = Return targs).
    { unfold training_arguments, Py.floordiv.
      destruct (Z.eqb_spec (Namespace.batch args) 0) as [Hc | _]; [ lia | ].
      cbn [Py.bind Z.eqb]. set (s := n / Namespace.batch args / 2).
      unfold TrainingArguments.post_init.
      cbn [TrainingArguments.evaluation_strategy TrainingArguments.eval_steps
           TrainingArguments.logging_steps].
      change (Py.str_eq "steps" "steps") with true. cbn [andb].
      destruct (Z.eqb_spec s 0) as [H0 | H0].
      - destruct (Z.ltb_spec 0 (Namespace.logging_steps args)) as [_ | Hc];
          [ | lia ].
        cbn [Py.bind TrainingArguments.set_eval_steps
             TrainingArguments.load_best_model_at_end
             TrainingArguments.evaluation_strategy
             TrainingArguments.save_steps TrainingArguments.eval_steps].
        change (Py.str_eq "steps" "steps") with true. rewrite H0, Z.mod_0_l by lia.
        cbn [andb negb Z.eqb]. eexists. reflexivity.
      - cbn [Py.bind TrainingArguments.load_best_model_at_end
             TrainingArguments.evaluation_strategy
             TrainingArguments.save_steps TrainingArguments.eval_steps].
        change (Py.str_eq "steps" "steps") with true.
        rewrite Z_mod_same_full. cbn [andb negb Z.eqb]. eexists. reflexivity. }
    destruct Hret as [targs Htargs]. exists targs. split; [ exact Htargs | ].
    destruct (training_arguments_returns _ _ _ _ _ Htargs) as (_ & Hfields & Hsteps).
    assert (Hsave : TrainingArguments.save_steps targs = n / Namespace.batch args / 2).
    { rewrite Hfields. reflexivity. }
    split; [ rewrite Hsave; exact Hdiv | ].
    split.
    + intros Hge.
      assert (Hq : 0 < n / (2 * Namespace.batch args)).
      { apply Z.div_str_pos. lia. }
      assert (Heq : TrainingArguments.eval_steps targs
                    = TrainingArguments.save_steps targs).
      { destruct Hsteps as [(H0 & _) | (_ & He)]; [ lia | congruence ]. }
      split; [ lia | ]. split; [ exact Heq | ].
      apply should_save_every_round; [ lia | congruence ].
    + intros Hlt.
      assert (Hq : n / (2 * Namespace.batch args) = 0).
      { apply Z.div_small. lia. }
      assert (H0 : TrainingArguments.save_steps targs = 0) by lia.
      split; [ exact H0 | ]. split.
      * destruct Hsteps as [(_ & _ & He) | (Hne & _)]; [ exact He | lia ].
      * apply should_save_never. exact H0.
Qed.

(** ** [compute_loss] *)

Section LossOutcomes.

Variable Tensor : Type.
Variable view : Tensor -> list Z -> Py.result Tensor.
Variable tensor_bool : Tensor -> Py.result bool.
Variables LB FL F1 : Tensor -> Tensor -> Py.result Tensor.

(** X1: [return_outputs=True] changes only the shape of the result: the loss is
    the one returned without it, paired with the outputs of the forward
    pass, and an error is the same error. *)
Theorem compute_loss_return_outputs :
  forall (self : CustomTrainer.t) model inputs outputs,
    model inputs = Return outputs ->
    CustomTrainer.compute_loss Tensor view tensor_bool LB FL F1
      self model inputs true
    = (loss <- CustomTrainer.compute_loss Tensor view tensor_bool LB FL F1
                 self model inputs false ;;
       Return (CustomTrainer.VTuple Tensor loss outputs)).
Proof.
  intros self model inputs outputs Hmodel.
  unfold CustomTrainer.compute_loss. rewrite Hmodel. cbn [Py.bind].
  destruct (CustomTrainer.load_local _ _) as [f | e]; cbn [Py.bind];
    [ | reflexivity ].
  destruct (CustomTrainer.view_of Tensor view
              (CustomTrainer.dict_get Tensor outputs "logits") _) as [a | e];
    cbn [Py.bind]; [ | reflexivity ].
  destruct (CustomTrainer.view_of Tensor view
              (CustomTrainer.dict_get Tensor inputs "labels") _) as [b | e];
    cbn [Py.bind]; [ | reflexivity ].
  destruct (CustomTrainer.call_loss_fct Tensor tensor_bool LB FL F1 f a b)
    as [loss | e]; reflexivity.
Qed.

Lemma known_loss_is_selected (name : string) :
  known_loss name -> exists f, CustomTrainer.select_loss_fct name = Some f.
Proof.
  intros [-> | [-> | [-> | ->]]]; eexists; reflexivity.
Qed.

(** X2: With one of the four known loss names, a batch without labels, or a
    model output without logits, ends in the [AttributeError] of calling
    [view] on [None]: the logits are reshaped first, then the labels, and
    only then is the loss called. *)
Theorem compute_loss_missing_entry :
  forall (self : CustomTrainer.t) model inputs outputs return_outputs,
    known_loss (CustomTrainer.loss_name self) ->
    model inputs = Return outputs ->
    CustomTrainer.dict_get Tensor outputs "logits" = None
    \/ ((exists a,
           CustomTrainer.view_of Tensor view
             (CustomTrainer.dict_get Tensor outputs "logits")
             [-1; CustomTrainer.num_labels self] = Return a)
        /\ CustomTrainer.dict_get Tensor inputs "labels" = None) ->
    CustomTrainer.compute_loss Tensor view tensor_bool LB FL F1
      self model inputs return_outputs
    = Raise (AttributeError "'NoneType' object has no attribute 'view'").
Proof.
  intros self model inputs outputs ro Hknown Hmodel Hmissing.
  destruct (known_loss_is_selected _ Hknown) as [f Hf].
  unfold CustomTrainer.compute_loss. rewrite Hmodel, Hf. cbn [Py.bind CustomTrainer.load_local].
  destruct Hmissing as [Hlogits | [[a Ha] Hlabels]].
  - rewrite Hlogits. reflexivity.
  - rewrite Ha, Hlabels. reflexivity.
Qed.

End LossOutcomes.

Lemma compute_loss_return_outputs_witness :
  Sample.model Sample.logits Sample.inputs = Return [("logits", Sample.logits)]
  /\ Sample.compute_loss (Sample.trainer "focal" "cosine")
       (Sample.model Sample.logits) Sample.inputs true
     = Return (CustomTrainer.VTuple Sample.Tensor
                 (CustomTrainer.VTensor Sample.Tensor [2 # 1])
                 [("logits", Sample.logits)]).
Proof.
  split; [ reflexivity | ].
  exact (compute_loss_return_outputs Sample.Tensor Sample.view Sample.tensor_bool
           (Sample.forward 1) (Sample.forward 2) (Sample.forward 3)
           (Sample.trainer "focal" "cosine") (Sample.model Sample.logits)
           Sample.inputs [("logits", Sample.logits)] eq_refl).
Defined.

Lemma focal_is_a_known_loss : known_loss "focal".
Proof. right. right. left. reflexivity. Qed.

(** A batch of token ids without the ["labels"] entry. *)
Lemma compute_loss_missing_entry_witness :
  Sample.compute_loss (Sample.trainer "focal" "cosine")
    (Sample.model Sample.logits) [("input_ids", [101 # 1; 2 # 1; 102 # 1])] false
  = Raise (AttributeError "'NoneType' object has no attribute 'view'").
Proof.
  exact (compute_loss_missing_entry Sample.Tensor Sample.view Sample.tensor_bool
           (Sample.forward 1) (Sample.forward 2) (Sample.forward 3)
           (Sample.trainer "focal" "cosine") (Sample.model Sample.logits)
           [("input_ids", [101 # 1; 2 # 1; 102 # 1])]
           [("logits", Sample.logits)] false
           focal_is_a_known_loss eq_refl
           (or_intror (conj (ex_intro _ Sample.logits eq_refl) eq_refl))).
Defined.

(** ** Whole runs of [train] *)

Section SplitOutcome.

Variable RandomState : Type.
Variable seeded : Z -> RandomState.
Variable permutation : RandomState -> nat -> list nat.
Hypothesis permutation_shuffles :
  forall rng n, Permutation (permutation rng n) (seq 0 n).

(** What a split that returns tells about its arguments and its parts. *)
Lemma split_indices_returns (global : RandomState) (n : nat) (r : Q)
      (seed : Z) (ind_train ind_val : list nat) :
  Sklearn.split_indices RandomState seeded permutation global n r (Some seed)
  = Return (ind_train, ind_val) ->
  (0 < r)%Q /\ (r < 1)%Q
  /\ 0 <= seed < 2 ^ 32
  /\ Permutation (ind_train ++ ind_val) (seq 0 n)
  /\ (0 < length ind_train)%nat
  /\ (0 < length ind_val)%nat
  /\ Z.of_nat (length ind_val)
     = Qceiling (Py.float_mul r (inject_Z (Z.of_nat n))).
Proof.
  unfold Sklearn.split_indices, Sklearn.validate_shuffle_split.
  set (N := Z.of_nat n). set (c := Qceiling (Py.float_mul r (inject_Z N))).
  destruct (Qle_bool r 0) eqn:Hr0; cbn [orb]; [ discriminate | ].
  destruct (Qle_bool 1 r) eqn:Hr1; [ discriminate | ].
  destruct (Z.ltb_spec N (N - c + c)) as [_ | _]; [ discriminate | ].
  destruct (Z.eqb_spec (N - c) 0) as [_ | Hne]; [ discriminate | ].
  cbn [Py.bind fst snd]. unfold Sklearn.shuffle_split.
  destruct (Z.leb_spec N c) as [_ | Hc1]; cbn [orb]; [ discriminate | ].
  destruct (Z.leb_spec c 0) as [_ | Hc0]; [ discriminate | ].
  destruct (Z.leb_spec N (N - c)) as [_ | _]; cbn [orb]; [ discriminate | ].
  destruct (Z.leb_spec (N - c) 0) as [_ | Hc2]; [ discriminate | ].
  unfold Sklearn.check_random_state.
  destruct (Z.ltb_spec seed 0) as [_ | Hs0]; cbn [orb]; [ discriminate | ].
  destruct (Z.leb_spec (2 ^ 32) seed) as [_ | Hs1]; [ discriminate | ].
  cbn [Py.bind].
  replace (Z.to_nat N) with n by (unfold N; symmetry; apply Nat2Z.id).
  set (p := permutation (seeded seed) n).
  intros H. injection H as <- <-.
  assert (Hp : Permutation p (seq 0 n)) by apply permutation_shuffles.
  assert (Hplen : length p = n).
  { rewrite (Permutation_length Hp). apply length_seq. }
  assert (Hall : firstn (Z.to_nat (N - c)) (skipn (Z.to_nat c) p)
                 = skipn (Z.to_nat c) p).
  { replace (Z.to_nat (N - c)) with (length (skipn (Z.to_nat c) p)).
    - apply firstn_all.
    - rewrite length_skipn, Hplen. unfold N. lia. }
  split. { apply Qnot_le_lt. intros Hle. apply Qle_bool_iff in Hle. congruence. }
  split. { apply Qnot_le_lt. intros Hle. apply Qle_bool_iff in Hle. congruence. }
  split; [ lia | ].
  split. { rewrite Hall, Permutation_app_comm, firstn_skipn. exact Hp. }
  split. { rewrite Hall, length_skipn, Hplen. unfold N in *. lia. }
  rewrite length_firstn, Hplen. unfold N in *. split; lia.
Qed.

End SplitOutcome.

Section Runs.

Variable RandomState : Type.
Variable seeded : Z -> RandomState.
Variable permutation : RandomState -> nat -> list nat.
Variable global_rng : RandomState.
Hypothesis permutation_shuffles :
  forall rng n, Permutation (permutation rng n) (seq 0 n).

Variables DataFrame Labels Tokenized Example : Type.
Variable load_data : Z -> DataFrame.
Variable len_frame : DataFrame -> Z.
Variable label_to_num : DataFrame -> Labels.
Variable tokenized_dataset : DataFrame -> Tokenized.
Variable main_augmentation : Tokenized -> Tokenized.
Variable RE_Dataset : Tokenized -> Labels -> list Example.
Variables SAVE_DIR LOG_DIR : string.
Variable n_gpu : Z.
Variable rounds : list Trainer.metrics.

(** The steps of a run of [train] that returns. *)
Lemma train_returns (args : Namespace.t) (run : Run Example) :
  train RandomState seeded permutation global_rng DataFrame Labels Tokenized
    Example load_data len_frame label_to_num tokenized_dataset
    main_augmentation RE_Dataset SAVE_DIR LOG_DIR n_gpu rounds args
  = Return run ->
  exists targs tr out,
    Sklearn.train_test_split RandomState seeded permutation global_rng
      (RE_train_dataset Example run) (Namespace.split_ratio args)
      (Some (Namespace.seed args))
    = Return (X_train Example run, X_val Example run)
    /\ RE_train_dataset Example run
       = build_RE_train_dataset DataFrame Labels Tokenized Example load_data
           label_to_num tokenized_dataset main_augmentation RE_Dataset args
    /\ training_arguments SAVE_DIR LOG_DIR args
         (len_frame (load_data (Namespace.generate_option args)))
       = Return targs
    /\ custom_trainer args targs
         (len_frame (load_data (Namespace.generate_option args)))
       = Return tr
    /\ CustomTrainer.train tr n_gpu
         (Z.of_nat (length (X_train Example run))) rounds
       = Return (trainer Example run, out)
    /\ training_args Example run = targs
    /\ output Example run = out.
Proof.
  unfold train. intros H.
  destruct (Sklearn.train_test_split _ _ _ _ _ _ _) as [[Xt Xv] | e] eqn:Hsplit;
    cbn [Py.bind fst snd] in H; [ | discriminate H ].
  destruct (training_arguments _ _ _ _) as [targs | e] eqn:Htargs;
    cbn [Py.bind] in H; [ | discriminate H ].
  destruct (custom_trainer _ _ _) as [tr | e] eqn:Htr;
    cbn [Py.bind] in H; [ | discriminate H ].
  destruct (CustomTrainer.train _ _ _ _) as [[tr' out] | e] eqn:Hrun;
    cbn [Py.bind fst snd] in H; [ | discriminate H ].
  injection H as <-. cbn.
  exists targs, tr, out. repeat split; assumption.
Qed.

(** X7: A run of [train] that returns has split the dataset into a training
    and a validation part that are both non-empty and together hold every
    example once; the ratio was strictly between 0 and 1, the seed a 32-bit
    number and the batch size positive.  Any other configuration ends in an
    error. *)
Theorem train_returns_a_partition :
  forall (args : Namespace.t) (run : Run Example),
    train RandomState seeded permutation global_rng DataFrame Labels Tokenized
      Example load_data len_frame label_to_num tokenized_dataset
      main_augmentation RE_Dataset SAVE_DIR LOG_DIR n_gpu rounds args
    = Return run ->
    Permutation (X_train Example run ++ X_val Example run)
      (RE_train_dataset Example run)
    /\ X_train Example run <> []
    /\ X_val Example run <> []
    /\ (0 < Namespace.split_ratio args)%Q
    /\ (Namespace.split_ratio args < 1)%Q
    /\ 0 <= Namespace.seed args < 2 ^ 32
    /\ 0 < Namespace.batch args.
Proof.
  intros args run H.
  destruct (train_returns args run H)
    as [targs [tr [out [Hsplit [_ [Htargs [Htr [Hrun _]]]]]]]].
  unfold Sklearn.train_test_split in Hsplit.
  destruct (Sklearn.split_indices _ _ _ _ _ _ _) as [[it iv] | e] eqn:Hind;
    cbn [Py.bind fst snd] in Hsplit; [ | discriminate Hsplit ].
  injection Hsplit as Ht Hv.
  destruct (split_indices_returns RandomState seeded permutation
              permutation_shuffles _ _ _ _ _ _ Hind)
    as [Hr0 [Hr1 [Hseed [Hperm [Hlt [Hlv _]]]]]].
  assert (Hin : forall i, In i (it ++ iv) ->
                          (i < length (RE_train_dataset Example run))%nat).
  { intros i Hi. apply (Permutation_in _ Hperm) in Hi.
    apply in_seq in Hi. lia. }
  assert (Hbatch : 0 < Namespace.batch args).
  { unfold custom_trainer in Htr.
    destruct (Py.floordiv _ _) as [k | e]; cbn in Htr; [ | discriminate Htr ].
    injection Htr as <-.
    assert (Hbs : TrainingArguments.per_device_train_batch_size targs
                  = Namespace.batch args).
    { destruct (training_arguments_returns _ _ _ _ _ Htargs) as (_ & -> & _).
      reflexivity. }
    unfold CustomTrainer.train, CustomTrainer.max_steps,
      CustomTrainer.len_dataloader in Hrun.
    cbn [CustomTrainer.args CustomTrainer.init] in Hrun.
    rewrite Hbs in Hrun.
    destruct (Z.leb_spec (Namespace.batch args * Z.max 1 n_gpu) 0) as [_ | Hpos];
      [ discriminate Hrun | ].
    nia. }
  split.
  { rewrite <- Ht, <- Hv, <- safe_indexing_app.
    apply safe_indexing_permutation. exact Hperm. }
  split.
  { rewrite <- Ht. intros Hnil. apply (f_equal (@length _)) in Hnil.
    rewrite safe_indexing_length in Hnil.
    - cbn in Hnil. lia.
    - intros i Hi. apply Hin. apply in_or_app. left. exact Hi. }
  split.
  { rewrite <- Hv. intros Hnil. apply (f_equal (@length _)) in Hnil.
    rewrite safe_indexing_length in Hnil.
    - cbn in Hnil. lia.
    - intros i Hi. apply Hin. apply in_or_app. right. exact Hi. }
  repeat split; try assumption; lia.
Qed.

Lemma get_warmup_steps_zero_ratio (a : TrainingArguments.t) (steps : Z) :
  TrainingArguments.warmup_ratio a = 0%Q ->
  TrainingArguments.get_warmup_steps a steps
  = if 0 <? TrainingArguments.warmup_steps a
    then TrainingArguments.warmup_steps a else 0.
Proof.
  intros H. unfold TrainingArguments.get_warmup_steps. rewrite H.
  destruct (0 <? TrainingArguments.warmup_steps a); [ reflexivity | ].
  rewrite (Qceiling_comp (inject_Z steps * 0) 0) by ring. reflexivity.
Qed.

(** X8: A run of [train] over at least one epoch returns only for the
    scheduler names ["cosine"] and ["steplr"]; with ["linear"], the
    default, or any other name it ends in an error.  The trainer it leaves
    has an optimizer at the rate [--lr] and, for ["cosine"], the
    cosine-with-restarts schedule over the steps of the loop (epochs times
    the batches of the training part) with [--warmup_steps] of warmup, for
    ["steplr"], the schedule that halves [--lr] every 1080 steps. *)
Theorem train_scheduler_of_run :
  forall (args : Namespace.t) (run : Run Example),
    train RandomState seeded permutation global_rng DataFrame Labels Tokenized
      Example load_data len_frame label_to_num tokenized_dataset
      main_augmentation RE_Dataset SAVE_DIR LOG_DIR n_gpu rounds args
    = Return run ->
    0 < Namespace.epochs args ->
    CustomTrainer.optimizer (trainer Example run)
    = Some {| Torch.base_lr := Namespace.lr args |}
    /\ ((Namespace.scheduler args = "cosine"
         /\ CustomTrainer.lr_scheduler (trainer Example run)
            = Some (Torch.LambdaLR {| Torch.base_lr := Namespace.lr args |}
                      {| Torch.schedule_name := "cosine_with_restarts";
                         Torch.num_warmup_steps :=
                           if 0 <? Namespace.warmup_steps args
                           then Namespace.warmup_steps args else 0;
                         Torch.num_training_steps :=
                           Namespace.epochs args
                           * Z.max
                               ((Z.of_nat (length (X_train Example run))
                                 + Namespace.batch args * Z.max 1 n_gpu - 1)
                                / (Namespace.batch args * Z.max 1 n_gpu))
                               1 |}))
        \/ (Namespace.scheduler args = "steplr"
            /\ CustomTrainer.lr_scheduler (trainer Example run)
               = Some (Torch.StepLR {| Torch.base_lr := Namespace.lr args |}
                         1080 (1 # 2)))).
Proof.
  intros args run H Hepochs.
  destruct (train_returns args run H)
    as [targs [tr [out [_ [_ [Htargs [Htr [Hrun _]]]]]]]].
  unfold custom_trainer in Htr.
  destruct (Py.floordiv _ _) as [k | e]; cbn [Py.bind] in Htr;
    [ | discriminate Htr ].
  injection Htr as <-.
  assert (Hfields :
    TrainingArguments.per_device_train_batch_size targs = Namespace.batch args
    /\ TrainingArguments.num_train_epochs targs = Namespace.epochs args
    /\ TrainingArguments.learning_rate targs = Namespace.lr args
    /\ TrainingArguments.warmup_steps targs = Namespace.warmup_steps args
    /\ TrainingArguments.warmup_ratio targs = 0%Q).
  { destruct (training_arguments_returns _ _ _ _ _ Htargs) as (_ & -> & _).
    repeat split. }
  destruct Hfields as [Hbs [Hep [Hlr [Hws Hratio]]]].
  unfold CustomTrainer.train, CustomTrainer.max_steps,
    CustomTrainer.len_dataloader in Hrun.
  cbn [CustomTrainer.args CustomTrainer.init] in Hrun.
  rewrite Hbs, Hep in Hrun.
  set (bs := Namespace.batch args * Z.max 1 n_gpu) in *.
  destruct (Z.leb_spec bs 0) as [_ | Hpos]; [ discriminate Hrun | ].
  cbn [Py.bind] in Hrun.
  set (steps := Namespace.epochs args
                * Z.max ((Z.of_nat (length (X_train Example run)) + bs - 1) / bs) 1)
    in *.
  assert (Hsteps : 0 < steps) by (unfold steps; nia).
  destruct (Z.ltb_spec 0 steps) as [_ | Hc]; [ | lia ].
  unfold CustomTrainer.create_optimizer_and_scheduler,
    CustomTrainer.create_optimizer in Hrun.
  cbn [CustomTrainer.optimizer CustomTrainer.init CustomTrainer.args] in Hrun.
  rewrite Hlr in Hrun.
  unfold CustomTrainer.create_scheduler, Py.str_eq in Hrun.
  cbn [CustomTrainer.scheduler CustomTrainer.set_optimizer CustomTrainer.init
       CustomTrainer.optimizer CustomTrainer.args] in Hrun.
  rewrite (get_warmup_steps_zero_ratio targs steps Hratio), Hws in Hrun.
  destruct (String.eqb_spec (Namespace.scheduler args) "linear") as [Hlin | Hlin].
  { cbn in Hrun. discriminate Hrun. }
  destruct (String.eqb_spec (Namespace.scheduler args) "cosine") as [Hcos | Hcos].
  { cbn [orb Py.bind fst snd] in Hrun.
    unfold Transformers.get_scheduler in Hrun.
    cbn [existsb Transformers.scheduler_types Py.str_eq String.eqb Ascii.eqb
         Bool.eqb orb Py.bind fst snd CustomTrainer.first_scheduler_step
         CustomTrainer.lr_scheduler CustomTrainer.set_lr_scheduler] in Hrun.
    destruct (Trainer.train _ _ _) as [out' | e]; cbn [Py.bind] in Hrun;
      [ | discriminate Hrun ].
    injection Hrun as <- _. cbn. split; [ reflexivity | ].
    left. split; [ exact Hcos | reflexivity ]. }
  destruct (String.eqb_spec (Namespace.scheduler args) "steplr") as [Hstep | Hstep].
  { cbn [orb Py.bind fst snd Torch.StepLR_init
         CustomTrainer.first_scheduler_step
         CustomTrainer.lr_scheduler CustomTrainer.set_lr_scheduler] in Hrun.
    destruct (Trainer.train _ _ _) as [out' | e]; cbn [Py.bind] in Hrun;
      [ | discriminate Hrun ].
    injection Hrun as <- _. cbn. split; [ reflexivity | ].
    right. split; [ exact Hstep | reflexivity ]. }
  cbn in Hrun. discriminate Hrun.
Qed.

End Runs.

(** The sample run with [--scheduler cosine]. *)
Lemma train_returns_a_partition_witness :
  exists run,
    Sample.train (Sample.args "focal" "cosine") = Return run
    /\ Permutation (X_train nat run ++ X_val nat run) (RE_train_dataset nat run)
    /\ X_train nat run <> []
    /\ X_val nat run <> []
    /\ (0 < Namespace.split_ratio (Sample.args "focal" "cosine"))%Q
    /\ (Namespace.split_ratio (Sample.args "focal" "cosine") < 1)%Q
    /\ 0 <= Namespace.seed (Sample.args "focal" "cosine") < 2 ^ 32
    /\ 0 < Namespace.batch (Sample.args "focal" "cosine").
Proof.
  assert (H : exists run, Sample.train (Sample.args "focal" "cosine") = Return run).
  { eexists. vm_compute. reflexivity. }
  destruct H as [run H]. exists run. split; [ exact H | ].
  unfold Sample.train in H.
  exact (train_returns_a_partition _ _ _ _ sample_permutation_shuffles
           _ _ _ _ _ _ _ _ _ _ _ _ _ _ _ _ H).
Defined.

(** The sample run with [--scheduler steplr]. *)
Lemma train_scheduler_of_run_witness :
  exists run,
    Sample.train (Sample.args "focal" "steplr") = Return run
    /\ 0 < Namespace.epochs (Sample.args "focal" "steplr")
    /\ CustomTrainer.optimizer (trainer nat run) = Some Sample.adamw
    /\ CustomTrainer.lr_scheduler (trainer nat run)
       = Some (Torch.StepLR Sample.adamw 1080 (1 # 2)).
Proof.
  assert (H : exists run, Sample.train (Sample.args "focal" "steplr") = Return run).
  { eexists. vm_compute. reflexivity. }
  destruct H as [run H]. exists run. split; [ exact H | ].
  split; [ reflexivity | ].
  unfold Sample.train in H.
  destruct (train_scheduler_of_run _ _ _ _ _ _ _ _ _ _ _ _ _ _ _ _ _ _ _ _ H
              eq_refl) as [Hopt [[Hname _] | [_ Hsched]]].
  - discriminate Hname.
  - split; [ exact Hopt | exact Hsched ].
Defined.

(** ** The command line *)

Lemma last_value_app (name : string) (cl cl' : command_line) :
  last_value name (cl ++ cl')
  = match last_value name cl' with
    | Some v => Some v
    | None => last_value name cl
    end.
Proof.
  induction cl as [| [n v] cl IH]; cbn.
  - destruct (last_value name cl'); reflexivity.
  - rewrite IH. destruct (last_value name cl'); reflexivity.
Qed.

Section Selectors.

Variable py_int : string -> option Z.
Variable py_float : string -> option Q.

(** X9: [--loss] and [--scheduler] take any string: given after an accepted
    command line they are accepted too, replace whatever was given for them
    before, and leave every other argument as it was. *)
Theorem parse_args_selectors_override :
  forall (cl : command_line) (args : Namespace.t) (loss scheduler : string),
    parse_args py_int py_float cl = Return args ->
    parse_args py_int py_float (cl ++ [("loss", loss); ("scheduler", scheduler)])
    = Return
        {| Namespace.seed := Namespace.seed args;
           Namespace.wandb_path := Namespace.wandb_path args;
           Namespace.model := Namespace.model args;
           Namespace.loss := loss;
           Namespace.scheduler := scheduler;
           Namespace.wandb_name := Namespace.wandb_name args;
           Namespace.epochs := Namespace.epochs args;
           Namespace.lr := Namespace.lr args;
           Namespace.batch := Namespace.batch args;
           Namespace.batch_valid := Namespace.batch_valid args;
           Namespace.warmup := Namespace.warmup args;
           Namespace.logging_steps := Namespace.logging_steps args;
           Namespace.weight_decay := Namespace.weight_decay args;
           Namespace.metric_for_best_model := Namespace.metric_for_best_model args;
           Namespace.add_token := Namespace.add_token args;
           Namespace.split_ratio := Namespace.split_ratio args;
           Namespace.augmentation := Namespace.augmentation args;
           Namespace.generate_option := Namespace.generate_option args;
           Namespace.warmup_steps := Namespace.warmup_steps args |}.
Proof.
  intros cl args loss scheduler H. unfold parse_args in *.
  rewrite forallb_app.
  destruct (forallb (accepted py_int py_float) cl); [ | discriminate H ].
  injection H as <-. cbn [andb forallb accepted fst snd].
  unfold attr. rewrite !last_value_app. reflexivity.
Qed.

End Selectors.

Lemma parse_args_selectors_override_witness :
  parse_args Sample.no_int Sample.no_float [("scheduler", "exponential")]
  = Return (Sample.args "focal" "exponential")
  /\ parse_args Sample.no_int Sample.no_float
       ([("scheduler", "exponential")] ++ [("loss", "CE"); ("scheduler", "steplr")])
     = Return (Sample.args "CE" "steplr").
Proof.
  split; [ reflexivity | ].
  exact (parse_args_selectors_override Sample.no_int Sample.no_float
           [("scheduler", "exponential")] (Sample.args "focal" "exponential")
           "CE" "steplr" eq_refl).
Defined.

(** ** The rounds of a run *)

(** X10: On a dataset of at least two batches, when the first evaluation
    does not report the metric named by [--metric_for_best_model] (under
    its [eval_] key), early stopping stays silent and the run ends at the
    first checkpoint with a [KeyError] for that key. *)
Theorem missing_metric_is_a_key_error :
  forall SAVE_DIR LOG_DIR (args : Namespace.t) n targs (self : CustomTrainer.t)
         (m : Trainer.metrics) (rounds : list Trainer.metrics),
    training_arguments SAVE_DIR LOG_DIR args n = Return targs ->
    custom_trainer args targs n = Return self ->
    0 < Namespace.batch args ->
    2 * Namespace.batch args <= n ->
    Trainer.metrics_get m (eval_key (Namespace.metric_for_best_model args)) = None ->
    Trainer.train targs (CustomTrainer.callbacks self) (m :: rounds)
    = Raise (KeyError (eval_key (Namespace.metric_for_best_model args))).
Proof.
  intros SAVE LOG args n targs self m rounds Htargs Hself Hbatch Hn Hget.
  destruct (training_arguments_returns _ _ _ _ _ Htargs) as (_ & Hfields & Hsteps).
  assert (Hq : 0 < n / Namespace.batch args / 2).
  { rewrite Z.div_div by lia. apply Z.div_str_pos. lia. }
  assert (Hchosen : TrainingArguments.metric_for_best_model targs
                    = Namespace.metric_for_best_model args).
  { rewrite Hfields. reflexivity. }
  assert (Hsave : TrainingArguments.save_steps targs = n / Namespace.batch args / 2).
  { rewrite Hfields. reflexivity. }
  assert (Hsaves : forall k,
            Trainer.should_save targs (Trainer.global_step targs k) = true).
  { apply should_save_every_round; [ lia | ].
    destruct Hsteps as [(H0 & _) | (_ & He)]; [ lia | congruence ]. }
  assert (Hcbs : CustomTrainer.callbacks self = [Trainer.EarlyStoppingCallback_init 2]).
  { unfold custom_trainer in Hself.
    destruct (Py.floordiv _ _) as [q | e]; cbn in Hself; [ | discriminate ].
    injection Hself as <-. reflexivity. }
  rewrite <- (metric_to_check_eval_key targs _ Hchosen) in Hget |- *.
  unfold Trainer.train. rewrite Hcbs. cbn [Trainer.training_loop].
  unfold Trainer.evaluation_round.
  cbn [Trainer.handler_on_evaluate Trainer.callbacks Trainer.state
       Trainer.should_training_stop Trainer.rounds_done].
  rewrite Hsaves.
  unfold Trainer.on_evaluate, Trainer.save_checkpoint. rewrite Hget.
  reflexivity.
Qed.

(** The metrics report accuracy only, the run monitors f1. *)
Lemma missing_metric_is_a_key_error_witness :
  training_arguments "./results" "./logs" (Sample.args "focal" "cosine") 100
  = Return Sample.targs
  /\ Trainer.train Sample.targs
       (CustomTrainer.callbacks (Sample.trainer "focal" "cosine"))
       ([("eval_accuracy", 9 # 10)] :: Sample.rounds)
     = Raise (KeyError "eval_f1").
Proof.
  split; [ reflexivity | ].
  apply (missing_metric_is_a_key_error "./results" "./logs"
           (Sample.args "focal" "cosine") 100 Sample.targs
           (Sample.trainer "focal" "cosine")
           [("eval_accuracy", 9 # 10)] Sample.rounds).
  - reflexivity.
  - reflexivity.
  - reflexivity.
  - intros H. discriminate H.
  - reflexivity.
Defined.

(** X11: On a dataset of at least two batches, while every round reports a
    better value of the metric than all rounds before it, the run is never
    cut short: all rounds are evaluated and the checkpoint loaded at the
    end is the one of the last round. *)
Theorem improving_run_is_never_stopped :
  forall SAVE_DIR LOG_DIR (args : Namespace.t) n targs (self : CustomTrainer.t)
         (rounds : list Trainer.metrics) (vs : list Q),
    training_arguments SAVE_DIR LOG_DIR args n = Return targs ->
    custom_trainer args targs n = Return self ->
    0 < Namespace.batch args ->
    2 * Namespace.batch args <= n ->
    reports (Namespace.metric_for_best_model args) rounds vs ->
    rounds <> [] ->
    (forall i j v w,
       (i < j)%nat -> nth_error vs i = Some v -> nth_error vs j = Some w ->
       better (Namespace.metric_for_best_model args) w v) ->
    exists out,
      Trainer.train targs (CustomTrainer.callbacks self) rounds = Return out
      /\ Trainer.evaluations out = length rounds
      /\ Trainer.loaded_checkpoint out = Some (length rounds - 1)%nat
      /\ Trainer.best_metric (Trainer.final_state out)
         = nth_error vs (length rounds - 1).
Proof.
  intros SAVE LOG args n targs self rounds vs Htargs Hself Hbatch Hn Hrep Hne
         Hbetter.
  set (metric := Namespace.metric_for_best_model args) in *.
  destruct (training_arguments_returns _ _ _ _ _ Htargs) as (_ & Hfields & Hsteps).
  assert (Hq : 0 < n / Namespace.batch args / 2).
  { rewrite Z.div_div by lia. apply Z.div_str_pos. lia. }
  assert (Hchosen : TrainingArguments.metric_for_best_model targs = metric).
  { rewrite Hfields. reflexivity. }
  assert (Hload : TrainingArguments.load_best_model_at_end targs = true).
  { rewrite Hfields. reflexivity. }
  assert (Hsave : TrainingArguments.save_steps targs = n / Namespace.batch args / 2).
  { rewrite Hfields. reflexivity. }
  assert (Hsaves : forall k,
            Trainer.should_save targs (Trainer.global_step targs k) = true).
  { apply should_save_every_round; [ lia | ].
    destruct Hsteps as [(H0 & _) | (_ & He)]; [ lia | congruence ]. }
  assert (Himp : forall i, fails_to_improve targs vs i = false).
  { intros i. destruct (fails_to_improve targs vs i) eqn:Hf; [ exfalso | reflexivity ].
    apply (fails_to_improve_iff targs metric Hchosen) in Hf.
    destruct Hf as [v [b [Hv [[[j [Hj Hjb]] _] Hnb]]]].
    apply Hnb. apply (Hbetter j i b v Hj Hjb Hv). }
  assert (Hcbs : CustomTrainer.callbacks self = [Trainer.EarlyStoppingCallback_init 2]).
  { unfold custom_trainer in Hself.
    destruct (Py.floordiv _ _) as [q | e]; cbn in Hself; [ | discriminate ].
    injection Hself as <-. reflexivity. }
  assert (Hlen : length rounds = length vs).
  { unfold reports in Hrep. apply (f_equal (@length _)) in Hrep.
    rewrite !length_map in Hrep. exact Hrep. }
  assert (Hpos : (0 < length rounds)%nat).
  { destruct rounds; [ contradiction | cbn; lia ]. }
  assert (Hrep' :
    map (fun m => Trainer.metrics_get m (Trainer.metric_to_check targs)) rounds
    = map Some (skipn 0 vs)).
  { rewrite (metric_to_check_eval_key targs metric Hchosen). exact Hrep. }
  destruct (training_loop_tracks targs vs Hsaves rounds 0 0 _
              (tracks_initial targs vs) ltac:(lia) Hrep')
    as [l' [c' [Hloop [Htr Hend]]]].
  unfold Trainer.train. rewrite Hcbs, Hloop. cbn [Py.bind].
  eexists. split; [ reflexivity | ].
  cbn [Trainer.evaluations Trainer.loaded_checkpoint Trainer.final_state].
  set (E := Trainer.rounds_done l') in *.
  pose proof (tracks_counter _ _ _ _ _ Htr) as Hc.
  pose proof (tracks_bound _ _ _ _ _ Htr) as Hbound.
  assert (HE0 : (0 < E)%nat).
  { destruct Hend as [[_ HE] | ->]; [ lia | ].
    destruct (Nat.eq_dec E 0) as [H0 | ]; [ | lia ].
    destruct (tracks_start _ _ _ _ _ Htr H0) as [_ Hc0]. lia. }
  assert (Hc0 : c' = 0).
  { destruct (Z.eq_dec c' 0) as [ | Hnz ]; [ assumption | exfalso ].
    pose proof (tracks_failed _ _ _ _ _ Htr 0%nat ltac:(lia)) as Hf.
    rewrite Himp in Hf. discriminate Hf. }
  subst c'.
  destruct Hend as [[_ HE] | Hc2]; [ | lia ].
  destruct (tracks_checkpoint _ _ _ _ _ Htr HE0)
    as [b [vb [Hb [Hbk [Hbnth [Hbm _]]]]]].
  assert (b = (length rounds - 1)%nat) by lia. subst b.
  rewrite Hload. split; [ lia | ]. split; [ exact Hb | ].
  rewrite Hbm, Hbnth. reflexivity.
Qed.

Lemma improving_values_improve :
  forall i j v w,
    (i < j)%nat ->
    nth_error Sample.improving_f1_values i = Some v ->
    nth_error Sample.improving_f1_values j = Some w ->
    better "f1" w v.
Proof.
  intros i j v w Hij Hv Hw.
  assert (Hj : (j < 3)%nat).
  { apply (proj1 (nth_error_Some Sample.improving_f1_values j)).
    rewrite Hw. discriminate. }
  destruct i as [| [| [| i]]]; destruct j as [| [| [| j]]];
    try lia; cbn in Hv, Hw;
    injection Hv as <-; injection Hw as <-; reflexivity.
Qed.

Lemma improving_rounds_are_not_empty : Sample.improving_rounds <> [].
Proof. discriminate. Qed.

Lemma improving_run_is_never_stopped_witness :
  exists out,
    Trainer.train Sample.targs
      (CustomTrainer.callbacks (Sample.trainer "focal" "cosine"))
      Sample.improving_rounds = Return out
    /\ Trainer.evaluations out = length Sample.improving_rounds
    /\ Trainer.loaded_checkpoint out
       = Some (length Sample.improving_rounds - 1)%nat
    /\ Trainer.best_metric (Trainer.final_state out)
       = nth_error Sample.improving_f1_values
           (length Sample.improving_rounds - 1).
Proof.
  apply (improving_run_is_never_stopped "./results" "./logs"
           (Sample.args "focal" "cosine") 100 Sample.targs
           (Sample.trainer "focal" "cosine")
           Sample.improving_rounds Sample.improving_f1_values).
  - reflexivity.
  - reflexivity.
  - reflexivity.
  - intros H. discriminate H.
  - reflexivity.
  - exact improving_rounds_are_not_empty.
  - exact improving_values_improve.
Defined.

(** Without saving steps the loop changes nothing but its round count:
    the state records no best value, so the callback resets its counter
    at every round. *)
Lemma training_loop_without_saves (args : TrainingArguments.t)
      (rounds : list Trainer.metrics) :
  (forall step, Trainer.should_save args step = false) ->
  forall k,
    Trainer.training_loop args
      {| Trainer.state := {| Trainer.best_metric := None;
                             Trainer.best_model_checkpoint := None |};
         Trainer.callbacks := [Trainer.EarlyStoppingCallback_init 2];
         Trainer.should_training_stop := false;
         Trainer.rounds_done := k |}
      rounds
    = Return
        {| Trainer.state := {| Trainer.best_metric := None;
                               Trainer.best_model_checkpoint := None |};
           Trainer.callbacks := [Trainer.EarlyStoppingCallback_init 2];
           Trainer.should_training_stop := false;
           Trainer.rounds_done := (k + length rounds)%nat |}.
Proof.
  intros Hnever. induction rounds as [| m rounds IH]; intros k.
  - cbn [Trainer.training_loop length]. rewrite Nat.add_0_r. reflexivity.
  - cbn [Trainer.training_loop length]. unfold Trainer.evaluation_round.
    rewrite Hnever.
    cbn [Trainer.handler_on_evaluate Trainer.callbacks Trainer.state
         Trainer.should_training_stop Trainer.rounds_done].
    unfold Trainer.on_evaluate.
    destruct (Trainer.metrics_get m (Trainer.metric_to_check args)) as [v |];
      cbn [Trainer.check_metric_value Trainer.best_metric
           Trainer.early_stopping_patience Trainer.early_stopping_threshold
           Trainer.early_stopping_patience_counter
           Trainer.EarlyStoppingCallback_init Z.leb Z.compare Py.bind
           Trainer.should_training_stop];
      rewrite IH; rewrite Nat.add_succ_r; reflexivity.
Qed.

(** X12: On a dataset of fewer than two batches no checkpoint is ever
    saved: whatever the evaluation rounds report, the run evaluates all of
    them, early stopping never fires, no best value is recorded and no
    checkpoint is loaded at the end. *)
Theorem small_dataset_never_saves :
  forall SAVE_DIR LOG_DIR (args : Namespace.t) n targs (self : CustomTrainer.t)
         (rounds : list Trainer.metrics),
    training_arguments SAVE_DIR LOG_DIR args n = Return targs ->
    custom_trainer args targs n = Return self ->
    0 < Namespace.batch args ->
    0 <= n < 2 * Namespace.batch args ->
    TrainingArguments.save_steps targs = 0
    /\ Trainer.train targs (CustomTrainer.callbacks self) rounds
       = Return {| Trainer.evaluations := length rounds;
                   Trainer.final_state :=
                     {| Trainer.best_metric := None;
                        Trainer.best_model_checkpoint := None |};
                   Trainer.loaded_checkpoint := None |}.
Proof.
  intros SAVE LOG args n targs self rounds Htargs Hself Hbatch Hn.
  destruct (training_arguments_returns _ _ _ _ _ Htargs) as (_ & Hfields & _).
  assert (Hsave : TrainingArguments.save_steps targs = 0).
  { rewrite Hfields. cbn [TrainingArguments.save_steps].
    rewrite Z.div_div by lia. apply Z.div_small. lia. }
  assert (Hcbs : CustomTrainer.callbacks self = [Trainer.EarlyStoppingCallback_init 2]).
  { unfold custom_trainer in Hself.
    destruct (Py.floordiv _ _) as [q | e]; cbn in Hself; [ | discriminate ].
    injection Hself as <-. reflexivity. }
  split; [ exact Hsave | ].
  unfold Trainer.train. rewrite Hcbs.
  rewrite (training_loop_without_saves targs rounds
             (should_save_never targs Hsave) 0).
  cbn [Py.bind Trainer.rounds_done Trainer.state Trainer.best_model_checkpoint
       Nat.add].
  destruct (TrainingArguments.load_best_model_at_end targs); reflexivity.
Qed.

(** 50 rows in batches of 32: the five sample rounds are all evaluated
    although the third and the fourth do not improve. *)
Lemma small_dataset_never_saves_witness :
  training_arguments "./results" "./logs" Sample.args_small 50
  = Return Sample.targs_small
  /\ TrainingArguments.save_steps Sample.targs_small = 0
  /\ Trainer.train Sample.targs_small
       (CustomTrainer.callbacks Sample.trainer_small) Sample.rounds
     = Return {| Trainer.evaluations := length Sample.rounds;
                 Trainer.final_state :=
                   {| Trainer.best_metric := None;
                      Trainer.best_model_checkpoint := None |};
                 Trainer.loaded_checkpoint := None |}.
Proof.
  split; [ reflexivity | ].
  apply (small_dataset_never_saves "./results" "./logs" Sample.args_small 50
           Sample.targs_small Sample.trainer_small Sample.rounds).
  - reflexivity.
  - reflexivity.
  - reflexivity.
  - split; [ intros H; discriminate H | reflexivity ].
Defined.
